(** * EvalAP: the experiment store, creation, retry and leaderboard paths

    A shallow embedding of [api/crud.py], [api/schemas.py] and
    [api/endpoints.py].  ORM objects are attribute maps (a Python object
    whose attributes are read with [getattr] and written with [setattr]),
    tables are lists of rows in storage order, exceptions are an explicit
    result type. *)

From Stdlib Require Import ZArith QArith Lia.
From stdpp Require Import base option list gmap fin_maps strings pretty sorting.

Local Open Scope string_scope.
Local Open Scope list_scope.

(** ** Python values and objects *)

(** A finite float is a rational; a JSON column is kept as the list of its
    items, each value in its printed form. *)
Inductive value : Type :=
| PNone
| PBool (b : bool)
| PInt (z : Z)
| PFloat (q : Q)
| PStr (s : string)
| PJson (items : list (string * string)).

#[global] Instance Q_eq_dec : EqDecision Q.
Proof. solve_decision. Defined.

#[global] Instance value_eq_dec : EqDecision value.
Proof. solve_decision. Defined.

(** Truth value of an object in a condition ([if x], [not x], [x and y]). *)
Definition truthy (v : value) : bool :=
  match v with
  | PNone => false
  | PBool b => b
  | PInt z => negb (Z.eqb z 0)
  | PFloat q => negb (Qeq_bool q 0)
  | PStr s => negb (String.eqb s EmptyString)
  | PJson items => negb (bool_decide (items = []))
  end.

(** A row of a table, loaded as an object: column name to value.  A column
    that holds NULL reads as [PNone]. *)
Abbreviation Row := (gmap string value).

Definition getattr (o : Row) (k : string) : value := default PNone (o !! k).
Definition setattr (o : Row) (k : string) (v : value) : Row := <[k:=v]> o.

(** Exceptions raised by the modelled code. *)
Inductive exn : Type :=
| SchemaError (msg : string)
| IntegrityError
| TypeError
| ValueError
| DatabaseError
| AttributeError
| ValidationError.

Inductive res (A : Type) : Type :=
| Ok (a : A)
| Raise (e : exn).
Arguments Ok {A} a.
Arguments Raise {A} e.

#[global] Instance res_ret : MRet res := fun _ a => Ok a.
#[global] Instance res_bind : MBind res := fun _ _ k m =>
  match m with
  | Ok a => k a
  | Raise e => Raise e
  end.

#[global] Instance res_fmap : FMap res := fun _ _ f m =>
  match m with
  | Ok a => Ok (f a)
  | Raise e => Raise e
  end.

(** ** Tables *)

(** [db.query(T).get(id)]: the row whose primary key is [id], with its
    position in the table. *)
Definition has_id (id : Z) (r : Row) : Prop := r !! "id" = Some (PInt id).

#[global] Instance has_id_dec id r : Decision (has_id id r).
Proof. unfold has_id. apply _. Defined.

Definition query_get (t : list Row) (id : Z) : option (nat * Row) :=
  list_find (has_id id) t.

Definition row_id (r : Row) : Z :=
  match r !! "id" with
  | Some (PInt z) => z
  | _ => 0%Z
  end.

(** The next value of a table's primary-key sequence. *)
Definition fresh_id (t : list Row) : Z :=
  (1 + foldr Z.max 0 (row_id <$> t))%Z.

Record Db : Type := mkDb {
  datasets : list Row;
  models : list Row;
  experimentsets : list Row;
  experiments : list Row;
  results : list Row;
  answers : list Row;
  observations : list Row
}.

Definition empty_db : Db := mkDb [] [] [] [] [] [] [].

(** ** crud.py: the update operations *)

Module Crud.

(** The loop shared by the four update functions:
    [for key, value in vars(update).items():
         setattr(obj, key, value) if value is not None else None]. *)
Definition update_fields (obj upd : Row) : Row :=
  map_fold (fun key v o => if decide (v = PNone) then o else setattr o key v)
           obj upd.

Definition update_dataset (db : Db) (dataset_id : Z) (dataset_update : Row)
  : option Row * Db :=
  match query_get (datasets db) dataset_id with
  | None => (None, db)
  | Some (i, db_dataset) =>
      let db_dataset' := update_fields db_dataset dataset_update in
      (Some db_dataset',
       mkDb (<[i:=db_dataset']> (datasets db)) (models db) (experimentsets db)
            (experiments db) (results db) (answers db) (observations db))
  end.

Definition update_result (db : Db) (result_id : Z) (result_update : Row)
  : option Row * Db :=
  match query_get (results db) result_id with
  | None => (None, db)
  | Some (i, db_result) =>
      let db_result' := update_fields db_result result_update in
      (Some db_result',
       mkDb (datasets db) (models db) (experimentsets db) (experiments db)
            (<[i:=db_result']> (results db)) (answers db) (observations db))
  end.

(** [db_exp.results]: the Result rows whose foreign key is the experiment
    the object was loaded for. *)
Definition owned_by (experiment_id : Z) (r : Row) : Prop :=
  r !! "experiment_id" = Some (PInt experiment_id).

#[global] Instance owned_by_dec e r : Decision (owned_by e r).
Proof. unfold owned_by. apply _. Defined.

(** [for result in db_exp.results: result.metric_status = finished]. *)
Definition finish_results (experiment_id : Z) (rs : list Row) : list Row :=
  (fun r => if decide (owned_by experiment_id r)
            then setattr r "metric_status" (PStr "finished") else r) <$> rs.

(** One iteration of the loop of [update_experiment]; the state is the
    experiment object and the Result table. *)
Definition update_experiment_step (experiment_id : Z) (key : string)
    (v : value) (st : Row * list Row) : Row * list Row :=
  let db_exp := if decide (v = PNone) then st.1 else setattr st.1 key v in
  if decide (key = "experiment_status" /\ v = PStr "finished")
  then (db_exp, finish_results experiment_id st.2)
  else (db_exp, st.2).

Definition update_experiment (db : Db) (experiment_id : Z)
    (experiment_update : Row) : option Row * Db :=
  match query_get (experiments db) experiment_id with
  | None => (None, db)
  | Some (i, db_exp) =>
      let st := map_fold (update_experiment_step experiment_id)
                         (db_exp, results db) experiment_update in
      (Some st.1,
       mkDb (datasets db) (models db) (experimentsets db)
            (<[i:=st.1]> (experiments db)) st.2 (answers db)
            (observations db))
  end.

Definition update_experimentset (db : Db) (experimentset_id : Z)
    (experimentset_update : Row) : option Row * Db :=
  match query_get (experimentsets db) experimentset_id with
  | None => (None, db)
  | Some (i, db_expset) =>
      let db_expset' := update_fields db_expset experimentset_update in
      (Some db_expset',
       mkDb (datasets db) (models db) (<[i:=db_expset']> (experimentsets db))
            (experiments db) (results db) (answers db) (observations db))
  end.

(** *** Removal of a dataset *)

Definition newline : string := String (Ascii.ascii_of_nat 10) EmptyString.

(** [db.query(func.count(Experiment.id)).filter(Experiment.dataset_id ==
    dataset_id).scalar()]. *)
Definition references_dataset (dataset_id : Z) (e : Row) : Prop :=
  e !! "dataset_id" = Some (PInt dataset_id).

#[global] Instance references_dataset_dec d e :
  Decision (references_dataset d e).
Proof. unfold references_dataset. apply _. Defined.

Definition linked_experiments (db : Db) (dataset_id : Z) : nat :=
  length (filter (references_dataset dataset_id) (experiments db)).

Definition linked_message (n : nat) : string :=
  "This dataset is linked to " +:+ pretty n +:+ " experiments." +:+ newline
  +:+ "You must either delete linked experiments or associated them to another dataset to remove this one.".

Definition remove_dataset (db : Db) (dataset_id : Z) : res (bool * Db) :=
  let n := linked_experiments db dataset_id in
  if decide (0 < n) then Raise (SchemaError (linked_message n))
  else
    match query_get (datasets db) dataset_id with
    | None => Ok (false, db)
    | Some (i, _) =>
        Ok (true,
            mkDb (delete i (datasets db)) (models db) (experimentsets db)
                 (experiments db) (results db) (answers db) (observations db))
    end.

(** *** The runner's upserts *)

(** [filter_by(num_line=num_line, <owner>=owner_id)]. *)
Definition keyed (owner : string) (owner_id num_line : Z) (r : Row) : Prop :=
  r !! "num_line" = Some (PInt num_line) /\ r !! owner = Some (PInt owner_id).

#[global] Instance keyed_dec owner o n r : Decision (keyed owner o n r).
Proof. unfold keyed. apply _. Defined.

(** [for k, v in fields.items(): setattr(obj, k, v)]. *)
Definition setattrs (obj fields : Row) : Row :=
  map_fold (fun k v o => setattr o k v) obj fields.

(** The key of a row under the unique constraint on ([owner], num_line);
    a row with a NULL in the key is not constrained. *)
Definition key_of (owner : string) (r : Row) : option (Z * Z) :=
  match r !! owner, r !! "num_line" with
  | Some (PInt o), Some (PInt n) => Some (o, n)
  | _, _ => None
  end.

(** Modelled from the spec: the unique constraint of the Answer and
    Observation tables (declared in api/models.py), checked by [db.commit()]:
    no two rows share (experiment_id, num_line), resp. (result_id,
    num_line). *)
Definition unique_keys (owner : string) (t : list Row) : Prop :=
  NoDup (omap (key_of owner) t).

(** [db.commit()] on the table: refused when the constraint is broken. *)
Definition commit_rows (owner : string) (t : list Row) : res (list Row) :=
  if decide (unique_keys owner t) then Ok t else Raise IntegrityError.

(** The constructor call with [owner], [num_line] and the unpacked fields as
    keywords: a keyword given
    twice is a TypeError; the primary key, when not given, comes from the
    table's sequence. *)
Definition construct (owner : string) (t : list Row) (owner_id num_line : Z)
    (fields : Row) : res Row :=
  if decide (is_Some (fields !! owner) \/ is_Some (fields !! "num_line"))
  then Raise TypeError
  else
    let obj := setattrs {[ owner := PInt owner_id; "num_line" := PInt num_line ]}
                        fields in
    Ok (if decide (is_Some (obj !! "id")) then obj
        else setattr obj "id" (PInt (fresh_id t))).

(** The body shared by [upsert_answer] and [upsert_observation], on the
    table it queries. *)
Definition upsert_rows (owner : string) (t : list Row) (owner_id num_line : Z)
    (fields : Row) : res (Row * list Row) :=
  match list_find (keyed owner owner_id num_line) t with
  | Some (i, db_row) =>
      let db_row' := setattrs db_row fields in
      t' ← commit_rows owner (<[i:=db_row']> t);
      Ok (db_row', t')
  | None =>
      db_row ← construct owner t owner_id num_line fields;
      t' ← commit_rows owner (t ++ [db_row]);
      Ok (db_row, t')
  end.

Definition upsert_answer (db : Db) (experiment_id num_line : Z) (answer : Row)
  : res (Row * Db) :=
  '(db_answer, t') ← upsert_rows "experiment_id" (answers db) experiment_id
                                 num_line answer;
  Ok (db_answer,
      mkDb (datasets db) (models db) (experimentsets db) (experiments db)
           (results db) t' (observations db)).

Definition upsert_observation (db : Db) (result_id num_line : Z)
    (observation : Row) : res (Row * Db) :=
  '(db_observation, t') ← upsert_rows "result_id" (observations db) result_id
                                      num_line observation;
  Ok (db_observation,
      mkDb (datasets db) (models db) (experimentsets db) (experiments db)
           (results db) (answers db) t').

(** The database after a call: an exception leaves it as it was. *)
Definition db_after {A} (r : res (A * Db)) (db : Db) : Db :=
  match r with
  | Ok (_, db') => db'
  | Raise _ => db
  end.

End Crud.

(** ** schemas.py: from a request to the rows to create *)

Module Schemas.

(** What [pd.read_json] makes of the [df] payload, as far as the schemas
    look at it: the column names and [len(df)]. *)
Record DataFrame : Type := mkDataFrame {
  columns : list string;
  nrows : nat
}.

Record DatasetCreate : Type := mkDatasetCreate {
  dc_name : string;
  dc_df : string
}.

Record ModelCreate : Type := mkModelCreate {
  mc_name : string;
  mc_base_url : string;
  mc_api_key : string;
  mc_prompt_system : option string;
  mc_sampling_params : option (list (string * string));
  mc_extra_params : option (list (string * string))
}.

(** [dataset: DatasetCreate | str]. *)
Inductive DatasetArg : Type :=
| DatasetNamed (name : string)
| DatasetGiven (d : DatasetCreate).

Record ExperimentCreate : Type := mkExperimentCreate {
  ec_name : string;
  ec_readme : option string;
  ec_experiment_set_id : option Z;
  ec_metrics : list string;
  ec_dataset : DatasetArg;
  ec_model : option ModelCreate
}.

(** The dictionary [ExperimentCreate.to_table_init] returns.  The scalar
    entries are [ei_fields]; [dataset] is either an object ([DatasetObj]: a
    row of the Dataset table, or a new [models.Dataset]/dict without [id])
    or, in a plain dump, still the name given ([DatasetStr]). *)
Inductive DatasetInit : Type :=
| DatasetObj (d : Row)
| DatasetStr (name : string).

Record ExperimentInit : Type := mkExperimentInit {
  ei_fields : Row;
  ei_metrics : list string;
  ei_dataset : DatasetInit;
  ei_model : option Row;
  ei_results : list Row
}.

Definition opt_str (o : option string) : value :=
  match o with Some s => PStr s | None => PNone end.
Definition opt_int (o : option Z) : value :=
  match o with Some z => PInt z | None => PNone end.
Definition opt_json (o : option (list (string * string))) : value :=
  match o with Some items => PJson items | None => PNone end.

Section schemas.
(** [metric_registry.get_metric(name).require] (api/metrics is not part of
    the sources at hand): the requirement set of a registered metric. *)
Variable require : string -> list string.
(** [pd.read_json(StringIO(df))]; [None] when it raises ValueError. *)
Variable read_json : string -> option DataFrame.

Definition has_column (c : string) (df : DataFrame) : bool :=
  bool_decide (c ∈ columns df).

Definition dataset_to_table_init (d : DatasetCreate) : res Row :=
  match read_json (dc_df d) with
  | None =>
      Raise (SchemaError
        "'df' should be a readable dataframe. Use df.to_json()...")
  | Some df =>
      let has_query := has_column "query" df in
      let has_output := has_column "output" df in
      let has_output_true := has_column "output_true" df in
      if negb (has_query || has_output)
      then Raise (SchemaError
             "Your dataset needs at least a column 'query' or 'ouput'.")
      else Ok ({[ "has_query" := PBool has_query;
                  "has_output" := PBool has_output;
                  "has_output_true" := PBool has_output_true;
                  "size" := PInt (Z.of_nat (nrows df));
                  "name" := PStr (dc_name d);
                  "df" := PStr (dc_df d) ]} : Row)
  end.

(** [EgBaseModel.to_table_init], which ModelCreate inherits: the dump. *)
Definition model_to_table_init (m : ModelCreate) : Row :=
  {[ "name" := PStr (mc_name m);
     "base_url" := PStr (mc_base_url m);
     "api_key" := PStr (mc_api_key m);
     "prompt_system" := opt_str (mc_prompt_system m);
     "sampling_params" := opt_json (mc_sampling_params m);
     "extra_params" := opt_json (mc_extra_params m) ]}.

Definition result_to_table_init (metric_name : string) : Row :=
  {[ "metric_status" := PStr "pending";
     "metric_name" := PStr metric_name;
     "experiment_id" := PNone ]}.

(** [ExperimentCreate.recurse_table_init]: the dump, with the [dataset]
    and [model] sub-schemas replaced by their [to_table_init]. *)
Definition experiment_recurse_table_init (e : ExperimentCreate)
  : res ExperimentInit :=
  dataset ← match ec_dataset e with
            | DatasetNamed name => Ok (DatasetStr name)
            | DatasetGiven d => DatasetObj <$> dataset_to_table_init d
            end;
  Ok (mkExperimentInit
        {[ "name" := PStr (ec_name e);
           "readme" := opt_str (ec_readme e);
           "experiment_set_id" := opt_int (ec_experiment_set_id e) ]}
        (ec_metrics e) dataset (model_to_table_init <$> ec_model e) []).

(** [any(c in mr.get_metric(m).require for m in self.metrics)]. *)
Definition needs (c : string) (metrics : list string) : bool :=
  existsb (fun m => bool_decide (c ∈ require m)) metrics.

Definition named (name : string) (d : Row) : Prop :=
  d !! "name" = Some (PStr name).

#[global] Instance named_dec name d : Decision (named name d).
Proof. unfold named. apply _. Defined.

Definition experiment_to_table_init (db : Db) (e : ExperimentCreate)
  : res ExperimentInit :=
  obj ← experiment_recurse_table_init e;
  (* Handle Dataset *)
  dataset ← match ei_dataset obj with
            | DatasetStr name =>
                match list_find (named name) (datasets db) with
                | Some (_, d) => Ok d
                | None => Raise (SchemaError "Dataset not found")
                end
            | DatasetObj d => Ok d
            end;
  (* Handle Results *)
  let results := result_to_table_init <$> ec_metrics e in
  (* Validate Model and metric compatibility *)
  let needs_query := needs "query" (ec_metrics e) in
  let needs_output := needs "output" (ec_metrics e) in
  let needs_output_true := needs "output_true" (ec_metrics e) in
  let has c := truthy (getattr dataset c) in
  let no_model := bool_decide (ec_model e = None) in
  if needs_query && negb (has "has_query")
  then Raise (SchemaError "You need to provide a query for this metric. ")
  else if needs_output && no_model && negb (has "has_output")
  then Raise (SchemaError
    "You need to provide an answer for this metric. Either set a model to generate it or provide a dataset with the 'output' field.")
  else if needs_output && negb (has "has_output") && negb (has "has_query")
  then Raise (SchemaError
    "You need to provide an answer for this metric. Either provide a dataset with the 'query' field to generate the answer or with an 'output' field if have generated it yourself.")
  else if needs_output_true && negb (has "has_output_true")
  then Raise (SchemaError
    "You need to provide a ground truth for this metric. Your dataset needs to have an 'output_true' field.")
  else if has "has_output" && negb no_model
  then Raise (SchemaError
    "You can't give at the same time a model and a dataset with an answer ('output' column). Gives either one or the other.")
  else
    Ok (mkExperimentInit
          (<["experiment_status" := PStr "pending"]> (ei_fields obj))
          (ei_metrics obj) (DatasetObj dataset) (ei_model obj) results).

(** *** Experiment sets *)

(** The objects of a parameter grid ([dict[str, Any]]) and the two things
    done with them: a string is stored under a key, and pydantic turns the
    dictionary into an ExperimentCreate (the constructor called on the
    unpacked dictionary; a ValidationError otherwise). *)
Variable Any : Type.
Variable str_obj : string -> Any.
Variable validate_experiment : gmap string Any -> res ExperimentCreate.

Record GridCV : Type := mkGridCV {
  common_params : gmap string Any;
  grid_params : list (string * list Any);
  repeat : Z
}.

Record ExperimentSetCreate : Type := mkExperimentSetCreate {
  sc_name : string;
  sc_readme : option string;
  sc_experiments : option (list ExperimentCreate);
  sc_cv : option GridCV
}.

Record ExperimentSetInit : Type := mkExperimentSetInit {
  si_fields : Row;
  si_experiments : option (list ExperimentInit)
}.

(** Modelled from the spec: build_param_grid of api/utils.py, which is not
    among the sources: one parameter dictionary per point of the Cartesian
    product of the grid lists, each on top of the common parameters; the
    first key varies slowest. *)
Fixpoint build_param_grid (common : gmap string Any)
    (grid : list (string * list Any)) : list (gmap string Any) :=
  match grid with
  | [] => [common]
  | (k, vs) :: rest =>
      v ← vs; p ← build_param_grid common rest; [<[k:=v]> p]
  end.

Definition auto_name (set_name : string) (i : nat) : string :=
  set_name +:+ "__" +:+ pretty i.

(** [for _ in range(repeat)]: the body, [n] more times, on the dictionary
    [experiment], the counter [i] and the list built so far. *)
Fixpoint repeat_loop (db : Db) (set_name : string) (n : nat)
    (experiment : gmap string Any) (i : nat) (experiments : list ExperimentInit)
  : res (nat * list ExperimentInit) :=
  match n with
  | O => Ok (i, experiments)
  | S n' =>
      let experiment := <["name" := str_obj (auto_name set_name i)]> experiment in
      e ← validate_experiment experiment;
      init ← experiment_to_table_init db e;
      repeat_loop db set_name n' experiment (S i) (experiments ++ [init])
  end.

(** [for experiment in build_param_grid(...)]. *)
Fixpoint grid_loop (db : Db) (set_name : string) (rep : Z)
    (points : list (gmap string Any)) (i : nat)
    (experiments : list ExperimentInit) : res (nat * list ExperimentInit) :=
  match points with
  | [] => Ok (i, experiments)
  | experiment :: points' =>
      '(i', experiments') ← repeat_loop db set_name (Z.to_nat rep) experiment
                                        i experiments;
      grid_loop db set_name rep points' i' experiments'
  end.

Fixpoint recurse_list (es : list ExperimentCreate) : res (list ExperimentInit) :=
  match es with
  | [] => Ok []
  | e :: es' =>
      o ← experiment_recurse_table_init e;
      os ← recurse_list es';
      Ok (o :: os)
  end.

Definition experimentset_to_table_init (db : Db) (s : ExperimentSetCreate)
  : res ExperimentSetInit :=
  (* recurse_table_init: the members given are dumped *)
  dumped ← match sc_experiments s with
           | Some es => Some <$> recurse_list es
           | None => Ok None
           end;
  let fields : Row := {[ "name" := PStr (sc_name s);
                         "readme" := opt_str (sc_readme s) ]} in
  match sc_experiments s, sc_cv s with
  | Some _, Some _ =>
      Raise (SchemaError
        "Please, give either an expriments or a cv parameter but not both.")
  | _, Some cv =>
      '(_, experiments) ← grid_loop db (sc_name s) (repeat cv)
          (build_param_grid (common_params cv) (grid_params cv)) 0 [];
      Ok (mkExperimentSetInit fields (Some experiments))
  | _, None => Ok (mkExperimentSetInit fields dumped)
  end.

End schemas.

End Schemas.

(** ** crud.py: creation *)

Module Create.
Import Schemas.

(** SQL equality: NULL equals nothing. *)
Definition sql_eq (a b : value) : Prop := a <> PNone /\ a = b.

#[global] Instance sql_eq_dec a b : Decision (sql_eq a b).
Proof. unfold sql_eq. apply _. Defined.

(** [db.add(obj)] for a new row: the primary key comes from the sequence
    unless the object carries one. *)
Definition add_row (t : list Row) (r : Row) : Row * list Row :=
  let r' := if decide (is_Some (r !! "id")) then r
            else <["id" := PInt (fresh_id t)]> r in
  (r', t ++ [r']).

(** The relationships of a loaded object, resolved through its foreign
    keys. *)
Definition exp_dataset (db : Db) (e : Row) : option Row :=
  snd <$> list_find (fun d => sql_eq (getattr d "id") (getattr e "dataset_id"))
                    (datasets db).

Definition exp_results (db : Db) (e : Row) : list Row :=
  filter (fun r => sql_eq (getattr r "experiment_id") (getattr e "id"))
         (results db).

Definition set_experiments (db : Db) (s : Row) : list Row :=
  filter (fun e => sql_eq (getattr e "experiment_set_id") (getattr s "id"))
         (experiments db).

(** Modelled from the spec: the unique constraints of the schema
    (api/models.py is not among the sources), checked by [db.commit()]:
    Dataset.name, and Experiment.name within its set. *)
Definition set_and_name (e : Row) : option (Z * value) :=
  match e !! "experiment_set_id" with
  | Some (PInt s) => Some (s, getattr e "name")
  | _ => None
  end.

(** Modelled from the spec: [db.commit()] under these two constraints. *)
Definition commit (db : Db) : res Db :=
  if decide (NoDup ((fun d => getattr d "name") <$> datasets db) /\
             NoDup (omap set_and_name (experiments db)))
  then Ok db else Raise IntegrityError.

(** Modelled from the spec: create_object_from_dict of api/models.py, which
    is not among the sources, for the dictionary of an experiment: the
    scalar entries become the columns of the Experiment row, the [dataset]
    and [model] entries its related rows (a new one each, unless the dataset
    is already stored), every entry of [results] a Result row of the
    experiment; counters start at 0.  The caller adds the objects and
    commits. *)
Definition stage_experiment (db : Db) (init : ExperimentInit)
  : res (Row * Db) :=
  match ei_dataset init with
  | DatasetStr _ => Raise TypeError
  | DatasetObj d =>
      let ds := if decide (is_Some (d !! "id")) then (d, datasets db)
                else add_row (datasets db) d in
      let md := match ei_model init with
                | Some m => let added := add_row (models db) m in
                            (getattr added.1 "id", added.2)
                | None => (PNone, models db)
                end in
      let ex := add_row (experiments db)
                  (<["dataset_id" := getattr ds.1 "id"]>
                   (<["model_id" := md.1]>
                    (<["num_try" := PInt 0]>
                     (<["num_success" := PInt 0]> (ei_fields init))))) in
      let results' :=
        foldl (fun t r =>
                 (add_row t (<["experiment_id" := getattr ex.1 "id"]>
                             (<["num_try" := PInt 0]>
                              (<["num_success" := PInt 0]>
                               (delete "id" r))))).2)
              (results db) (ei_results init) in
      Ok (ex.1,
          mkDb ds.2 md.2 (experimentsets db) ex.2 results'
               (answers db) (observations db))
  end.

(** [crud.create_experiment] on a dictionary. *)
Definition create_experiment_dict (db : Db) (init : ExperimentInit)
  : res (Row * Db) :=
  '(db_exp, db') ← stage_experiment db init;
  db'' ← commit db';
  Ok (db_exp, db'').

Section create.
Variable require : string -> list string.
Variable read_json : string -> option DataFrame.
Variable Any : Type.
Variable str_obj : string -> Any.
Variable validate_experiment : gmap string Any -> res ExperimentCreate.

(** [crud.create_experiment] on a schema object. *)
Definition create_experiment (db : Db) (experiment : ExperimentCreate)
  : res (Row * Db) :=
  init ← experiment_to_table_init require read_json db experiment;
  create_experiment_dict db init.

(** The members of a set are staged one after the other, each under the
    set's id. *)
Fixpoint stage_members (db : Db) (set_id : value)
    (members : list ExperimentInit) : res Db :=
  match members with
  | [] => Ok db
  | init :: members' =>
      '(_, db') ← stage_experiment db
          (mkExperimentInit
             (<["experiment_set_id" := set_id]> (ei_fields init))
             (ei_metrics init) (ei_dataset init) (ei_model init)
             (ei_results init));
      stage_members db' set_id members'
  end.

Definition create_experimentset (db : Db)
    (experimentset : ExperimentSetCreate Any) : res (Row * Db) :=
  init ← experimentset_to_table_init require read_json Any str_obj
           validate_experiment db experimentset;
  let '(db_expset, sets') := add_row (experimentsets db) (si_fields init) in
  let db1 := mkDb (datasets db) (models db) sets' (experiments db)
                  (results db) (answers db) (observations db) in
  db2 ← stage_members db1 (getattr db_expset "id")
          (default [] (si_experiments init));
  db3 ← commit db2;
  Ok (db_expset, db3).
End create.

End Create.

(** ** crud.py: the leaderboard query *)

Module Leaderboard.
Import Create.

Record LeaderboardEntry : Type := mkLeaderboardEntry {
  le_experiment_id : value;
  le_model_name : value;
  le_dataset_name : value;
  le_main_metric_score : value;
  le_other_metrics : gmap string value;
  le_sampling_param : list (string * string);
  le_extra_param : list (string * string)
}.

(** A row of the main query. *)
Record Ranked : Type := mkRanked {
  rk_experiment_id : value;
  rk_model_name : value;
  rk_dataset_name : value;
  rk_main_metric_score : value;
  rk_sampling_params : value;
  rk_extra_params : value
}.

Definition score_of (v : value) : option Q :=
  match v with
  | PFloat q => Some q
  | PInt z => Some (inject_Z z)
  | _ => None
  end.

(** [func.max]: NULL scores are skipped; NULL when there is none. *)
Definition sql_max (scores : list value) : value :=
  foldr (fun v acc =>
           match score_of v, score_of acc with
           | Some x, Some y => if Qle_bool x y then acc else v
           | Some _, None => v
           | None, _ => acc
           end) PNone scores.

(** [Result JOIN ObservationTable], filtered on the metric wanted: the
    experiment and the score of each observation of such a Result. *)
Definition metric_observations (db : Db) (keep : Row -> bool)
  : list (Row * Row) :=
  r ← results db;
  o ← observations db;
  if decide (sql_eq (getattr o "result_id") (getattr r "id")) then
    (if keep r then [(r, o)] else [])
  else [].

(** The subquery: per experiment, the maximum score of the metric. *)
Definition main_metric_subquery (db : Db) (metric_name : string)
  : list (value * value) :=
  let joined := metric_observations db
      (fun r => bool_decide (sql_eq (getattr r "metric_name") (PStr metric_name))) in
  let groups := remove_dups ((fun ro => getattr ro.1 "experiment_id") <$> joined) in
  (fun g => (g, sql_max ((fun ro => getattr ro.2 "score") <$>
                          filter (fun ro => getattr ro.1 "experiment_id" = g)
                                 joined))) <$> groups.

(** ORDER BY main_metric_score DESC; NULL sorts first. *)
Definition score_ge (a b : Ranked) : Prop :=
  match score_of (rk_main_metric_score a), score_of (rk_main_metric_score b) with
  | None, _ => True
  | Some _, None => False
  | Some x, Some y => Qle_bool y x = true
  end.

#[global] Instance score_ge_dec a b : Decision (score_ge a b).
Proof.
  unfold score_ge.
  destruct (score_of (rk_main_metric_score a)),
    (score_of (rk_main_metric_score b)); apply _.
Defined.

Definition json_items (v : value) : list (string * string) :=
  match v with
  | PJson items => items
  | _ => []
  end.

Definition get_leaderboard (db : Db) (metric_name : string)
    (dataset_name : option string) (limit : Z) : res (list LeaderboardEntry) :=
  let sub := main_metric_subquery db metric_name in
  let query :=
    e ← experiments db;
    m ← models db;
    if decide (sql_eq (getattr e "model_id") (getattr m "id")) then
      d ← datasets db;
      if decide (sql_eq (getattr e "dataset_id") (getattr d "id")) then
        s ← sub;
        if decide (sql_eq (getattr e "id") s.1) then
          [mkRanked (getattr e "id") (getattr m "name") (getattr d "name") s.2
                    (getattr m "sampling_params") (getattr m "extra_params")]
        else []
      else []
    else [] in
  let query :=
    match dataset_name with
    | Some name =>
        if decide (name = EmptyString) then query
        else filter (fun r => sql_eq (rk_dataset_name r) (PStr name)) query
    | None => query
    end in
  if decide (limit < 0)%Z then Raise DatabaseError
  else
    let rows := take (Z.to_nat limit) (merge_sort score_ge query) in
    Ok ((fun result =>
           let other_metrics :=
             metric_observations db
               (fun r => bool_decide
                  (sql_eq (getattr r "experiment_id") (rk_experiment_id result)
                   /\ getattr r "metric_name" <> PNone
                   /\ getattr r "metric_name" <> PStr metric_name)) in
           mkLeaderboardEntry
             (rk_experiment_id result) (rk_model_name result)
             (rk_dataset_name result) (rk_main_metric_score result)
             (foldl (fun acc ro =>
                       match getattr ro.1 "metric_name" with
                       | PStr metric => <[metric := getattr ro.2 "score"]> acc
                       | _ => acc
                       end) ∅ other_metrics)
             (json_items (rk_sampling_params result))
             (json_items (rk_extra_params result))) <$> rows).

End Leaderboard.

(** ** The names of appended experiments *)

Module Names.

Definition is_digit (a : Ascii.ascii) : bool :=
  Nat.leb 48 (Ascii.nat_of_ascii a) && Nat.leb (Ascii.nat_of_ascii a) 57.

Definition is_space (a : Ascii.ascii) : bool :=
  let n := Ascii.nat_of_ascii a in
  Nat.eqb n 32 || (Nat.leb 9 n && Nat.leb n 13).

Definition underscore : Ascii.ascii := Ascii.ascii_of_nat 95.
Definition newline_char : Ascii.ascii := Ascii.ascii_of_nat 10.

Fixpoint take_while {A} (p : A -> bool) (l : list A) : list A :=
  match l with
  | [] => []
  | a :: l' => if p a then a :: take_while p l' else []
  end.

Fixpoint drop_while {A} (p : A -> bool) (l : list A) : list A :=
  match l with
  | [] => []
  | a :: l' => if p a then drop_while p l' else l
  end.

(** [re.search(r"__\d+$", name)] on an ASCII name: the name, less one final
    newline if it has one, ends with two underscores and one or more
    digits. *)
Definition numeric_suffix (name : string) : bool :=
  let r := rev (String.list_ascii_of_string name) in
  let r := match r with
           | a :: r' => if Ascii.eqb a newline_char then r' else r
           | [] => r
           end in
  match take_while is_digit r, drop_while is_digit r with
  | _ :: _, a :: b :: _ => Ascii.eqb a underscore && Ascii.eqb b underscore
  | _, _ => false
  end.

(** [name.split("__")]: [cur] is the part being read. *)
Fixpoint split_go (s : string) (cur : string) : list string :=
  match s with
  | EmptyString => [cur]
  | String a s' =>
      match s' with
      | String b rest =>
          if Ascii.eqb a underscore && Ascii.eqb b underscore
          then cur :: split_go rest EmptyString
          else split_go s' (cur +:+ String a EmptyString)
      | EmptyString => [cur +:+ String a EmptyString]
      end
  end.

Definition split (name : string) : list string := split_go name EmptyString.

(** ["__".join(parts)]. *)
Fixpoint join (parts : list string) : string :=
  match parts with
  | [] => EmptyString
  | [p] => p
  | p :: ps => p +:+ "__" +:+ join ps
  end.

(** [int(s)] for the strings it is called on here, the last part of a name
    with a numeric suffix: surrounding white space is dropped and what is
    left has to be digits. *)
Definition py_int (s : string) : option nat :=
  let l := drop_while is_space (String.list_ascii_of_string s) in
  let l := rev (drop_while is_space (rev l)) in
  match l with
  | [] => None
  | _ =>
      if forallb is_digit l
      then Some (foldl (fun n a => 10 * n + (Ascii.nat_of_ascii a - 48)) 0 l)
      else None
  end.

(** The new name of an appended experiment, in a set that has [count]
    experiments and whose name is [set_name]. *)
Definition bump (name : string) (count : nat) (set_name : value)
  : res string :=
  if numeric_suffix name then
    let parts := split name in
    n ← match py_int (default EmptyString (last parts)) with
        | Some n => Ok n
        | None => Raise ValueError
        end;
    let parts := <[length parts - 1 := pretty (n + count)]> parts in
    parts ← (if decide (head parts = Some "None")
             then match set_name with
                  | PStr s => Ok (<[0 := s]> parts)
                  | _ => Raise TypeError
                  end
             else Ok parts);
    Ok (join parts)
  else Ok name.

End Names.

(** ** endpoints.py *)

Module Endpoints.
Import Schemas Create.

(** A call to the dispatcher (api/runners), which is not part of the
    sources at hand: the calls made are recorded in the order they are
    made. *)
Record RetryRuns : Type := mkRetryRuns {
  experiment_ids : list value;
  result_ids : list value
}.

Inductive call : Type :=
| dispatch_tasks (db_exp : Row) (phase : string)
| dispatch_retries (rr : RetryRuns).

Record World : Type := mkWorld {
  world_db : Db;
  world_calls : list call
}.

(** What the client gets: the body of a 2xx answer, an HTTP error, or the
    exception that left the handler. *)
Inductive response (A : Type) : Type :=
| Json (body : A)
| HttpError (status : nat) (detail : string)
| Conflict
| Uncaught (e : exn).
Arguments Json {A} body.
Arguments HttpError {A} status detail.
Arguments Conflict {A}.
Arguments Uncaught {A} e.

(** [except (SchemaError, ValidationError) ... except IntegrityError ...
    except Exception as e: raise e]; [str(e)] of a schema error is its
    message. *)
Definition handle {A} (e : exn) : response A :=
  match e with
  | SchemaError msg => HttpError 400 msg
  | ValidationError => HttpError 400 "validation error"
  | IntegrityError => Conflict
  | _ => Uncaught e
  end.

Section endpoints.
Variable require : string -> list string.
Variable read_json : string -> option DataFrame.
Variable Any : Type.
Variable str_obj : string -> Any.
Variable validate_experiment : gmap string Any -> res ExperimentCreate.

Definition metric_requires_output (r : Row) : bool :=
  match getattr r "metric_name" with
  | PStr m => bool_decide ("output" ∈ require m)
  | _ => false
  end.

(** [_needs_output]; an experiment without dataset has no [has_output] to
    read. *)
Definition _needs_output (db : Db) (db_exp : Row) : res bool :=
  match exp_dataset db db_exp with
  | None => Raise AttributeError
  | Some dataset =>
      Ok (negb (truthy (getattr dataset "has_output")) &&
          existsb metric_requires_output (exp_results db db_exp))
  end.

(** The [if _needs_output(db_exp): ... else: ...] of the three handlers
    that create experiments. *)
Definition dispatch_first_phase (w : World) (db_exp : Row) : res World :=
  b ← _needs_output (world_db w) db_exp;
  Ok (mkWorld (world_db w)
        (world_calls w ++
         [dispatch_tasks db_exp (if b : bool then "answers" else "observations")])).

Definition create_experiment (w : World) (experiment : ExperimentCreate)
  : World * response Row :=
  match Create.create_experiment require read_json (world_db w) experiment with
  | Raise e => (w, handle e)
  | Ok (db_exp, db') =>
      match dispatch_first_phase (mkWorld db' (world_calls w)) db_exp with
      | Ok w' => (w', Json db_exp)
      | Raise e => (mkWorld db' (world_calls w), handle e)
      end
  end.

(** [for db_exp in db_expset.experiments]: the world reached, and the
    exception that stopped the loop, if any. *)
Fixpoint dispatch_members (w : World) (members : list Row)
  : World * option exn :=
  match members with
  | [] => (w, None)
  | db_exp :: members' =>
      match dispatch_first_phase w db_exp with
      | Ok w' => dispatch_members w' members'
      | Raise e => (w, Some e)
      end
  end.

Definition create_experimentset (w : World)
    (experimentset : ExperimentSetCreate Any) : World * response Row :=
  match Create.create_experimentset require read_json Any str_obj
          validate_experiment (world_db w) experimentset with
  | Raise e => (w, handle e)
  | Ok (db_expset, db') =>
      match dispatch_members (mkWorld db' (world_calls w))
                             (set_experiments db' db_expset) with
      | (w', None) => (w', Json db_expset)
      | (w', Some e) => (w', handle e)
      end
  end.

(** *** POST /retry/experiment_set/{id} *)

Definition failed (o : Row) : Prop :=
  getattr o "num_try" <> getattr o "num_success".

Definition finished (status : string) (o : Row) : Prop :=
  getattr o status = PStr "finished".

#[global] Instance failed_dec o : Decision (failed o).
Proof. unfold failed. apply _. Defined.

#[global] Instance finished_dec status o : Decision (finished status o).
Proof. unfold finished. apply _. Defined.

(** [for result in exp.results]. *)
Fixpoint retry_results (rs : list Row) (rr : RetryRuns) : RetryRuns :=
  match rs with
  | [] => rr
  | result :: rs' =>
      if decide (~ finished "metric_status" result) then retry_results rs' rr
      else if decide (failed result)
      then retry_results rs'
             (mkRetryRuns (experiment_ids rr)
                          (result_ids rr ++ [getattr result "id"]))
      else retry_results rs' rr
  end.

(** [for exp in experimentset.experiments]. *)
Fixpoint retry_experiments (db : Db) (exps : list Row) (rr : RetryRuns)
  : res RetryRuns :=
  match exps with
  | [] => Ok rr
  | exp :: exps' =>
      if decide (~ finished "experiment_status" exp)
      then retry_experiments db exps' rr
      else
        answers_failed ← (if decide (failed exp) then _needs_output db exp
                          else Ok false);
        if answers_failed : bool
        then retry_experiments db exps'
               (mkRetryRuns (experiment_ids rr ++ [getattr exp "id"])
                            (result_ids rr))
        else retry_experiments db exps'
               (retry_results (exp_results db exp) rr)
  end.

Definition retry_runs (w : World) (id : Z) : World * response RetryRuns :=
  match query_get (experimentsets (world_db w)) id with
  | None => (w, HttpError 404 "ExperimentSet not found")
  | Some (_, experimentset) =>
      match retry_experiments (world_db w)
              (set_experiments (world_db w) experimentset)
              (mkRetryRuns [] []) with
      | Raise e => (w, Uncaught e)
      | Ok rr =>
          (mkWorld (world_db w) (world_calls w ++ [dispatch_retries rr]),
           Json rr)
      end
  end.

(** *** GET /leaderboard *)

(** The query string: the handler declares [metric_name] and [limit]; a
    parameter it does not declare is not read. *)
Record LeaderboardQuery : Type := mkLeaderboardQuery {
  q_metric_name : option string;
  q_dataset_name : option string;
  q_limit : option Z
}.

Definition read_leaderboard (w : World) (q : LeaderboardQuery)
  : response (list Leaderboard.LeaderboardEntry) :=
  let metric_name := default "judge_notator" (q_metric_name q) in
  let limit := default 100%Z (q_limit q) in
  match Leaderboard.get_leaderboard (world_db w) metric_name None limit with
  | Ok entries => Json entries
  | Raise e => Uncaught e
  end.

(** *** PATCH /experiment_set/{id} *)

(** The patch: the scalar fields that [crud.update_experimentset] writes,
    and the experiments to append as [to_table_init] gives them. *)
Record ExperimentSetPatch : Type := mkExperimentSetPatch {
  sp_fields : Row;
  sp_experiments : option (list ExperimentInit)
}.

(** [for experiment in expset.get("experiments") or []].  The set object
    is live: [db_expset.experiments] is read from the database each time
    round. *)
Fixpoint append_experiments (w : World) (id : Z) (db_expset : Row)
    (exps : list ExperimentInit) : World * option exn :=
  match exps with
  | [] => (w, None)
  | experiment :: exps' =>
      let fields := <["experiment_set_id" := PInt id]> (ei_fields experiment) in
      let created :=
        name ← match getattr fields "name" with
               | PStr name =>
                   Names.bump name
                     (length (set_experiments (world_db w) db_expset))
                     (getattr db_expset "name")
               | _ => Raise TypeError
               end;
        create_experiment_dict (world_db w)
          (mkExperimentInit (<["name" := PStr name]> fields)
             (ei_metrics experiment) (ei_dataset experiment)
             (ei_model experiment) (ei_results experiment)) in
      match created with
      | Raise e => (w, Some e)
      | Ok (db_exp, db') =>
          match dispatch_first_phase (mkWorld db' (world_calls w)) db_exp with
          | Ok w' => append_experiments w' id db_expset exps'
          | Raise e => (mkWorld db' (world_calls w), Some e)
          end
      end
  end.

Definition patch_experimentset (w : World) (id : Z)
    (experimentset_patch : ExperimentSetPatch) : World * response Row :=
  match Crud.update_experimentset (world_db w) id
          (sp_fields experimentset_patch) with
  | (None, _) => (w, HttpError 404 "Experiment not found")
  | (Some db_expset, db1) =>
      match append_experiments (mkWorld db1 (world_calls w)) id db_expset
              (default [] (sp_experiments experimentset_patch)) with
      | (w', None) => (w', Json db_expset)
      | (w', Some e) => (w', Uncaught e)
      end
  end.

End endpoints.

End Endpoints.

(** ** crud.py: the other queries, creations and removals *)

Module CrudRest.
Import Crud Schemas Create.

(** Truth of an optional argument: [None], 0 and the empty string are
    false. *)
Definition given_id (o : option Z) : bool :=
  match o with
  | Some z => negb (Z.eqb z 0)
  | None => false
  end.

Definition given_name (o : option string) : bool :=
  match o with
  | Some s => negb (String.eqb s EmptyString)
  | None => false
  end.

Definition get_dataset (db : Db) (dataset_id : Z) : option Row :=
  snd <$> query_get (datasets db) dataset_id.

Definition get_model (db : Db) (model_id : Z) : option Row :=
  snd <$> query_get (models db) model_id.

Section create_dataset.
Variable read_json : string -> option DataFrame.

Definition create_dataset (db : Db) (dataset : DatasetCreate)
  : res (Row * Db) :=
  init ← dataset_to_table_init read_json dataset;
  let added := add_row (datasets db) init in
  db' ← commit (mkDb added.2 (models db) (experimentsets db) (experiments db)
                     (results db) (answers db) (observations db));
  Ok (added.1, db').
End create_dataset.

Definition get_answer (db : Db) (answer_id experiment_id num_line : option Z)
  : res (option Row) :=
  if given_id answer_id
  then Ok (snd <$> query_get (answers db) (default 0%Z answer_id))
  else
    match num_line with
    | Some n =>
        if given_id experiment_id
        then Ok (snd <$> list_find (keyed "experiment_id"
                                          (default 0%Z experiment_id) n)
                                   (answers db))
        else Raise ValueError
    | None => Raise ValueError
    end.

Definition result_of (experiment_id : Z) (metric_name : string) (r : Row)
  : Prop :=
  r !! "experiment_id" = Some (PInt experiment_id) /\
  r !! "metric_name" = Some (PStr metric_name).

#[global] Instance result_of_dec e m r : Decision (result_of e m r).
Proof. unfold result_of. apply _. Defined.

Definition get_result (db : Db) (result_id experiment_id : option Z)
    (metric_name : option string) : res (option Row) :=
  if given_id result_id
  then Ok (snd <$> query_get (results db) (default 0%Z result_id))
  else if given_id experiment_id && given_name metric_name
  then Ok (snd <$> list_find (result_of (default 0%Z experiment_id)
                                        (default EmptyString metric_name))
                             (results db))
  else Raise ValueError.

(** [crud.create_result] on a ResultCreate: the row of
    [ResultCreate.to_table_init], with the counters at 0 as for the Results
    of a new experiment. *)
Definition create_result (db : Db) (experiment_id : option Z)
    (metric_name : string) : Row * Db :=
  let added :=
    add_row (results db)
      (<["num_try" := PInt 0]>
       (<["num_success" := PInt 0]>
        (<["experiment_id" := opt_int experiment_id]>
         (result_to_table_init metric_name)))) in
  (added.1,
   mkDb (datasets db) (models db) (experimentsets db) (experiments db)
        added.2 (answers db) (observations db)).

Definition get_experiment (db : Db) (experiment_id : Z) : option Row :=
  snd <$> query_get (experiments db) experiment_id.

Definition id_le (a b : Row) : Prop := (row_id a <= row_id b)%Z.

#[global] Instance id_le_dec a b : Decision (id_le a b).
Proof. unfold id_le. apply _. Defined.

Definition not_archived (e : Row) : Prop :=
  e !! "is_archived" = Some (PBool false).

#[global] Instance not_archived_dec e : Decision (not_archived e).
Proof. unfold not_archived. apply _. Defined.

Definition in_set (set_id : Z) (e : Row) : Prop :=
  e !! "experiment_set_id" = Some (PInt set_id).

#[global] Instance in_set_dec s e : Decision (in_set s e).
Proof. unfold in_set. apply _. Defined.

Definition is_orphan (e : Row) : Prop := getattr e "experiment_set_id" = PNone.

#[global] Instance is_orphan_dec e : Decision (is_orphan e).
Proof. unfold is_orphan. apply _. Defined.

(** [get_experiments]: the query the calls build (the filters, then the
    order, then OFFSET and LIMIT); the database refuses a negative OFFSET or
    LIMIT. *)
Definition get_experiments (db : Db) (skip limit : Z) (backward : bool)
    (set_id : option Z) (orphan : bool) : res (list Row) :=
  let limit := Z.min limit 100 in
  let query := filter not_archived (experiments db) in
  let query := if given_id set_id
               then filter (in_set (default 0%Z set_id)) query else query in
  let query := if orphan then filter is_orphan query else query in
  let query := if backward then reverse (merge_sort id_le query)
               else merge_sort id_le query in
  if decide (skip < 0 \/ limit < 0)%Z then Raise DatabaseError
  else Ok (take (Z.to_nat limit) (drop (Z.to_nat skip) query)).

(** The rows that [db_exp.results] and [db_exp.answers] load. *)
Definition belongs_to (db_exp : Row) (r : Row) : Prop :=
  sql_eq (getattr r "experiment_id") (getattr db_exp "id").

#[global] Instance belongs_to_dec e r : Decision (belongs_to e r).
Proof. unfold belongs_to. apply _. Defined.

(** [remove_experiment]: the Results and the Answers of the experiment,
    then the experiment.  What becomes of the Observations of a deleted
    Result is for the relationship declared in api/models.py; the function
    itself does not name them and the Observation table is left as it
    is. *)
Definition remove_experiment (db : Db) (experiment_id : Z) : bool * Db :=
  match query_get (experiments db) experiment_id with
  | None => (false, db)
  | Some (i, db_exp) =>
      (true,
       mkDb (datasets db) (models db) (experimentsets db)
            (delete i (experiments db))
            (filter (fun r => ~ belongs_to db_exp r) (results db))
            (filter (fun a => ~ belongs_to db_exp a) (answers db))
            (observations db))
  end.

(** [remove_experimentset]: the loop runs over the experiments the set had
    when the loop started. *)
Definition remove_experimentset (db : Db) (experimentset_id : Z) : bool * Db :=
  match query_get (experimentsets db) experimentset_id with
  | None => (false, db)
  | Some (i, db_expset) =>
      let db1 :=
        foldl (fun d experiment =>
                 match getattr experiment "id" with
                 | PInt id => (remove_experiment d id).2
                 | _ => d
                 end) db (set_experiments db db_expset) in
      (true,
       mkDb (datasets db1) (models db1) (delete i (experimentsets db1))
            (experiments db1) (results db1) (answers db1) (observations db1))
  end.

End CrudRest.

(** ** endpoints.py: the other handlers *)

Module EndpointsRest.
Import Crud Schemas Create Endpoints CrudRest.

(** [Schema.from_orm(obj)], and the [response_model] of a handler: the
    fields of the schema, read off the object. *)
Definition from_orm (fields : list string) (obj : Row) : Row :=
  list_to_map ((fun k => (k, getattr obj k)) <$> fields).

Definition Dataset_fields : list string :=
  ["name"; "id"; "has_query"; "has_output"; "has_output_true"; "size"].

Definition DatasetFull_fields : list string := Dataset_fields ++ ["df"].

(** PATCH /experiment/{id}: the column entries of the patch, the metrics to
    add or rerun, and the two rerun flags the handler reads. *)
Record ExperimentPatch : Type := mkExperimentPatch {
  ep_fields : Row;
  ep_metrics : option (list string);
  rerun_answers : bool;
  rerun_metrics : bool
}.

Definition as_id (v : value) : option Z :=
  match v with
  | PInt z => Some z
  | _ => None
  end.

Definition status_text (v : value) : string :=
  match v with
  | PStr s => s
  | _ => "None"
  end.

(** [for metric in experiment_patch.metrics or []]. *)
Fixpoint init_results (db : Db) (db_exp : Row) (metrics : list string)
  : Db * option exn :=
  match metrics with
  | [] => (db, None)
  | metric :: metrics' =>
      match get_result db None (as_id (getattr db_exp "id")) (Some metric) with
      | Raise e => (db, Some e)
      | Ok (Some result) =>
          init_results
            (update_result db (row_id result)
                           {[ "metric_status" := PStr "pending" ]}).2
            db_exp metrics'
      | Ok None =>
          init_results
            (create_result db (as_id (getattr db_exp "id")) metric).2
            db_exp metrics'
      end
  end.

Section handlers.
Variable require : string -> list string.
Variable read_json : string -> option DataFrame.

Definition create_dataset (w : World) (dataset : DatasetCreate)
  : World * response Row :=
  match CrudRest.create_dataset read_json (world_db w) dataset with
  | Ok (db_dataset, db') =>
      (mkWorld db' (world_calls w), Json (from_orm Dataset_fields db_dataset))
  | Raise e => (w, handle e)
  end.

Definition read_dataset (w : World) (id : Z) (with_df : bool) : response Row :=
  match get_dataset (world_db w) id with
  | None => HttpError 404 "Dataset not found"
  | Some dataset =>
      if with_df then Json (from_orm DatasetFull_fields dataset)
      else Json (from_orm Dataset_fields dataset)
  end.

Definition patch_dataset (w : World) (id : Z) (dataset_patch : Row)
  : World * response Row :=
  match update_dataset (world_db w) id dataset_patch with
  | (None, _) => (w, HttpError 404 "Dataset not found")
  | (Some db_dataset, db') =>
      (mkWorld db' (world_calls w), Json (from_orm Dataset_fields db_dataset))
  end.

Definition patch_experiment (w : World) (id : Z)
    (experiment_patch : ExperimentPatch) : World * response Row :=
  match update_experiment (world_db w) id (ep_fields experiment_patch) with
  | (None, _) => (w, HttpError 404 "Experiment not found")
  | (Some db_exp, db1) =>
      let status := getattr db_exp "experiment_status" in
      if decide (status <> PStr "pending" /\ status <> PStr "finished")
      then (mkWorld db1 (world_calls w),
            HttpError 400 ("Experiment is running (" +:+ status_text status
                           +:+ "), please try again later"))
      else
        match init_results db1 db_exp
                (default [] (ep_metrics experiment_patch)) with
        | (db2, Some e) => (mkWorld db2 (world_calls w), Uncaught e)
        | (db2, None) =>
            let w2 := mkWorld db2 (world_calls w) in
            let rerun :=
              if rerun_answers experiment_patch
              then _needs_output require db2 db_exp
              else Ok false in
            match rerun with
            | Raise e => (w2, Uncaught e)
            | Ok true =>
                (mkWorld db2 (world_calls w ++ [dispatch_tasks db_exp "answers"]),
                 Json db_exp)
            | Ok false =>
                if rerun_metrics experiment_patch
                then (mkWorld db2 (world_calls w
                                   ++ [dispatch_tasks db_exp "observations"]),
                      Json db_exp)
                else (w2, Json db_exp)
            end
        end
  end.

Definition delete_experiment (w : World) (id : Z) : World * response string :=
  match remove_experiment (world_db w) id with
  | (false, _) => (w, HttpError 404 "Experiment not found")
  | (true, db') => (mkWorld db' (world_calls w), Json "ok")
  end.

Definition read_experiments (w : World) (set_id : option Z) (limit : Z)
  : response (list Row) :=
  match get_experiments (world_db w) 0 limit false set_id false with
  | Raise e => Uncaught e
  | Ok [] => HttpError 404 "No experiments found"
  | Ok experiments => Json experiments
  end.

End handlers.

End EndpointsRest.

(** ** The dashboard: experiments_set.py *)

Module Ui.

(** An experiment as the API returns it, as far as the view reads it. *)
Record ExperimentJson : Type := mkExperimentJson {
  ui_name : string;
  experiment_status : string;
  num_try : Z;
  num_success : Z;
  num_observation_try : Z;
  num_observation_success : Z;
  num_metrics : Z;
  dataset_size : Z
}.

Inductive SetStatus : Type := ui_pending | ui_running | ui_finished.

Record Counts : Type := mkCounts {
  total_answer_tries : Z;
  total_answer_successes : Z;
  total_observation_tries : Z;
  total_observation_successes : Z;
  answer_length : Z;
  observation_length : Z
}.

Definition sum (l : list Z) : Z := foldr Z.add 0%Z l.

Definition _get_expset_status (experiments : list ExperimentJson)
  : SetStatus * Counts :=
  let counts :=
    mkCounts (sum (num_try <$> experiments))
             (sum (num_success <$> experiments))
             (sum (num_observation_try <$> experiments))
             (sum (num_observation_success <$> experiments))
             (sum (dataset_size <$> experiments))
             (sum ((fun e => dataset_size e * num_metrics e)%Z <$> experiments)) in
  let status :=
    if forallb (fun e => String.eqb (experiment_status e) "pending") experiments
    then ui_pending
    else if forallb (fun e => String.eqb (experiment_status e) "finished")
                    experiments
    then ui_finished
    else ui_running in
  (status, counts).

(** [_find_default_sort_metric], for the list of preferred metrics of the
    view (the two views differ in that list only). *)
Fixpoint first_preferred (preferred columns : list string) : option string :=
  match preferred with
  | [] => None
  | metric :: preferred' =>
      if bool_decide (metric ∈ columns) then Some metric
      else first_preferred preferred' columns
  end.

Definition _find_default_sort_metric (preferred columns : list string)
  : option string :=
  match first_preferred preferred columns with
  | Some metric => Some metric
  | None => head columns
  end.

Definition _check_repeat_mode (experiments : list ExperimentJson) : bool :=
  existsb (fun e => Names.numeric_suffix (ui_name e)) experiments.

End Ui.

(** ** What the claims say *)

Module Spec.
Import Crud Schemas Create Endpoints.

(** What a patch [upd] may do to an object: a field the patch holds as
    [None], or does not hold, keeps its value; a field the patch holds with
    a value takes it; no field becomes [None] that was not. *)
Definition frame_effect (upd old new : Row) : Prop :=
  (forall k, upd !! k = Some PNone -> new !! k = old !! k) /\
  (forall k, upd !! k = None -> new !! k = old !! k) /\
  (forall k v, upd !! k = Some v -> v <> PNone -> new !! k = Some v) /\
  (forall k, new !! k = Some PNone -> old !! k = Some PNone).

Definition names_key (owner : string) (fields : Row) : Prop :=
  is_Some (fields !! owner) \/ is_Some (fields !! "num_line").

Definition rows_after (r : res (Row * list Row)) (t : list Row) : list Row :=
  match r with
  | Ok (_, t') => t'
  | Raise _ => t
  end.

Definition set_answers (db : Db) (t : list Row) : Db :=
  mkDb (datasets db) (models db) (experimentsets db) (experiments db)
       (results db) t (observations db).

Definition set_observations (db : Db) (t : list Row) : Db :=
  mkDb (datasets db) (models db) (experimentsets db) (experiments db)
       (results db) (answers db) t.

(** The contract of an upsert on its table [t], for the call [run] and the
    table [after] it leaves: with no row under the key, a row that holds the
    key and the named fields is added; with a row under the key, that row is
    replaced by itself with the named fields overwritten. *)
Definition upsert_contract (owner : string) (o n : Z) (fields : Row)
    (t : list Row) (run : res (Row * list Row)) : Prop :=
  (list_find (keyed owner o n) t = None ->
     exists row, run = Ok (row, t ++ [row]) /\ keyed owner o n row /\
       forall k v, fields !! k = Some v -> row !! k = Some v) /\
  (forall i old, list_find (keyed owner o n) t = Some (i, old) ->
     exists new, run = Ok (new, <[i:=new]> t) /\
       (forall k v, fields !! k = Some v -> new !! k = Some v) /\
       (forall k, fields !! k = None -> new !! k = old !! k)).

Definition has (d : Row) (c : string) : bool := truthy (getattr d c).

(** Primary and foreign keys as the schema keeps them: every dataset has
    an integer key of its own, and a Result belongs to a stored
    experiment. *)
Definition well_keyed (db : Db) : Prop :=
  (forall d, d ∈ datasets db -> exists i, d !! "id" = Some (PInt i)) /\
  NoDup (row_id <$> datasets db) /\
  (forall r i, r ∈ results db -> r !! "experiment_id" = Some (PInt i) ->
     exists e, e ∈ experiments db /\ e !! "id" = Some (PInt i)).

Definition first_phase (b : bool) : string :=
  if b then "answers" else "observations".

Definition retry_result (result : Row) : Prop :=
  finished "metric_status" result /\ failed result.

Definition ids (rows : list Row) : list value :=
  (fun r => getattr r "id") <$> rows.

(** The number of points of the Cartesian product of the grid lists. *)
Definition grid_size {Any : Type} (grid : list (string * list Any)) : nat :=
  foldr (fun kv acc => length kv.2 * acc) 1 grid.

Definition init_name (init : ExperimentInit) : value :=
  getattr (ei_fields init) "name".

Definition auto_names (set_name : string) (i n : nat) : list value :=
  (fun k => PStr (auto_name set_name k)) <$> seq i n.

Section spec.
Variable require : string -> list string.
Variable read_json : string -> option DataFrame.

(** The dataset a request designates: the stored one of that name, or the
    one built from the payload. *)
Definition request_dataset (db : Db) (e : ExperimentCreate) : res Row :=
  match ec_dataset e with
  | DatasetNamed name =>
      match list_find (named name) (datasets db) with
      | Some (_, d) => Ok d
      | None => Raise (SchemaError "Dataset not found")
      end
  | DatasetGiven d => dataset_to_table_init read_json d
  end.

(** The four compatibility rules, violated. *)
Definition incompatible (e : ExperimentCreate) (d : Row) : Prop :=
  (needs require "query" (ec_metrics e) = true /\ has d "has_query" = false) \/
  (needs require "output" (ec_metrics e) = true /\
     has d "has_output" = false /\ ec_model e = None) \/
  (needs require "output_true" (ec_metrics e) = true /\
     has d "has_output_true" = false) \/
  (ec_model e <> None /\ has d "has_output" = true).

(** Some requested metric requires an output and the dataset has none. *)
Definition wants_answers (metrics : list string) (dataset : Row) : Prop :=
  (exists m, m ∈ metrics /\ "output" ∈ require m) /\
  has dataset "has_output" = false.

(** The same, read off the stored experiment: its metrics are those of
    its Results. *)
Definition member_wants_answers (db : Db) (db_exp dataset : Row) : Prop :=
  (exists r m, r ∈ exp_results db db_exp /\
     getattr r "metric_name" = PStr m /\ "output" ∈ require m) /\
  has dataset "has_output" = false.

(** What a member of a set gets, by the dataset and the Results it has in
    the database [db]. *)
Definition member_call (db : Db) (db_exp : Row) (c : call) : Prop :=
  exists dataset phase,
    exp_dataset db db_exp = Some dataset /\
    c = dispatch_tasks db_exp phase /\
    (phase = "answers" <-> member_wants_answers db db_exp dataset) /\
    (phase = "observations" <-> ~ member_wants_answers db db_exp dataset).

(** The experiment needed model output: its dataset has no output and a
    metric of one of its Results requires one. *)
Definition needed_output (db : Db) (exp : Row) : bool :=
  match exp_dataset db exp with
  | Some dataset =>
      negb (truthy (getattr dataset "has_output")) &&
      existsb (metric_requires_output require) (exp_results db exp)
  | None => false
  end.

(** Selected for the answer phase. *)
Definition retry_answers (db : Db) (exp : Row) : Prop :=
  finished "experiment_status" exp /\ failed exp /\
  needed_output db exp = true.

(** Finished, and not selected for the answer phase. *)
Definition retry_metrics (db : Db) (exp : Row) : Prop :=
  finished "experiment_status" exp /\ ~ retry_answers db exp.

Definition selected_experiments (db : Db) (exps : list Row) : list value :=
  ids (filter (retry_answers db) exps).

Definition selected_results (db : Db) (exps : list Row) : list value :=
  exp ← filter (retry_metrics db) exps;
  ids (filter retry_result (exp_results db exp)).

End spec.

End Spec.

(** ** Predicates for the other functions *)

Module SpecRest.
Import Crud Schemas Create Endpoints CrudRest.

(** The primary key of a table: every row has an integer id, and no two
    rows share one. *)
Definition ids_ok (t : list Row) : Prop :=
  (forall r, r ∈ t -> exists i, r !! "id" = Some (PInt i)) /\
  NoDup (row_id <$> t).

(** The same, as a check that can be run on a table. *)
Definition ids_okb (t : list Row) : bool :=
  forallb (fun r => match r !! "id" with
                    | Some (PInt _) => true
                    | _ => false
                    end) t
  && bool_decide (NoDup (row_id <$> t)).

(** [e] is one of the experiments of the set [s]. *)
Definition member_of (s : Row) (e : Row) : Prop :=
  sql_eq (getattr e "experiment_set_id") (getattr s "id").

#[global] Instance member_of_dec s e : Decision (member_of s e).
Proof. unfold member_of. apply _. Defined.

(** What a member given in the list of a set becomes, and the condition
    for its payload to be read. *)
Definition dumped (read_json : string -> option DataFrame)
    (e : ExperimentCreate) (o : ExperimentInit) : Prop :=
  ei_results o = [] /\ ei_metrics o = ec_metrics e /\
  ei_fields o !! "experiment_status" = None /\
  getattr (ei_fields o) "name" = PStr (ec_name e) /\
  match ec_dataset e with
  | DatasetNamed name => ei_dataset o = DatasetStr name
  | DatasetGiven d => exists row, dataset_to_table_init read_json d = Ok row /\
                                  ei_dataset o = DatasetObj row
  end.

Definition payload_ok (read_json : string -> option DataFrame)
    (e : ExperimentCreate) : Prop :=
  match ec_dataset e with
  | DatasetNamed _ => True
  | DatasetGiven d => exists row, dataset_to_table_init read_json d = Ok row
  end.

(** The experiment has a Result for the metric, and it is pending. *)
Definition pending_result (db : Db) (experiment : value) (metric : string)
  : Prop :=
  exists r, (r ∈ results db) /\
            (r !! "experiment_id" = Some experiment) /\
            (r !! "metric_name" = Some (PStr metric)) /\
            (r !! "metric_status" = Some (PStr "pending")).

(** A name that has no two underscores in a row and does not end with
    one. *)
Fixpoint plain_name (s : string) : bool :=
  match s with
  | EmptyString => true
  | String a s' =>
      match s' with
      | EmptyString => negb (Ascii.eqb a Names.underscore)
      | String b _ =>
          negb (Ascii.eqb a Names.underscore && Ascii.eqb b Names.underscore)
          && plain_name s'
      end
  end.

(** The order of the leaderboard, on two of its entries that have a score:
    the one with the greater score comes first. *)
Definition ranks_before (a b : Leaderboard.LeaderboardEntry) : Prop :=
  match Leaderboard.score_of (Leaderboard.le_main_metric_score a),
        Leaderboard.score_of (Leaderboard.le_main_metric_score b) with
  | Some x, Some y => (y <= x)%Q
  | _, _ => True
  end.

(** The request passes the checks of [ExperimentCreate.to_table_init] on
    the dataset [d]: none of the four compatibility rules is broken, and a
    needed output can be had from the dataset or generated from its
    queries. *)
Definition accepted (require : string -> list string) (e : ExperimentCreate)
    (d : Row) : Prop :=
  ~ Spec.incompatible require e d /\
  ~ (needs require "output" (ec_metrics e) = true /\
     Spec.has d "has_output" = false /\ Spec.has d "has_query" = false).

End SpecRest.

(** ** Worked inputs *)

Module Samples.
Import Schemas Create Endpoints.

(** A small database with one experiment under way. *)
Definition sample_db : Db :=
  mkDb [ {[ "id" := PInt 1; "name" := PStr "qa"; "has_query" := PBool true;
            "has_output" := PBool false; "readme" := PStr "questions" ]} ]
       []
       [ {[ "id" := PInt 1; "name" := PStr "grid"; "readme" := PNone ]} ]
       [ {[ "id" := PInt 1; "name" := PStr "grid__0"; "dataset_id" := PInt 1;
            "experiment_set_id" := PInt 1;
            "experiment_status" := PStr "running_metrics";
            "num_try" := PInt 3; "num_success" := PInt 2 ]} ]
       [ {[ "id" := PInt 1; "experiment_id" := PInt 1;
            "metric_name" := PStr "generation_time";
            "metric_status" := PStr "running";
            "num_try" := PInt 3; "num_success" := PInt 2 ]} ]
       [ {[ "id" := PInt 1; "experiment_id" := PInt 1; "num_line" := PInt 0;
            "answer" := PStr "yes"; "error_msg" := PNone ]} ]
       [].

Definition sample_patch : Row :=
  {[ "experiment_status" := PStr "finished"; "readme" := PNone;
     "name" := PStr "renamed" ]}.

Definition sample_fields : Row :=
  {[ "answer" := PStr "no"; "error_msg" := PStr "timeout" ]}.

(** The requirement sets of the ops metrics (generation_ops_metric.py) and
    of the judge metric of the first scenario of the specification. *)
Definition ops_require (name : string) : list string :=
  if decide (name = "nb_tokens_prompt") then ["query"]
  else if decide (name = "nb_tokens_completion") then ["output"]
  else if decide (name = "nb_tool_calls") then ["output"]
  else if decide (name = "generation_time") then ["output"]
  else if decide (name = "judge_exactness") then ["output"; "output_true"]
  else [].

(** Three payloads and the frames they decode to. *)
Definition sample_read_json (df : string) : option DataFrame :=
  if decide (df = "query-only") then Some (mkDataFrame ["query"] 3)
  else if decide (df = "query-output") then Some (mkDataFrame ["query"; "output"] 2)
  else if decide (df = "query-truth")
  then Some (mkDataFrame ["query"; "output_true"] 3)
  else None.

Definition sample_model : ModelCreate :=
  mkModelCreate "llama" "http://localhost:8000/v1" "key" None None None.

(** Scenario 3 of the specification: a dataset with a query only, a metric
    that requires output_true. *)
Definition rejected_request : ExperimentCreate :=
  mkExperimentCreate "exp" None None ["judge_exactness"]
    (DatasetGiven (mkDatasetCreate "onlyq" "query-only")) (Some sample_model).

(** Scenario 1: query and output_true, a model, a metric on the output. *)
Definition model_request : ExperimentCreate :=
  mkExperimentCreate "exp" None None ["judge_exactness"]
    (DatasetGiven (mkDatasetCreate "truth" "query-truth")) (Some sample_model).

(** Scenario 2: the dataset brings the output. *)
Definition output_request : ExperimentCreate :=
  mkExperimentCreate "exp" None None ["nb_tokens_completion"]
    (DatasetGiven (mkDatasetCreate "given" "query-output")) None.

Definition empty_world : World := mkWorld empty_db [].

(** A database that holds one dataset, with an output column. *)
Definition given_db : Db :=
  mkDb [ {[ "id" := PInt 1; "name" := PStr "given"; "has_query" := PBool true;
            "has_output" := PBool true ]} ]
       [] [] [] [] [] [].

(** A grid over strings: a point names its dataset, its metric and the
    readme of the experiment. *)
Definition sample_validate (p : gmap string string) : res ExperimentCreate :=
  match p !! "name", p !! "dataset", p !! "metrics" with
  | Some name, Some dataset, Some metric =>
      Ok (mkExperimentCreate name (p !! "readme") None [metric]
            (DatasetNamed dataset) None)
  | _, _, _ => Raise ValidationError
  end.

Definition sample_grid : GridCV string :=
  mkGridCV string {[ "metrics" := "nb_tokens_completion"; "dataset" := "given" ]}
           [("readme", ["first"; "second"])] 2.

Definition sample_set : ExperimentSetCreate string :=
  mkExperimentSetCreate string "set" None None (Some sample_grid).

(** A set with a gap in its suffixes: grid__1 was deleted. *)
Definition gap_db : Db :=
  mkDb [ {[ "id" := PInt 1; "name" := PStr "given"; "has_query" := PBool true;
            "has_output" := PBool true ]} ]
       []
       [ {[ "id" := PInt 1; "name" := PStr "grid" ]} ]
       [ {[ "id" := PInt 1; "name" := PStr "grid__0"; "dataset_id" := PInt 1;
            "experiment_set_id" := PInt 1;
            "experiment_status" := PStr "finished";
            "num_try" := PInt 2; "num_success" := PInt 2 ]};
         {[ "id" := PInt 3; "name" := PStr "grid__2"; "dataset_id" := PInt 1;
            "experiment_set_id" := PInt 1;
            "experiment_status" := PStr "finished";
            "num_try" := PInt 2; "num_success" := PInt 2 ]} ]
       [] [] [].

Definition gap_set : Row := {[ "id" := PInt 1; "name" := PStr "grid" ]}.

Definition appended : ExperimentInit :=
  mkExperimentInit
    {[ "name" := PStr "None__0"; "experiment_status" := PStr "pending" ]}
    ["nb_tokens_completion"]
    (DatasetObj {[ "id" := PInt 1; "name" := PStr "given";
                   "has_query" := PBool true; "has_output" := PBool true ]})
    None
    [ {[ "metric_name" := PStr "nb_tokens_completion";
         "metric_status" := PStr "pending" ]} ].

Definition gap_patch : ExperimentSetPatch :=
  mkExperimentSetPatch ∅ (Some [appended]).

(** Two experiments of one model, on the datasets A and B. *)
Definition board_db : Db :=
  mkDb [ {[ "id" := PInt 1; "name" := PStr "A" ]};
         {[ "id" := PInt 2; "name" := PStr "B" ]} ]
       [ {[ "id" := PInt 1; "name" := PStr "llama" ]} ]
       []
       [ {[ "id" := PInt 1; "name" := PStr "on-A"; "dataset_id" := PInt 1;
            "model_id" := PInt 1 ]};
         {[ "id" := PInt 2; "name" := PStr "on-B"; "dataset_id" := PInt 2;
            "model_id" := PInt 1 ]} ]
       [ {[ "id" := PInt 1; "experiment_id" := PInt 1;
            "metric_name" := PStr "judge_notator" ]};
         {[ "id" := PInt 2; "experiment_id" := PInt 2;
            "metric_name" := PStr "judge_notator" ]} ]
       []
       [ {[ "id" := PInt 1; "result_id" := PInt 1; "num_line" := PInt 0;
            "score" := PFloat 3 ]};
         {[ "id" := PInt 2; "result_id" := PInt 2; "num_line" := PInt 0;
            "score" := PFloat 5 ]} ].

Definition board_query : LeaderboardQuery :=
  mkLeaderboardQuery None (Some "A") None.

(** Scenario 4: a finished set with failed answers and failed
    observations. *)
Definition retry_db : Db :=
  mkDb [ {[ "id" := PInt 1; "name" := PStr "qa"; "has_query" := PBool true;
            "has_output" := PBool false ]} ]
       []
       [ {[ "id" := PInt 1; "name" := PStr "grid" ]} ]
       [ {[ "id" := PInt 1; "name" := PStr "grid__0"; "dataset_id" := PInt 1;
            "experiment_set_id" := PInt 1;
            "experiment_status" := PStr "finished";
            "num_try" := PInt 5; "num_success" := PInt 3 ]};
         {[ "id" := PInt 2; "name" := PStr "grid__1"; "dataset_id" := PInt 1;
            "experiment_set_id" := PInt 1;
            "experiment_status" := PStr "finished";
            "num_try" := PInt 5; "num_success" := PInt 5 ]};
         {[ "id" := PInt 3; "name" := PStr "grid__2"; "dataset_id" := PInt 1;
            "experiment_set_id" := PInt 1;
            "experiment_status" := PStr "running_metrics";
            "num_try" := PInt 5; "num_success" := PInt 4 ]} ]
       [ {[ "id" := PInt 1; "experiment_id" := PInt 1;
            "metric_name" := PStr "generation_time";
            "metric_status" := PStr "finished";
            "num_try" := PInt 3; "num_success" := PInt 3 ]};
         {[ "id" := PInt 2; "experiment_id" := PInt 2;
            "metric_name" := PStr "generation_time";
            "metric_status" := PStr "finished";
            "num_try" := PInt 5; "num_success" := PInt 4 ]};
         {[ "id" := PInt 3; "experiment_id" := PInt 3;
            "metric_name" := PStr "generation_time";
            "metric_status" := PStr "running";
            "num_try" := PInt 2; "num_success" := PInt 1 ]} ]
       [] [].

Definition phases (calls : list call) : list string :=
  calls ≫= (fun c => match c with
                      | dispatch_tasks _ phase => [phase]
                      | dispatch_retries _ => []
                      end).

Definition created (r : World * response Row) : Row :=
  match r.2 with
  | Json body => body
  | _ => ∅
  end.

Definition entry_datasets (r : response (list Leaderboard.LeaderboardEntry))
  : list value :=
  match r with
  | Json entries => Leaderboard.le_dataset_name <$> entries
  | _ => []
  end.

(** Three experiments stored out of the order of their ids; the second of
    the set is archived. *)
Definition page_db : Db :=
  mkDb [] []
       [ {[ "id" := PInt 1; "name" := PStr "grid" ]} ]
       [ {[ "id" := PInt 3; "name" := PStr "grid__1";
            "experiment_set_id" := PInt 1; "is_archived" := PBool false ]};
         {[ "id" := PInt 1; "name" := PStr "alone";
            "experiment_set_id" := PNone; "is_archived" := PBool false ]};
         {[ "id" := PInt 2; "name" := PStr "grid__0";
            "experiment_set_id" := PInt 1; "is_archived" := PBool true ]} ]
       [] [] [].

(** A patch that asks for two metrics again, and one that only changes the
    readme. *)
Definition rerun_patch : EndpointsRest.ExperimentPatch :=
  EndpointsRest.mkExperimentPatch
    ∅ (Some ["generation_time"; "nb_tokens_prompt"]) false true.

Definition note_patch : EndpointsRest.ExperimentPatch :=
  EndpointsRest.mkExperimentPatch {[ "readme" := PStr "note" ]} None false true.

(** Sets given both ways, given as a list, and given as a grid that is not
    to be run. *)
Definition both_set : ExperimentSetCreate string :=
  mkExperimentSetCreate string "set" None (Some [output_request])
                        (Some sample_grid).

Definition listed_set : ExperimentSetCreate string :=
  mkExperimentSetCreate string "set" None (Some [rejected_request]) None.

Definition idle_grid : GridCV string :=
  mkGridCV string {[ "metrics" := "nb_tokens_completion"; "dataset" := "given" ]}
           [("readme", ["first"; "second"])] 0.

Definition idle_set : ExperimentSetCreate string :=
  mkExperimentSetCreate string "set" None None (Some idle_grid).

(** What a call returned, for the calls that return. *)
Definition listed (r : response (list Row)) : list Row :=
  match r with
  | Json body => body
  | _ => []
  end.

Definition returned (r : res Row) : Row :=
  match r with
  | Ok d => d
  | Raise _ => ∅
  end.

(** A patch of a dataset: a new name, the readme left alone. *)
Definition name_patch : Row := {[ "name" := PStr "renamed"; "readme" := PNone ]}.

(** What the dashboard gets for a set of two experiments. *)
Definition shown : list Ui.ExperimentJson :=
  [ Ui.mkExperimentJson (auto_name "grid" 0) "finished" 3 3 3 2 1 3;
    Ui.mkExperimentJson (auto_name "grid" 1) "running_metrics" 3 2 1 1 1 3 ].

End Samples.

(** * Properties *)

(** ** The update operations leave unnamed fields alone *)

Module CrudFacts.
Import Crud Spec.

Lemma update_fields_lookup (obj upd : Row) (k : string) :
  update_fields obj upd !! k =
  match upd !! k with
  | Some v => if decide (v = PNone) then obj !! k else Some v
  | None => obj !! k
  end.
Proof.
  unfold update_fields.
  apply (map_fold_weak_ind (fun (r : Row) (m : Row) =>
    r !! k = match m !! k with
             | Some v => if decide (v = PNone) then obj !! k else Some v
             | None => obj !! k
             end)).
  - by rewrite lookup_empty.
  - intros i x m r Hi IH. unfold setattr.
    destruct (decide (i = k)) as [->|Hne].
    + rewrite lookup_insert_eq, Hi in *.
      destruct (decide (x = PNone)); [done|]. by rewrite lookup_insert_eq.
    + rewrite (lookup_insert_ne m) by done.
      destruct (decide (x = PNone)); [done|]. by rewrite lookup_insert_ne.
Qed.

Lemma update_fields_frame (obj upd : Row) :
  frame_effect upd obj (update_fields obj upd).
Proof.
  repeat split; intros k.
  - intros H. rewrite update_fields_lookup, H. by destruct (decide _).
  - intros H. by rewrite update_fields_lookup, H.
  - intros v H Hv. rewrite update_fields_lookup, H. by destruct (decide _).
  - rewrite update_fields_lookup. destruct (upd !! k) as [v|]; [|done].
    destruct (decide (v = PNone)); [done|]. congruence.
Qed.

(** The experiment object that leaves the loop of [update_experiment] is the
    one [update_fields] computes. *)
Lemma update_experiment_fold_obj (id : Z) (obj upd : Row) (rs : list Row) :
  (map_fold (update_experiment_step id) (obj, rs) upd).1 = update_fields obj upd.
Proof.
  unfold update_fields.
  induction upd as [|k v m Hk Hfirst IH] using map_first_key_ind.
  - by rewrite !map_fold_empty.
  - rewrite !map_fold_insert_first_key by done.
    unfold update_experiment_step at 1. rewrite IH.
    by destruct (decide (k = "experiment_status" /\ v = PStr "finished")).
Qed.

(** The Result table that leaves the loop: finished once when the patch
    sets the status to finished, untouched otherwise. *)
Lemma update_experiment_fold_results (id : Z) (obj upd : Row) (rs : list Row) :
  (map_fold (update_experiment_step id) (obj, rs) upd).2 =
  if decide (upd !! "experiment_status" = Some (PStr "finished"))
  then finish_results id rs else rs.
Proof.
  induction upd as [|k v m Hk Hfirst IH] using map_first_key_ind.
  - rewrite map_fold_empty, lookup_empty. by destruct (decide _).
  - rewrite map_fold_insert_first_key by done.
    unfold update_experiment_step at 1.
    destruct (decide (k = "experiment_status" /\ v = PStr "finished"))
      as [[-> ->]|Hno]; simpl.
    + rewrite lookup_insert_eq, IH, Hk.
      destruct (decide (None = _)); [done|].
      by destruct (decide (Some _ = _)).
    + rewrite IH. destruct (decide (k = "experiment_status")) as [->|Hne].
      * rewrite lookup_insert_eq, Hk.
        destruct (decide (None = _)); [done|].
        destruct (decide (Some v = _)) as [Heq|]; [|done].
        exfalso. apply Hno. by simplify_eq.
      * by rewrite lookup_insert_ne.
Qed.

Lemma finish_results_owned (id : Z) (rs : list Row) (r : Row) :
  r ∈ finish_results id rs -> owned_by id r ->
  r !! "metric_status" = Some (PStr "finished").
Proof.
  unfold finish_results. intros (r0 & -> & _)%list_elem_of_fmap Howned.
  destruct (decide (owned_by id r0)) as [|Hno].
  - unfold setattr. by rewrite lookup_insert_eq.
  - done.
Qed.

(** Finishing the results changes the status column only: the counters of a
    result, and whose result it is, stay as they were. *)
Lemma finish_results_lookup (id : Z) (rs : list Row) (j : nat) :
  finish_results id rs !! j =
  (fun r => if decide (owned_by id r)
            then <["metric_status":=PStr "finished"]> r else r) <$> rs !! j.
Proof. unfold finish_results. by rewrite list_lookup_fmap. Qed.

(** C10: each of update_dataset, update_result, update_experiment and
    update_experimentset, on an entity that exists, stores and returns the
    entity with exactly the patch's non-None fields overwritten: a field
    whose patch value is None, or that the patch does not name, keeps its
    stored value, and no field becomes None. *)
Theorem update_keeps_none_fields (db : Db) (id : Z) (upd : Row) :
  (forall i old, query_get (datasets db) id = Some (i, old) ->
     exists new db', update_dataset db id upd = (Some new, db') /\
       datasets db' = <[i:=new]> (datasets db) /\ frame_effect upd old new) /\
  (forall i old, query_get (results db) id = Some (i, old) ->
     exists new db', update_result db id upd = (Some new, db') /\
       results db' = <[i:=new]> (results db) /\ frame_effect upd old new) /\
  (forall i old, query_get (experiments db) id = Some (i, old) ->
     exists new db', update_experiment db id upd = (Some new, db') /\
       experiments db' = <[i:=new]> (experiments db) /\
       frame_effect upd old new) /\
  (forall i old, query_get (experimentsets db) id = Some (i, old) ->
     exists new db', update_experimentset db id upd = (Some new, db') /\
       experimentsets db' = <[i:=new]> (experimentsets db) /\
       frame_effect upd old new).
Proof.
  repeat split; intros i old Hget.
  - unfold update_dataset. rewrite Hget. eexists _, _.
    split; [reflexivity|]. split; [done|]. apply update_fields_frame.
  - unfold update_result. rewrite Hget. eexists _, _.
    split; [reflexivity|]. split; [done|]. apply update_fields_frame.
  - unfold update_experiment. rewrite Hget. eexists _, _.
    split; [reflexivity|]. split; [done|].
    rewrite update_experiment_fold_obj. apply update_fields_frame.
  - unfold update_experimentset. rewrite Hget. eexists _, _.
    split; [reflexivity|]. split; [done|]. apply update_fields_frame.
Qed.

(** C6: when the patch of update_experiment sets experiment_status to
    finished, the Result table afterwards is the one before with the status
    of every Result of that experiment set to finished, whatever its
    counters; so every Result the experiment owns is finished. *)
Theorem update_experiment_finishes_results (db : Db) (id : Z) (upd : Row)
    (i : nat) (old : Row) :
  query_get (experiments db) id = Some (i, old) ->
  upd !! "experiment_status" = Some (PStr "finished") ->
  let db' := (update_experiment db id upd).2 in
  results db' = finish_results id (results db) /\
  (forall r, r ∈ results db' -> owned_by id r ->
     getattr r "metric_status" = PStr "finished") /\
  (forall j r, results db !! j = Some r -> owned_by id r ->
     exists r', results db' !! j = Some r' /\ owned_by id r' /\
       getattr r' "metric_status" = PStr "finished" /\
       getattr r' "num_try" = getattr r "num_try" /\
       getattr r' "num_success" = getattr r "num_success").
Proof.
  intros Hget Hfin. unfold update_experiment. rewrite Hget. simpl.
  rewrite update_experiment_fold_results.
  destruct (decide (upd !! "experiment_status" = _)); [|done].
  split; [done|]. split.
  - intros r Hr Howned. unfold getattr.
    by rewrite (finish_results_owned _ _ _ Hr Howned).
  - intros j r Hj Howned. rewrite finish_results_lookup, Hj. simpl.
    destruct (decide (owned_by id r)); [|done].
    eexists. split; [done|]. unfold owned_by, getattr in *.
    rewrite lookup_insert_eq, !lookup_insert_ne by done. done.
Qed.

(** ** Removal of a referenced dataset *)

Lemma string_length_app (s1 s2 : string) :
  String.length (s1 +:+ s2) = String.length s1 + String.length s2.
Proof. induction s1 as [|a s1 IH]; simpl; [done|]. by rewrite IH. Qed.

Lemma string_app_inj_r (s1 s2 t : string) : s1 +:+ t = s2 +:+ t -> s1 = s2.
Proof.
  revert s2. induction s1 as [|a s1 IH]; intros [|b s2] H; simpl in *.
  - done.
  - exfalso. apply (f_equal String.length) in H.
    rewrite ?string_length_app in H. simpl in H.
    rewrite ?string_length_app in H. lia.
  - exfalso. apply (f_equal String.length) in H.
    rewrite ?string_length_app in H. simpl in H.
    rewrite ?string_length_app in H. lia.
  - injection H as -> H. f_equal. by apply IH.
Qed.

Lemma linked_message_inj (n m : nat) :
  linked_message n = linked_message m -> n = m.
Proof.
  unfold linked_message. intros H.
  apply (inj (String.app _)) in H. apply string_app_inj_r in H.
  by apply (inj pretty) in H.
Qed.

(** C7: a dataset that N > 0 experiments reference is not removed:
    remove_dataset raises the schema error whose message is built from N
    (and from which N can be read back) and the database is unchanged; when
    remove_dataset deletes the row, no experiment referenced it. *)
Theorem remove_dataset_linked (db : Db) (dataset_id : Z) :
  let n := linked_experiments db dataset_id in
  (0 < n ->
     remove_dataset db dataset_id = Raise (SchemaError (linked_message n)) /\
     db_after (remove_dataset db dataset_id) db = db /\
     (forall m, linked_message m = linked_message n -> m = n)) /\
  (forall db', remove_dataset db dataset_id = Ok (true, db') ->
     n = 0 /\
     exists i row, query_get (datasets db) dataset_id = Some (i, row) /\
       datasets db' = delete i (datasets db) /\
       experiments db' = experiments db) /\
  (n = 0 -> forall i row, query_get (datasets db) dataset_id = Some (i, row) ->
     exists db', remove_dataset db dataset_id = Ok (true, db') /\
       datasets db' = delete i (datasets db)).
Proof.
  intros n. unfold remove_dataset. fold n. repeat split.
  - by destruct (decide (0 < n)).
  - by destruct (decide (0 < n)).
  - intros m. apply linked_message_inj.
  - destruct (decide (0 < n)); [done|lia].
  - destruct (decide (0 < n)); [done|].
    destruct (query_get (datasets db) dataset_id) as [[i row]|]; [|done].
    exists i, row. by simplify_eq.
  - intros Hn i row Hget. destruct (decide (0 < n)); [lia|].
    rewrite Hget. by eexists.
Qed.

(** ** The upserts *)

Lemma setattrs_lookup (obj fields : Row) (k : string) :
  setattrs obj fields !! k =
  match fields !! k with Some v => Some v | None => obj !! k end.
Proof.
  unfold setattrs.
  apply (map_fold_weak_ind (fun (r : Row) (m : Row) =>
    r !! k = match m !! k with Some v => Some v | None => obj !! k end)).
  - by rewrite lookup_empty.
  - intros i x m r Hi IH. unfold setattr.
    destruct (decide (i = k)) as [->|Hne].
    + by rewrite !lookup_insert_eq.
    + by rewrite !lookup_insert_ne.
Qed.

Lemma setattrs_twice (obj fields : Row) :
  setattrs (setattrs obj fields) fields = setattrs obj fields.
Proof.
  apply map_eq. intros k. rewrite !setattrs_lookup.
  by destruct (fields !! k).
Qed.

Lemma keyed_key_of (owner : string) (o n : Z) (r : Row) :
  keyed owner o n r <-> key_of owner r = Some (o, n).
Proof.
  unfold keyed, key_of. split.
  - by intros [-> ->].
  - destruct (r !! owner) as [[]|], (r !! "num_line") as [[]|];
      naive_solver.
Qed.

Lemma unique_keys_index (owner : string) (t : list Row) (i j : nat)
    (a b : Row) (o n : Z) :
  unique_keys owner t -> t !! i = Some a -> t !! j = Some b ->
  keyed owner o n a -> keyed owner o n b -> i = j.
Proof.
  unfold unique_keys. rewrite !keyed_key_of.
  revert i j. induction t as [|r t IH]; intros i j Hnd Hi Hj Ha Hb; [done|].
  assert (Hin : forall (k : nat) (c : Row), t !! k = Some c ->
            key_of owner c = Some (o, n) -> (o, n) ∈ omap (key_of owner) t).
  { intros k c Hk Hc. apply list_elem_of_omap. exists c.
    split; [by eapply list_elem_of_lookup_2|done]. }
  destruct i as [|i], j as [|j]; simpl in *; simplify_eq.
  - done.
  - rewrite Ha in Hnd. apply NoDup_cons in Hnd as [Hnotin _].
    exfalso. eauto.
  - rewrite Hb in Hnd. apply NoDup_cons in Hnd as [Hnotin _].
    exfalso. eauto.
  - f_equal. apply IH; [|done..].
    destruct (key_of owner r); [by apply NoDup_cons in Hnd as [_ ?]|done].
Qed.

Lemma omap_key_insert (owner : string) (t : list Row) (i : nat)
    (old new : Row) :
  t !! i = Some old -> key_of owner new = key_of owner old ->
  omap (key_of owner) (<[i:=new]> t) = omap (key_of owner) t.
Proof.
  revert i. induction t as [|r t IH]; intros [|i] Hi Hk; simpl in *;
    simplify_eq.
  - by rewrite Hk.
  - by rewrite IH.
Qed.

Lemma key_of_setattrs (owner : string) (obj fields : Row) :
  ~ names_key owner fields ->
  key_of owner (setattrs obj fields) = key_of owner obj.
Proof.
  intros Hno. unfold key_of. rewrite !setattrs_lookup.
  destruct (fields !! owner) eqn:Ho.
  { exfalso. apply Hno. left. by rewrite Ho. }
  destruct (fields !! "num_line") eqn:Hn.
  { exfalso. apply Hno. right. by rewrite Hn. }
  done.
Qed.

Section upsert_rows.
Variable owner : string.
Hypothesis owner_not_id : owner <> "id".
Hypothesis owner_not_num_line : owner <> "num_line".

Lemma construct_ok (t : list Row) (o n : Z) (fields : Row) :
  ~ names_key owner fields ->
  exists row, construct owner t o n fields = Ok row /\
    keyed owner o n row /\
    (forall k v, fields !! k = Some v -> row !! k = Some v) /\
    setattrs row fields = row.
Proof.
  intros Hno. unfold construct. fold (names_key owner fields).
  destruct (decide (names_key owner fields)); [done|].
  assert (Hfo : fields !! owner = None).
  { destruct (fields !! owner) eqn:E; [|done].
    exfalso. apply Hno. left. by rewrite E. }
  assert (Hfn : fields !! "num_line" = None).
  { destruct (fields !! "num_line") eqn:E; [|done].
    exfalso. apply Hno. right. by rewrite E. }
  set (base := ({[ owner := PInt o; "num_line" := PInt n ]} : Row)).
  assert (Hbase : keyed owner o n (setattrs base fields)).
  { unfold keyed. rewrite !setattrs_lookup, Hfo, Hfn. unfold base. split.
    - rewrite lookup_insert_ne by done. by rewrite lookup_singleton_eq.
    - by rewrite lookup_insert_eq. }
  destruct (decide (is_Some (setattrs base fields !! "id"))) as [|Hid].
  - eexists. split; [done|]. split; [done|]. split.
    + intros k v Hk. by rewrite setattrs_lookup, Hk.
    + apply setattrs_twice.
  - eexists. split; [done|]. unfold setattr.
    assert (Hfid : fields !! "id" = None).
    { destruct (fields !! "id") eqn:E; [|done]. exfalso. apply Hid.
      rewrite setattrs_lookup, E. by eexists. }
    split; [|split].
    + destruct Hbase as [H1 H2]. unfold keyed.
      by rewrite !lookup_insert_ne by done.
    + intros k v Hk. rewrite lookup_insert_ne by congruence.
      by rewrite setattrs_lookup, Hk.
    + apply map_eq. intros k. rewrite setattrs_lookup.
      destruct (fields !! k) eqn:Hk; [|done].
      rewrite lookup_insert_ne by congruence.
      by rewrite setattrs_lookup, Hk.
Qed.

Lemma upsert_rows_insert (t : list Row) (o n : Z) (fields : Row) :
  unique_keys owner t ->
  list_find (keyed owner o n) t = None ->
  ~ names_key owner fields ->
  exists row, upsert_rows owner t o n fields = Ok (row, t ++ [row]) /\
    keyed owner o n row /\
    (forall k v, fields !! k = Some v -> row !! k = Some v) /\
    setattrs row fields = row /\
    unique_keys owner (t ++ [row]).
Proof.
  intros Hu Hfind Hno. unfold upsert_rows. rewrite Hfind.
  destruct (construct_ok t o n fields Hno) as (row & -> & Hk & Hf & Hs).
  assert (Hu' : unique_keys owner (t ++ [row])).
  { unfold unique_keys in *. rewrite omap_app. simpl.
    rewrite (proj1 (keyed_key_of _ _ _ _) Hk). simpl.
    apply NoDup_app. split; [done|]. split; [|apply NoDup_singleton].
    intros x Hx ->%list_elem_of_singleton.
    apply list_elem_of_omap in Hx as (y & Hy & Hky).
    apply keyed_key_of in Hky.
    apply list_find_None in Hfind.
    by apply (proj1 (Forall_forall _ _) Hfind y). }
  exists row. simpl. unfold commit_rows.
  by destruct (decide (unique_keys owner (t ++ [row]))).
Qed.

Lemma upsert_rows_update (t : list Row) (o n : Z) (fields : Row) (i : nat)
    (old : Row) :
  unique_keys owner t ->
  list_find (keyed owner o n) t = Some (i, old) ->
  ~ names_key owner fields ->
  upsert_rows owner t o n fields =
    Ok (setattrs old fields, <[i:=setattrs old fields]> t) /\
  unique_keys owner (<[i:=setattrs old fields]> t).
Proof.
  intros Hu Hfind Hno. unfold upsert_rows. rewrite Hfind. simpl.
  apply list_find_Some in Hfind as (Hi & _ & _).
  assert (Hu' : unique_keys owner (<[i:=setattrs old fields]> t)).
  { unfold unique_keys in *.
    by rewrite (omap_key_insert _ _ _ old) by auto using key_of_setattrs. }
  unfold commit_rows.
  by destruct (decide (unique_keys owner (<[i:=setattrs old fields]> t))).
Qed.

Lemma upsert_rows_twice (t : list Row) (o n : Z) (fields : Row) :
  unique_keys owner t ->
  let t1 := rows_after (upsert_rows owner t o n fields) t in
  rows_after (upsert_rows owner t1 o n fields) t1 = t1.
Proof.
  intros Hu. simpl.
  destruct (list_find (keyed owner o n) t) as [[i old]|] eqn:Hfind.
  - (* the row exists *)
    pose proof Hfind as (Hi & Hkeyed & Hfirst)%list_find_Some.
    set (new := setattrs old fields).
    set (t1 := <[i:=new]> t).
    assert (E1 : upsert_rows owner t o n fields =
                 (t' ← commit_rows owner t1; Ok (new, t'))).
    { unfold upsert_rows. by rewrite Hfind. }
    rewrite E1. unfold commit_rows.
    destruct (decide (unique_keys owner t1)) as [Hu1|Hu1]; simpl.
    2:{ rewrite E1. unfold commit_rows.
        by destruct (decide (unique_keys owner t1)). }
    assert (Hlen : i < length t) by (by eapply lookup_lt_Some).
    destruct (decide (keyed owner o n new)) as [Hnew|Hnew].
    + assert (Hfind1 : list_find (keyed owner o n) t1 = Some (i, new)).
      { apply list_find_Some. split; [|split; [done|]].
        - unfold t1. by apply list_lookup_insert_eq.
        - intros j y Hj Hlt. unfold t1 in Hj.
          rewrite list_lookup_insert_ne in Hj by lia. eauto. }
      unfold upsert_rows. rewrite Hfind1. simpl.
      assert (Es : setattrs new fields = new) by apply setattrs_twice.
      assert (E : <[i:=new]> t1 = t1).
      { unfold t1. by rewrite list_insert_insert_eq. }
      rewrite Es, E. unfold commit_rows.
      by destruct (decide (unique_keys owner t1)).
    + assert (Hfind1 : list_find (keyed owner o n) t1 = None).
      { apply list_find_None, Forall_lookup. intros j y Hj Hy.
        unfold t1 in Hj. destruct (decide (i = j)) as [<-|Hne].
        - rewrite list_lookup_insert_eq in Hj by done. by simplify_eq.
        - rewrite list_lookup_insert_ne in Hj by done.
          apply Hne. by eapply (unique_keys_index owner t). }
      assert (Hnames : names_key owner fields).
      { destruct (decide (names_key owner fields)) as [|Hno]; [done|].
        exfalso. apply Hnew. apply keyed_key_of.
        unfold new. rewrite key_of_setattrs by done.
        by apply keyed_key_of. }
      unfold upsert_rows. rewrite Hfind1. unfold construct.
      fold (names_key owner fields).
      by destruct (decide (names_key owner fields)).
  - (* no row yet *)
    destruct (decide (names_key owner fields)) as [Hnames|Hno].
    + assert (E : upsert_rows owner t o n fields = Raise TypeError).
      { unfold upsert_rows. rewrite Hfind. unfold construct.
        fold (names_key owner fields).
        by destruct (decide (names_key owner fields)). }
      rewrite E. simpl. by rewrite E.
    + destruct (upsert_rows_insert t o n fields Hu Hfind Hno)
        as (row & -> & Hk & _ & Hs & Hu1). simpl.
      assert (Hfind1 : list_find (keyed owner o n) (t ++ [row])
                       = Some (length t, row)).
      { apply list_find_app_Some. right. split; [lia|]. split; [done|].
        rewrite Nat.sub_diag. simpl.
        by destruct (decide (keyed owner o n row)). }
      unfold upsert_rows. rewrite Hfind1. simpl. rewrite Hs.
      assert (E : <[length t:=row]> (t ++ [row]) = t ++ [row]).
      { apply list_insert_id. rewrite lookup_app_r by lia.
        by rewrite Nat.sub_diag. }
      rewrite E. unfold commit_rows.
      by destruct (decide (unique_keys owner (t ++ [row]))).
Qed.
End upsert_rows.

Lemma upsert_answer_after (db : Db) (e n : Z) (fields : Row) :
  db_after (upsert_answer db e n fields) db =
  set_answers db (rows_after (upsert_rows "experiment_id" (answers db) e n
                                          fields) (answers db)).
Proof.
  unfold upsert_answer.
  destruct (upsert_rows _ _ _ _ _) as [[row t']|]; simpl; [done|].
  by destruct db.
Qed.

Lemma upsert_observation_after (db : Db) (r n : Z) (fields : Row) :
  db_after (upsert_observation db r n fields) db =
  set_observations db (rows_after (upsert_rows "result_id" (observations db)
                                               r n fields) (observations db)).
Proof.
  unfold upsert_observation.
  destruct (upsert_rows _ _ _ _ _) as [[row t']|]; simpl; [done|].
  by destruct db.
Qed.

Lemma upsert_rows_contract (owner : string) (o n : Z) (fields : Row)
    (t : list Row) :
  owner <> "id" -> owner <> "num_line" ->
  unique_keys owner t -> ~ names_key owner fields ->
  upsert_contract owner o n fields t (upsert_rows owner t o n fields).
Proof.
  intros H1 H2 Hu Hno. split.
  - intros Hfind.
    destruct (upsert_rows_insert owner H1 H2 t o n fields Hu Hfind Hno)
      as (row & ? & ? & ? & _). by exists row.
  - intros i old Hfind.
    destruct (upsert_rows_update owner t o n fields i old Hu Hfind Hno)
      as [-> _].
    eexists. split; [done|]. split.
    + intros k v Hk. by rewrite setattrs_lookup, Hk.
    + intros k Hk. by rewrite setattrs_lookup, Hk.
Qed.

(** C3: on tables that satisfy their unique constraint, and for a field
    mapping that does not name the key columns, upsert_answer adds a row
    with the key and the named fields when none has the key and otherwise
    overwrites the named fields of the row that has it, leaving its other
    fields alone; and for every field mapping a second upsert_answer with
    the same arguments leaves the database as the first one left it.  The
    same holds of upsert_observation under the key (result_id, num_line). *)
Theorem upsert_idempotent (db : Db) (owner_id num_line : Z) (fields : Row) :
  unique_keys "experiment_id" (answers db) ->
  unique_keys "result_id" (observations db) ->
  (~ names_key "experiment_id" fields ->
     exists run,
       upsert_contract "experiment_id" owner_id num_line fields (answers db)
                       run /\
       upsert_answer db owner_id num_line fields =
         ('(row, t') ← run; Ok (row, set_answers db t'))) /\
  (~ names_key "result_id" fields ->
     exists run,
       upsert_contract "result_id" owner_id num_line fields (observations db)
                       run /\
       upsert_observation db owner_id num_line fields =
         ('(row, t') ← run; Ok (row, set_observations db t'))) /\
  (let db1 := db_after (upsert_answer db owner_id num_line fields) db in
   db_after (upsert_answer db1 owner_id num_line fields) db1 = db1) /\
  (let db1 := db_after (upsert_observation db owner_id num_line fields) db in
   db_after (upsert_observation db1 owner_id num_line fields) db1 = db1).
Proof.
  intros Hua Huo. repeat split.
  - intros Hno. eexists. split; [by apply upsert_rows_contract|done].
  - intros Hno. eexists. split; [by apply upsert_rows_contract|done].
  - simpl. rewrite !upsert_answer_after. unfold set_answers at 1 2. simpl.
    by rewrite (upsert_rows_twice "experiment_id").
  - simpl. rewrite !upsert_observation_after.
    unfold set_observations at 1 2. simpl.
    by rewrite (upsert_rows_twice "result_id").
Qed.

End CrudFacts.

(** ** Creation: validation and the first phase *)

Module CreateFacts.
Import Schemas Create Endpoints Spec.

Section facts.
Variable require : string -> list string.
Variable read_json : string -> option DataFrame.

Local Abbreviation request_dataset := (Spec.request_dataset read_json).
Local Abbreviation incompatible := (Spec.incompatible require).
Local Abbreviation wants_answers := (Spec.wants_answers require).
Local Abbreviation member_wants_answers := (Spec.member_wants_answers require).
Local Abbreviation member_call := (Spec.member_call require).

Lemma request_dataset_raises (db : Db) (e : ExperimentCreate) (x : exn) :
  request_dataset db e = Raise x -> exists msg, x = SchemaError msg.
Proof.
  unfold request_dataset, dataset_to_table_init.
  destruct (ec_dataset e) as [name|d].
  - destruct (list_find _ _) as [[]|]; [done|]. intros [= <-]. by eexists.
  - destruct (read_json _); [|intros [= <-]; by eexists].
    destruct (negb _); [intros [= <-]; by eexists|done].
Qed.

(** [experiment_to_table_init] first resolves the dataset, then runs the
    checks on it. *)
Lemma to_table_init_unfold (db : Db) (e : ExperimentCreate) :
  experiment_to_table_init require read_json db e =
  match request_dataset db e with
  | Raise x => Raise x
  | Ok dataset =>
      let no_model := bool_decide (ec_model e = None) in
      if needs require "query" (ec_metrics e) && negb (has dataset "has_query")
      then Raise (SchemaError "You need to provide a query for this metric. ")
      else if needs require "output" (ec_metrics e) && no_model
              && negb (has dataset "has_output")
      then Raise (SchemaError
        "You need to provide an answer for this metric. Either set a model to generate it or provide a dataset with the 'output' field.")
      else if needs require "output" (ec_metrics e)
              && negb (has dataset "has_output") && negb (has dataset "has_query")
      then Raise (SchemaError
        "You need to provide an answer for this metric. Either provide a dataset with the 'query' field to generate the answer or with an 'output' field if have generated it yourself.")
      else if needs require "output_true" (ec_metrics e)
              && negb (has dataset "has_output_true")
      then Raise (SchemaError
        "You need to provide a ground truth for this metric. Your dataset needs to have an 'output_true' field.")
      else if has dataset "has_output" && negb no_model
      then Raise (SchemaError
        "You can't give at the same time a model and a dataset with an answer ('output' column). Gives either one or the other.")
      else
        Ok (mkExperimentInit
              (<["experiment_status" := PStr "pending"]>
               ({[ "name" := PStr (ec_name e);
                   "readme" := opt_str (ec_readme e);
                   "experiment_set_id" := opt_int (ec_experiment_set_id e) ]}))
              (ec_metrics e) (DatasetObj dataset)
              (model_to_table_init <$> ec_model e)
              (result_to_table_init <$> ec_metrics e))
  end.
Proof.
  unfold experiment_to_table_init, experiment_recurse_table_init,
    request_dataset, has.
  destruct (ec_dataset e) as [name|d]; simpl.
  - by destruct (list_find _ _) as [[]|].
  - by destruct (dataset_to_table_init read_json d).
Qed.

Lemma to_table_init_rejects (db : Db) (e : ExperimentCreate) :
  match request_dataset db e with
  | Ok d => incompatible e d
  | Raise _ => True
  end ->
  exists msg, experiment_to_table_init require read_json db e
              = Raise (SchemaError msg).
Proof.
  rewrite to_table_init_unfold.
  destruct (request_dataset db e) as [d|x] eqn:Hd.
  2:{ intros _. destruct (request_dataset_raises _ _ _ Hd) as [msg ->].
      by eexists. }
  intros Hbad. simpl.
  repeat (match goal with
          | |- context [if ?b then Raise _ else _] =>
              destruct b eqn:?; [by eexists|]
          end).
  exfalso.
  destruct Hbad as [[? ?]|[(? & ? & ?)|[[? ?]|[? ?]]]];
    repeat match goal with
           | H : _ && _ = false |- _ => apply andb_false_iff in H
           | H : _ \/ _ |- _ => destruct H
           | H : bool_decide _ = false |- _ => apply bool_decide_eq_false in H
           | H : bool_decide _ = true |- _ => apply bool_decide_eq_true in H
           | H : negb _ = false |- _ => apply negb_false_iff in H
           end; congruence.
Qed.

(** C4: a request whose dataset cannot be had, or whose dataset and
    metrics or model break a compatibility rule (a model together with a
    dataset that has an output; a needed query, output or output_true that
    the dataset lacks), is answered with the 400 of a schema error; the
    database and the list of dispatcher calls are what they were. *)
Theorem create_experiment_rejects_incompatible (w : World)
    (e : ExperimentCreate) :
  match request_dataset (world_db w) e with
  | Ok d => incompatible e d
  | Raise _ => True
  end ->
  exists msg,
    Endpoints.create_experiment require read_json w e
    = (w, HttpError 400 msg).
Proof.
  intros Hbad.
  destruct (to_table_init_rejects (world_db w) e Hbad) as [msg Hmsg].
  exists msg. unfold Endpoints.create_experiment, Create.create_experiment.
  by rewrite Hmsg.
Qed.

(** *** The first phase *)

Lemma fresh_id_gt (t : list Row) (r : Row) :
  r ∈ t -> (row_id r < fresh_id t)%Z.
Proof.
  unfold fresh_id. induction t as [|x t IH].
  - by intros ?%elem_of_nil.
  - rewrite fmap_cons. cbn [foldr].
    intros [->|Hin]%elem_of_cons; [lia|]. specialize (IH Hin). lia.
Qed.

Lemma fresh_id_not_stored (t : list Row) (r : Row) :
  r ∈ t -> r !! "id" <> Some (PInt (fresh_id t)).
Proof.
  intros Hin Hid. pose proof (fresh_id_gt t r Hin) as Hlt.
  unfold row_id in Hlt. rewrite Hid in Hlt. lia.
Qed.

Lemma NoDup_fmap_eq {A B} (f : A -> B) (l : list A) (x y : A) :
  NoDup (f <$> l) -> x ∈ l -> y ∈ l -> f x = f y -> x = y.
Proof.
  induction l as [|a l IH]; simpl; [by intros _ ?%elem_of_nil|].
  intros [Hnotin Hnd]%NoDup_cons [->|Hx]%elem_of_cons [->|Hy]%elem_of_cons Hf.
  - done.
  - exfalso. apply Hnotin. rewrite Hf. by apply list_elem_of_fmap_2.
  - exfalso. apply Hnotin. rewrite <- Hf. by apply list_elem_of_fmap_2.
  - by apply IH.
Qed.

Lemma filter_none {A} (P : A -> Prop) `{forall x, Decision (P x)}
    (l : list A) :
  (forall x, x ∈ l -> ~ P x) -> filter P l = [].
Proof.
  induction l as [|a l IH]; intros Hno; [done|].
  rewrite filter_cons_False by (apply Hno; left).
  apply IH. intros x Hx. apply Hno. by right.
Qed.

Lemma getattr_int (r : Row) (k : string) (i : Z) :
  getattr r k = PInt i <-> r !! k = Some (PInt i).
Proof.
  unfold getattr. destruct (r !! k); simpl; split; congruence.
Qed.

Lemma request_dataset_source (db : Db) (e : ExperimentCreate) (d : Row) :
  request_dataset db e = Ok d -> d ∈ datasets db \/ d !! "id" = None.
Proof.
  unfold request_dataset, dataset_to_table_init.
  destruct (ec_dataset e) as [name|dc].
  - destruct (list_find _ _) as [[j x]|] eqn:Hfind; [|done].
    intros [= <-]. left.
    apply list_find_Some in Hfind as (Hj & _).
    by eapply list_elem_of_lookup_2.
  - destruct (read_json _); [|done]. destruct (negb _); [done|].
    intros [= <-]. right. by simplify_map_eq.
Qed.

(** The dataset of the experiment just staged is the one the request
    designated. *)
Lemma staged_dataset (db : Db) (d : Row) :
  well_keyed db -> d ∈ datasets db \/ d !! "id" = None ->
  let st := if decide (is_Some (d !! "id")) then (d, datasets db)
            else add_row (datasets db) d in
  exists j d',
    list_find (fun x => sql_eq (getattr x "id") (getattr st.1 "id")) st.2
    = Some (j, d') /\
    getattr d' "has_output" = getattr d "has_output".
Proof.
  intros (Hids & Hnd & _) Hsrc. simpl.
  destruct (decide (is_Some (d !! "id"))) as [[v Hv]|Hnone]; simpl.
  - destruct Hsrc as [Hin|Hno]; [|congruence].
    destruct (Hids d Hin) as [i Hi].
    assert (Hgi : getattr d "id" = PInt i) by by apply getattr_int.
    rewrite Hgi.
    destruct (list_find_elem_of
                (fun x => sql_eq (getattr x "id") (PInt i))
                (datasets db) d Hin) as [[j d'] Hfind].
    { split; [by rewrite Hgi|done]. }
    exists j, d'. split; [done|].
    apply list_find_Some in Hfind as (Hj & [_ Heq] & _).
    apply getattr_int in Heq.
    assert (d' = d) as ->; [|done].
    eapply (NoDup_fmap_eq row_id); [done| |done|].
    + by eapply list_elem_of_lookup_2.
    + unfold row_id. by rewrite Heq, Hi.
  - assert (Hd : d !! "id" = None).
    { destruct (d !! "id") eqn:E; [|done]. exfalso. apply Hnone. by eexists. }
    unfold add_row. destruct (decide (is_Some (d !! "id"))); [done|]. simpl.
    set (d1 := <["id" := PInt (fresh_id (datasets db))]> d).
    assert (Hg1 : getattr d1 "id" = PInt (fresh_id (datasets db))).
    { unfold getattr, d1. by rewrite lookup_insert_eq. }
    rewrite Hg1. exists (length (datasets db)), d1. split.
    + apply list_find_app_Some. right. split; [lia|]. split.
      * apply list_find_None, Forall_forall. intros x Hx [_ Hid].
        apply getattr_int in Hid. by eapply fresh_id_not_stored.
      * rewrite Nat.sub_diag. simpl.
        destruct (decide (sql_eq (getattr d1 "id") _)) as [|Hno]; [done|].
        exfalso. apply Hno. by rewrite Hg1.
    + unfold getattr, d1. by rewrite lookup_insert_ne.
Qed.

(** The rows added for the results of an experiment. *)
Lemma added_results (g : Row -> Row) (rs t0 : list Row) :
  (forall r, g r !! "id" = None) ->
  exists new,
    foldl (fun t r => (add_row t (g r)).2) t0 rs = t0 ++ new /\
    Forall2 (fun r row => exists i, row = <["id" := PInt i]> (g r)) rs new.
Proof.
  intros Hg. revert t0. induction rs as [|r rs IH]; intros t0; cbn [foldl].
  - exists []. by rewrite app_nil_r.
  - assert (E : (add_row t0 (g r)).2
                = t0 ++ [<["id" := PInt (fresh_id t0)]> (g r)]).
    { unfold add_row.
      destruct (decide (is_Some (g r !! "id"))) as [[? E]|_]; [|done].
      by rewrite Hg in E. }
    rewrite E.
    destruct (IH (t0 ++ [<["id" := PInt (fresh_id t0)]> (g r)]))
      as (new & -> & Hall).
    eexists (_ :: new). rewrite <- app_assoc. split; [done|].
    constructor; [by eexists|done].
Qed.

Lemma staged_needs_output (db : Db) (e : ExperimentCreate) (d fields : Row)
    (model : option Row) (db_exp : Row) (db1 : Db) :
  well_keyed db -> request_dataset db e = Ok d -> fields !! "id" = None ->
  stage_experiment db
    (mkExperimentInit fields (ec_metrics e) (DatasetObj d) model
                      (result_to_table_init <$> ec_metrics e))
  = Ok (db_exp, db1) ->
  _needs_output require db1 db_exp
  = Ok (negb (has d "has_output") && needs require "output" (ec_metrics e)).
Proof.
  intros Hwf Hd Hfid. unfold stage_experiment. cbn [ei_dataset ei_model
    ei_fields ei_results]. cbv zeta.
  pose proof (staged_dataset db d Hwf (request_dataset_source _ _ _ Hd))
    as Hds. cbv zeta in Hds.
  set (ds := if decide (is_Some (d !! "id")) then (d, datasets db)
             else add_row (datasets db) d) in *.
  destruct Hds as (j & d' & Hfind & Hout).
  set (md := match model with
             | Some m => (getattr (add_row (models db) m).1 "id",
                          (add_row (models db) m).2)
             | None => (PNone, models db)
             end).
  set (X := <["dataset_id" := getattr ds.1 "id"]>
            (<["model_id" := md.1]>
             (<["num_try" := PInt 0]>
              (<["num_success" := PInt 0]> fields)))).
  set (fresh := fresh_id (experiments db)).
  assert (Hex : add_row (experiments db) X
                = (<["id" := PInt fresh]> X,
                   experiments db ++ [<["id" := PInt fresh]> X])).
  { unfold add_row.
    destruct (decide (is_Some (X !! "id"))) as [[? E]|_]; [|done].
    unfold X in E. rewrite !lookup_insert_ne in E by done. congruence. }
  rewrite Hex. cbn [fst snd].
  set (new_exp := <["id" := PInt fresh]> X).
  set (g := fun r : Row =>
              <["experiment_id" := getattr new_exp "id"]>
              (<["num_try" := PInt 0]>
               (<["num_success" := PInt 0]> (delete "id" r)))).
  destruct (added_results g (result_to_table_init <$> ec_metrics e)
              (results db)) as (new & Hnew & Hall).
  { intros r. unfold g. rewrite !lookup_insert_ne by done.
    apply lookup_delete_eq. }
  unfold g in Hnew. rewrite Hnew. intros [= <- <-].
  unfold _needs_output, exp_dataset, exp_results. cbn [datasets results].
  assert (Hgid : getattr new_exp "id" = PInt fresh).
  { unfold getattr, new_exp. by rewrite lookup_insert_eq. }
  assert (Hgds : getattr new_exp "dataset_id" = getattr ds.1 "id").
  { unfold getattr, new_exp, X. rewrite lookup_insert_ne by done.
    by rewrite lookup_insert_eq. }
  rewrite Hgds, Hfind. cbn [fmap option_fmap option_map snd].
  f_equal. unfold has. rewrite Hout. f_equal.
  rewrite Hgid, filter_app.
  assert (Hold : filter (fun r => sql_eq (getattr r "experiment_id")
                                         (PInt fresh)) (results db) = []).
  { apply filter_none. intros r Hr [_ Heq]. apply getattr_int in Heq.
    destruct Hwf as (_ & _ & Hfk).
    destruct (Hfk r fresh Hr Heq) as (x & Hx & Hxid).
    by eapply fresh_id_not_stored. }
  rewrite Hold, app_nil_l. clear Hnew Hold.
  unfold needs. revert new Hall.
  induction (ec_metrics e) as [|m ms IH]; intros new Hall.
  - by apply Forall2_nil_inv_l in Hall as ->.
  - rewrite fmap_cons in Hall.
    apply Forall2_cons_inv_l in Hall as (row & new' & [i ->] & Hall & ->).
    rewrite filter_cons_True.
    2:{ assert (Hv : getattr (<["id":=PInt i]> (g (result_to_table_init m)))
                             "experiment_id" = PInt fresh).
        { unfold g. unfold getattr at 1.
          rewrite lookup_insert_ne by done. rewrite lookup_insert_eq.
          exact Hgid. }
        rewrite Hv. by split. }
    cbn [existsb]. rewrite (IH new' Hall). by f_equal.
Qed.

Lemma needs_spec (c : string) (metrics : list string) :
  needs require c metrics = true <-> exists m, m ∈ metrics /\ c ∈ require m.
Proof.
  unfold needs. rewrite existsb_exists. split.
  - intros (m & Hin & Hm). exists m. split; [by apply list_elem_of_In|].
    by apply bool_decide_eq_true in Hm.
  - intros (m & Hin & Hm). exists m. split; [by apply list_elem_of_In|].
    by apply bool_decide_eq_true.
Qed.

Lemma first_phase_wants (metrics : list string) (d : Row) :
  let phase := first_phase (negb (has d "has_output") &&
                            needs require "output" metrics) in
  (phase = "answers" <-> wants_answers metrics d) /\
  (phase = "observations" <-> ~ wants_answers metrics d).
Proof.
  unfold wants_answers. simpl. rewrite <- needs_spec.
  destruct (has d "has_output"), (needs require "output" metrics); simpl;
    split; split; intuition congruence.
Qed.

Lemma members_require_spec (rs : list Row) :
  existsb (metric_requires_output require) rs = true <->
  exists r m, r ∈ rs /\ getattr r "metric_name" = PStr m /\
              "output" ∈ require m.
Proof.
  rewrite existsb_exists. unfold metric_requires_output. split.
  - intros (r & Hin & Hr). destruct (getattr r "metric_name") eqn:E; try done.
    exists r, s. split; [by apply list_elem_of_In|].
    split; [done|]. by apply bool_decide_eq_true in Hr.
  - intros (r & m & Hin & Hm & Hreq). exists r.
    split; [by apply list_elem_of_In|]. rewrite Hm.
    by apply bool_decide_eq_true.
Qed.

Lemma first_phase_member (db : Db) (db_exp d : Row) :
  let phase := first_phase
                 (negb (truthy (getattr d "has_output")) &&
                  existsb (metric_requires_output require)
                          (exp_results db db_exp)) in
  (phase = "answers" <-> member_wants_answers db db_exp d) /\
  (phase = "observations" <-> ~ member_wants_answers db db_exp d).
Proof.
  unfold member_wants_answers, has. simpl. rewrite <- members_require_spec.
  destruct (truthy (getattr d "has_output")),
    (existsb (metric_requires_output require) (exp_results db db_exp));
    simpl; split; split; intuition congruence.
Qed.

Lemma dispatch_members_calls (w w' : World) (members : list Row) :
  dispatch_members require w members = (w', None) ->
  world_db w' = world_db w /\
  exists calls, world_calls w' = world_calls w ++ calls /\
    Forall2 (member_call (world_db w)) members calls.
Proof.
  revert w. induction members as [|db_exp members IH]; intros w; simpl.
  - intros [= <-]. split; [done|]. exists []. by rewrite app_nil_r.
  - unfold dispatch_first_phase, _needs_output.
    destruct (exp_dataset (world_db w) db_exp) as [d|] eqn:Hd; [|done].
    simpl. intros Hrest. apply IH in Hrest as (Hdb & calls & Hcalls & Hall).
    simpl in *. split; [done|].
    eexists (_ :: calls). rewrite Hcalls, <- app_assoc. split; [done|].
    constructor; [|done].
    eexists d, _. split; [done|]. split; [done|].
    apply first_phase_member.
Qed.

Section sets.
Variable Any : Type.
Variable str_obj : string -> Any.
Variable validate_experiment : gmap string Any -> res ExperimentCreate.

End sets.

End facts.

End CreateFacts.

(** ** The retry planner *)

Module RetryFacts.
Import Schemas Create Endpoints Spec.

Section facts.
Variable require : string -> list string.

Local Abbreviation needed_output := (Spec.needed_output require).
Local Abbreviation retry_answers := (Spec.retry_answers require).
Local Abbreviation retry_metrics := (Spec.retry_metrics require).
Local Abbreviation selected_experiments := (Spec.selected_experiments require).
Local Abbreviation selected_results := (Spec.selected_results require).

Lemma retry_results_spec (rs : list Row) (rr : RetryRuns) :
  retry_results rs rr =
  mkRetryRuns (experiment_ids rr)
              (result_ids rr ++ ids (filter retry_result rs)).
Proof.
  revert rr. induction rs as [|result rs IH]; intros rr; simpl.
  - rewrite app_nil_r. by destruct rr.
  - destruct (decide (~ finished "metric_status" result)) as [Hnf|Hf].
    + rewrite IH, filter_cons_False; [done|]. by intros [? _].
    + apply dec_stable in Hf. destruct (decide (failed result)) as [Hx|Hx].
      * rewrite IH, filter_cons_True by done. simpl.
        by rewrite <- app_assoc.
      * rewrite IH, filter_cons_False; [done|]. by intros [_ ?].
Qed.

Lemma retry_experiments_spec (db : Db) (exps : list Row) (rr : RetryRuns) :
  (forall exp, exp ∈ exps -> is_Some (exp_dataset db exp)) ->
  retry_experiments require db exps rr =
  Ok (mkRetryRuns (experiment_ids rr ++ selected_experiments db exps)
                  (result_ids rr ++ selected_results db exps)).
Proof.
  unfold selected_experiments, selected_results.
  revert rr. induction exps as [|exp exps IH]; intros rr Hds; simpl.
  - rewrite !app_nil_r. by destruct rr.
  - assert (Hrest : forall x, x ∈ exps -> is_Some (exp_dataset db x)).
    { intros x Hx. apply Hds. by right. }
    destruct (Hds exp) as [dataset Hd]; [by left|].
    assert (Hneeds : _needs_output require db exp = Ok (needed_output db exp)).
    { unfold _needs_output, needed_output. by rewrite Hd. }
    destruct (decide (~ finished "experiment_status" exp)) as [Hnf|Hf].
    + rewrite IH by done.
      rewrite !filter_cons_False; [done| |]; by intros [? _].
    + apply dec_stable in Hf.
      destruct (decide (failed exp)) as [Hx|Hx].
      * rewrite Hneeds. simpl.
        destruct (needed_output db exp) eqn:Hn.
        -- rewrite IH by done. simpl.
           rewrite filter_cons_True by done.
           rewrite (filter_cons_False (retry_metrics db)).
           2:{ intros [_ Hno]. by apply Hno. }
           simpl. by rewrite <- app_assoc.
        -- rewrite IH by done. rewrite retry_results_spec. simpl.
           rewrite filter_cons_False.
           2:{ intros (_ & _ & ?). congruence. }
           rewrite (filter_cons_True (retry_metrics db)).
           2:{ split; [done|]. intros (_ & _ & ?). congruence. }
           simpl. by rewrite <- app_assoc.
      * simpl. rewrite IH by done. rewrite retry_results_spec. simpl.
        rewrite filter_cons_False.
        2:{ by intros (_ & ? & _). }
        rewrite (filter_cons_True (retry_metrics db)).
        2:{ split; [done|]. by intros (_ & ? & _). }
        simpl. by rewrite <- app_assoc.
Qed.

(** C2: on a set whose experiments have their dataset, the retry endpoint
    answers and hands to the dispatcher the plan made of: the ids of the
    experiments that are finished, have num_try different from
    num_success and needed model output; and, for every other finished
    experiment, the ids of its Results that are finished with num_try
    different from num_success.  An experiment that is not finished is in
    neither part. *)
Theorem retry_runs_selection (w : World) (id : Z) (i : nat)
    (experimentset : Row) :
  query_get (experimentsets (world_db w)) id = Some (i, experimentset) ->
  let db := world_db w in
  let exps := set_experiments db experimentset in
  (forall exp, exp ∈ exps -> is_Some (exp_dataset db exp)) ->
  exists rr,
    retry_runs require w id
    = (mkWorld db (world_calls w ++ [dispatch_retries rr]), Json rr) /\
    experiment_ids rr = ids (filter (retry_answers db) exps) /\
    result_ids rr =
      (exp ← filter (retry_metrics db) exps;
       ids (filter retry_result (exp_results db exp))) /\
    (forall v, v ∈ experiment_ids rr <->
       exists exp, exp ∈ exps /\ retry_answers db exp /\
                   v = getattr exp "id") /\
    (forall v, v ∈ result_ids rr <->
       exists exp result, exp ∈ exps /\ retry_metrics db exp /\
         result ∈ exp_results db exp /\ retry_result result /\
         v = getattr result "id").
Proof.
  intros Hget db exps Hds. unfold retry_runs. rewrite Hget.
  fold db. fold exps. rewrite retry_experiments_spec by done. simpl.
  eexists. split; [done|]. simpl. split; [done|]. split; [done|].
  unfold selected_experiments, selected_results, ids. split.
  - intros v. rewrite list_elem_of_fmap. split.
    + intros (exp & -> & [Hsel Hin]%list_elem_of_filter). by exists exp.
    + intros (exp & Hin & Hsel & ->). exists exp. split; [done|].
      by apply list_elem_of_filter.
  - intros v. rewrite list_elem_of_bind. split.
    + intros (exp & Hv & [Hsel Hin]%list_elem_of_filter).
      apply list_elem_of_fmap in Hv as (result & -> & Hr).
      apply list_elem_of_filter in Hr as [Hrsel Hrin].
      by exists exp, result.
    + intros (exp & result & Hin & Hsel & Hrin & Hrsel & ->).
      exists exp. split; [|by apply list_elem_of_filter].
      apply list_elem_of_fmap. exists result. split; [done|].
      by apply list_elem_of_filter.
Qed.
End facts.

End RetryFacts.

(** ** Sets made from a grid *)

Module GridFacts.
Import Schemas Create Spec.

Lemma auto_name_inj (set_name : string) : Inj (=) (=) (auto_name set_name).
Proof.
  intros i j H. unfold auto_name in H.
  apply (inj (String.app _)) in H. apply (inj (String.app _)) in H.
  by apply (inj pretty) in H.
Qed.

Lemma length_bind_const {A B} (f : A -> list B) (l : list A) (n : nat) :
  (forall x, length (f x) = n) -> length (l ≫= f) = length l * n.
Proof.
  intros Hf. induction l as [|x l IH]; [done|].
  rewrite bind_cons, length_app, Hf, IH. simpl. lia.
Qed.

Section facts.
Variable require : string -> list string.
Variable read_json : string -> option DataFrame.
Variable Any : Type.
Variable str_obj : string -> Any.
Variable validate_experiment : gmap string Any -> res ExperimentCreate.

(** pydantic keeps the name it is given. *)
Hypothesis validate_name : forall p e n,
  validate_experiment p = Ok e -> p !! "name" = Some (str_obj n) ->
  ec_name e = n.

Lemma build_param_grid_length (common : gmap string Any)
    (grid : list (string * list Any)) :
  length (build_param_grid Any common grid) = grid_size grid.
Proof.
  induction grid as [|[k vs] grid IH]; [done|].
  cbn [build_param_grid grid_size foldr snd].
  apply length_bind_const. intros v.
  rewrite (length_bind_const _ _ 1) by done.
  fold (grid_size grid). rewrite IH. lia.
Qed.

Lemma to_table_init_name (db : Db) (e : ExperimentCreate)
    (init : ExperimentInit) :
  experiment_to_table_init require read_json db e = Ok init ->
  init_name init = PStr (ec_name e).
Proof.
  rewrite CreateFacts.to_table_init_unfold.
  destruct (Spec.request_dataset read_json db e); [|done]. simpl.
  repeat match goal with
         | |- (if ?b then Raise _ else _) = _ -> _ =>
             destruct b; [discriminate|]
         end.
  intros [= <-]. unfold init_name, getattr. simpl.
  rewrite lookup_insert_ne by done. by rewrite lookup_insert_eq.
Qed.

Lemma repeat_loop_spec (db : Db) (set_name : string) (n : nat)
    (p : gmap string Any) (i i' : nat) (acc acc' : list ExperimentInit) :
  repeat_loop require read_json Any str_obj validate_experiment db set_name
              n p i acc = Ok (i', acc') ->
  i' = i + n /\
  exists new, acc' = acc ++ new /\
    init_name <$> new = auto_names set_name i n.
Proof.
  revert p i acc. induction n as [|n IH]; intros p i acc; simpl.
  - intros [= <- <-]. split; [lia|]. exists []. by rewrite app_nil_r.
  - destruct (validate_experiment _) as [e|] eqn:Hval; [|done]. simpl.
    destruct (experiment_to_table_init _ _ _ e) as [init|] eqn:Hinit;
      [|done]. simpl.
    intros Hrest. apply IH in Hrest as (-> & new & -> & Hnames).
    split; [lia|]. exists (init :: new).
    rewrite <- app_assoc. split; [done|].
    unfold auto_names in *. cbn [seq]. rewrite !fmap_cons, Hnames. f_equal.
    rewrite (to_table_init_name _ _ _ Hinit). f_equal.
    eapply validate_name; [done|]. by rewrite lookup_insert_eq.
Qed.

Lemma grid_loop_spec (db : Db) (set_name : string) (rep : Z)
    (points : list (gmap string Any)) (i i' : nat)
    (acc acc' : list ExperimentInit) :
  grid_loop require read_json Any str_obj validate_experiment db set_name
            rep points i acc = Ok (i', acc') ->
  i' = i + length points * Z.to_nat rep /\
  exists new, acc' = acc ++ new /\
    init_name <$> new = auto_names set_name i (length points * Z.to_nat rep).
Proof.
  revert i acc. induction points as [|p points IH]; intros i acc; simpl.
  - intros [= <- <-]. split; [lia|]. exists []. by rewrite app_nil_r.
  - destruct (repeat_loop _ _ _ _ _ _ _ _ _ _ _) as [[i1 acc1]|] eqn:Hrep;
      [|done]. simpl.
    apply repeat_loop_spec in Hrep as (-> & new1 & -> & Hn1).
    intros Hrest. apply IH in Hrest as (-> & new2 & -> & Hn2).
    split; [lia|]. exists (new1 ++ new2).
    rewrite <- app_assoc. split; [done|].
    rewrite fmap_app, Hn1, Hn2. unfold auto_names.
    by rewrite seq_app, fmap_app.
Qed.

(** C5: a set made from a grid holds, in this order, the experiments named
    set_name__0, set_name__1, ... one for each of the |G| points of the
    Cartesian product of the grid lists taken [repeat] times: |G| * repeat
    of them for a repeat that is not negative; the names differ from one
    another. *)
Theorem grid_experiment_names (db : Db) (s : ExperimentSetCreate Any)
    (cv : GridCV Any) (init : ExperimentSetInit) :
  sc_cv Any s = Some cv ->
  experimentset_to_table_init require read_json Any str_obj
    validate_experiment db s = Ok init ->
  (0 <= repeat Any cv)%Z ->
  exists exps,
    si_experiments init = Some exps /\
    length (build_param_grid Any (common_params Any cv) (grid_params Any cv))
      = grid_size (grid_params Any cv) /\
    Z.of_nat (length exps)
      = (Z.of_nat (grid_size (grid_params Any cv)) * repeat Any cv)%Z /\
    init_name <$> exps
      = (fun i => PStr (auto_name (sc_name Any s) i)) <$> seq 0 (length exps) /\
    NoDup (init_name <$> exps).
Proof.
  intros Hcv Hrun Hrep. unfold experimentset_to_table_init in Hrun.
  rewrite Hcv in Hrun.
  destruct (sc_experiments Any s) as [es|].
  { simpl in Hrun. by destruct (recurse_list read_json es). }
  simpl in Hrun.
  destruct (grid_loop _ _ _ _ _ _ _ _ _ _ _) as [[i' exps]|] eqn:Hloop;
    [|done].
  simpl in Hrun. injection Hrun as <-.
  apply grid_loop_spec in Hloop as (_ & new & -> & Hnames).
  simpl in *. exists new. split; [done|].
  rewrite build_param_grid_length in *.
  assert (Hlen : length new
                 = grid_size (grid_params Any cv) * Z.to_nat (repeat Any cv)).
  { rewrite <- (length_fmap init_name), Hnames. unfold auto_names.
    by rewrite length_fmap, length_seq. }
  split; [done|]. split; [lia|]. split.
  - by rewrite Hnames, Hlen.
  - rewrite Hnames. unfold auto_names. apply NoDup_fmap_2.
    + intros a b [= H]. by apply auto_name_inj in H.
    + apply NoDup_seq.
Qed.
End facts.

End GridFacts.


(** ** The leaderboard *)

Module LeaderboardFacts.
Import Create Endpoints Leaderboard Samples.

(** The query of crud.py does filter: given a dataset name, every entry it
    returns is of a dataset of that name. *)
Lemma get_leaderboard_filters (db : Db) (metric_name name : string)
    (limit : Z) (entries : list LeaderboardEntry) :
  name <> EmptyString ->
  get_leaderboard db metric_name (Some name) limit = Ok entries ->
  forall entry, entry ∈ entries -> le_dataset_name entry = PStr name.
Proof.
  intros Hname. unfold get_leaderboard.
  destruct (decide (name = EmptyString)); [done|].
  destruct (decide (limit < 0)%Z); [done|].
  intros [= <-] entry (row & -> & Hrow)%list_elem_of_fmap. simpl.
  apply elem_of_take in Hrow as (i & Hrow & _).
  apply list_elem_of_lookup_2 in Hrow.
  rewrite merge_sort_Permutation in Hrow.
  by apply list_elem_of_filter in Hrow as [[_ ?] _].
Qed.

(** C9 fails on the handler: asked for the leaderboard of dataset A, with
    experiments on A and on B that both have scores for the metric, GET
    /leaderboard answers with the entry of B first and the one of A
    second, where the query of crud.py, given the name, returns the entry
    of A alone. *)
Theorem read_leaderboard_ignores_dataset_name :
  q_dataset_name board_query = Some "A" /\
  entry_datasets (read_leaderboard (mkWorld board_db []) board_query)
  = [PStr "B"; PStr "A"] /\
  fmap (M:=res) (fmap le_dataset_name)
       (get_leaderboard board_db "judge_notator" (Some "A") 100)
  = Ok [PStr "A"].
Proof. split; [done|]. split; vm_compute; reflexivity. Qed.

End LeaderboardFacts.

(** ** Appending to a set *)

Module PatchFacts.
Import Schemas Create Endpoints Samples.

(** Without a gap the bumped names are new: appended to a set that holds
    grid__0 and grid__1, None__0 becomes grid__2. *)
Example bump_after_two :
  Names.bump "None__0" 2 (PStr "grid") = Ok "grid__2".
Proof. vm_compute. reflexivity. Qed.

Example bump_keeps_prefix :
  Names.bump "x__y__12" 3 (PStr "grid") = Ok "x__y__15".
Proof. vm_compute. reflexivity. Qed.

Example bump_odd_underscores :
  Names.bump "a___5" 2 (PStr "grid") = Raise ValueError.
Proof. vm_compute. reflexivity. Qed.


End PatchFacts.

(** ** The statements above, on the worked inputs *)

Module Witnesses.
Import Crud Schemas Create Endpoints Spec Samples.

(** The first two scenarios of the specification: with a model and no
    output column the answers come first; with an output column and no
    model the observations are dispatched at once. *)
Example scenario_model_generation :
  phases (world_calls (create_experiment ops_require sample_read_json
                                         empty_world model_request).1)
  = ["answers"].
Proof. vm_compute. reflexivity. Qed.

Example scenario_no_model_needed :
  phases (world_calls (create_experiment ops_require sample_read_json
                                         empty_world output_request).1)
  = ["observations"].
Proof. vm_compute. reflexivity. Qed.

(** The fifth scenario: a grid of two points, repeated twice. *)
Example scenario_grid :
  phases (world_calls (create_experimentset ops_require sample_read_json
                         string id sample_validate (mkWorld given_db [])
                         sample_set).1)
  = ["observations"; "observations"; "observations"; "observations"].
Proof. vm_compute. reflexivity. Qed.

Lemma upsert_idempotent_witness :
  db_after (upsert_answer
              (db_after (upsert_answer sample_db 1 0 sample_fields) sample_db)
              1 0 sample_fields)
           (db_after (upsert_answer sample_db 1 0 sample_fields) sample_db)
  = db_after (upsert_answer sample_db 1 0 sample_fields) sample_db.
Proof.
  apply (CrudFacts.upsert_idempotent sample_db 1 0 sample_fields).
  - vm_compute. repeat constructor. set_solver.
  - vm_compute. constructor.
Defined.

Lemma update_keeps_none_fields_witness :
  exists new db',
    update_experiment sample_db 1 sample_patch = (Some new, db') /\
    new !! "readme" = None /\ new !! "name" = Some (PStr "renamed") /\
    new !! "num_try" = Some (PInt 3).
Proof.
  destruct (CrudFacts.update_keeps_none_fields sample_db 1 sample_patch)
    as (_ & _ & Hexp & _).
  destruct (Hexp 0 (default ∅ (experiments sample_db !! 0)))
    as (new & db' & Hrun & _ & Hnone & Habsent & Hset & _).
  - vm_compute. reflexivity.
  - exists new, db'. split; [exact Hrun|].
    split; [|split].
    + rewrite (Hnone "readme"); vm_compute; reflexivity.
    + apply Hset; vm_compute; [reflexivity|discriminate].
    + rewrite (Habsent "num_try"); vm_compute; reflexivity.
Defined.

Lemma update_experiment_finishes_results_witness :
  results (update_experiment sample_db 1 sample_patch).2
  = finish_results 1 (results sample_db).
Proof.
  apply (CrudFacts.update_experiment_finishes_results sample_db 1 sample_patch
           0 (default ∅ (experiments sample_db !! 0))).
  - vm_compute. reflexivity.
  - vm_compute. reflexivity.
Defined.

Lemma remove_dataset_linked_witness :
  remove_dataset sample_db 1 = Raise (SchemaError (linked_message 1)).
Proof.
  apply (CrudFacts.remove_dataset_linked sample_db 1). vm_compute. lia.
Defined.

Lemma create_experiment_rejects_incompatible_witness :
  exists msg,
    create_experiment ops_require sample_read_json empty_world rejected_request
    = (empty_world, HttpError 400 msg).
Proof.
  apply (CreateFacts.create_experiment_rejects_incompatible
           ops_require sample_read_json empty_world rejected_request).
  vm_compute. right. right. left. split; reflexivity.
Defined.


Lemma retry_runs_selection_witness :
  exists rr,
    retry_runs ops_require (mkWorld retry_db []) 1
    = (mkWorld retry_db ([] ++ [dispatch_retries rr]), Json rr) /\
    experiment_ids rr = [PInt 1] /\ result_ids rr = [PInt 2].
Proof.
  destruct (RetryFacts.retry_runs_selection ops_require (mkWorld retry_db []) 1
              0 (default ∅ (experimentsets retry_db !! 0)))
    as (rr & Hrun & Hexps & Hres & _).
  - vm_compute. reflexivity.
  - apply Forall_forall. refine (bool_decide_unpack _ _). vm_compute. exact I.
  - exists rr. split; [exact Hrun|]. split.
    + rewrite Hexps. vm_compute. reflexivity.
    + rewrite Hres. vm_compute. reflexivity.
Defined.

Lemma grid_experiment_names_witness :
  exists init exps,
    experimentset_to_table_init ops_require sample_read_json string id
      sample_validate given_db sample_set = Ok init /\
    si_experiments init = Some exps /\
    Z.of_nat (length exps) = (2 * 2)%Z /\
    Spec.init_name <$> exps
    = [PStr "set__0"; PStr "set__1"; PStr "set__2"; PStr "set__3"].
Proof.
  destruct (experimentset_to_table_init ops_require sample_read_json string id
              sample_validate given_db sample_set) as [init|] eqn:Hrun.
  2:{ vm_compute in Hrun. discriminate Hrun. }
  destruct (GridFacts.grid_experiment_names ops_require sample_read_json
              string id sample_validate) with (db := given_db)
    (s := sample_set) (cv := sample_grid) (init := init)
    as (exps & Hexps & _ & Hlen & Hnames & _).
  - intros p e n. unfold sample_validate.
    destruct (p !! "name") as [name|]; [|discriminate].
    destruct (p !! "dataset"); [|discriminate].
    destruct (p !! "metrics"); [|discriminate].
    intros [= <-] [= <-]. reflexivity.
  - reflexivity.
  - exact Hrun.
  - vm_compute. discriminate.
  - exists init, exps. split; [reflexivity|]. split; [exact Hexps|].
    split; [exact Hlen|].
    rewrite Hnames.
    assert (Hfour : length exps = 4).
    { apply Nat2Z.inj. rewrite Hlen. reflexivity. }
    rewrite Hfour. vm_compute. reflexivity.
Defined.

End Witnesses.


(** ** Removal of experiments and of sets *)

Module RemoveFacts.
Import Crud Schemas Create Endpoints CrudRest SpecRest.

Lemma belongs_to_id (db_exp r : Row) (id : Z) :
  has_id id db_exp ->
  belongs_to db_exp r <-> getattr r "experiment_id" = PInt id.
Proof.
  unfold has_id, belongs_to, sql_eq, getattr. intros ->. simpl.
  split; [by intros [_ ?]|]. intros ->. done.
Qed.

(** What [remove_experiment] leaves behind. *)
Lemma remove_experiment_cascade_spec (db : Db) (id : Z) :
  (query_get (experiments db) id = None ->
     remove_experiment db id = (false, db)) /\
  (forall i db_exp, query_get (experiments db) id = Some (i, db_exp) ->
     exists db',
       remove_experiment db id = (true, db') /\
       experiments db' = delete i (experiments db) /\
       (forall r, r ∈ results db' <->
          r ∈ results db /\ getattr r "experiment_id" <> PInt id) /\
       (forall a, a ∈ answers db' <->
          a ∈ answers db /\ getattr a "experiment_id" <> PInt id) /\
       datasets db' = datasets db /\ models db' = models db /\
       experimentsets db' = experimentsets db /\
       observations db' = observations db).
Proof.
  unfold remove_experiment. split.
  - by intros ->.
  - intros i db_exp Hget. rewrite Hget. eexists. split; [done|]. simpl.
    apply list_find_Some in Hget as (_ & Hid & _).
    split; [done|]. split; [|split; [|done]].
    + intros r. rewrite list_elem_of_filter, (belongs_to_id db_exp r id Hid).
      tauto.
    + intros a. rewrite list_elem_of_filter, (belongs_to_id db_exp a id Hid).
      tauto.
Qed.

(** X1: removing an experiment that is not there changes nothing; removing
    one that is there takes its row away together with every Result and
    every Answer that refers to it, and leaves the Results and Answers of
    the other experiments, the datasets, the models and the sets as they
    were. *)
Theorem remove_experiment_cascade (db : Db) (id : Z) :
  (query_get (experiments db) id = None ->
     remove_experiment db id = (false, db)) /\
  (forall i db_exp, query_get (experiments db) id = Some (i, db_exp) ->
     exists db',
       remove_experiment db id = (true, db') /\
       experiments db' = delete i (experiments db) /\
       (forall r, r ∈ results db' <->
          r ∈ results db /\ getattr r "experiment_id" <> PInt id) /\
       (forall a, a ∈ answers db' <->
          a ∈ answers db /\ getattr a "experiment_id" <> PInt id) /\
       datasets db' = datasets db /\ models db' = models db /\
       experimentsets db' = experimentsets db).
Proof.
  destruct (remove_experiment_cascade_spec db id) as [Hnone Hsome].
  split; [exact Hnone|]. intros i db_exp Hget.
  destruct (Hsome i db_exp Hget)
    as (db' & Hrun & Hexps & Hres & Hans & Hds & Hmo & Hsets & _).
  exists db'. by repeat (split; [done|]).
Qed.

Lemma ids_ok_same_id (t : list Row) (x y : Row) (id : Z) :
  ids_ok t -> x ∈ t -> y ∈ t -> has_id id x -> has_id id y -> x = y.
Proof.
  intros [_ Hnd] Hx Hy Hidx Hidy.
  eapply (CreateFacts.NoDup_fmap_eq row_id); [done..|].
  unfold row_id, has_id in *. by rewrite Hidx, Hidy.
Qed.

Lemma ids_ok_filter (P : Row -> Prop) `{forall x, Decision (P x)}
    (t : list Row) :
  ids_ok t -> ids_ok (filter P t).
Proof.
  intros [Hint Hnd]. split.
  - intros r [_ Hr]%list_elem_of_filter. by apply Hint.
  - clear Hint. induction t as [|a t IH]; [constructor|].
    rewrite fmap_cons in Hnd. apply NoDup_cons in Hnd as [Hnotin Hnd].
    destruct (decide (P a)).
    + rewrite filter_cons_True by done. rewrite fmap_cons.
      apply NoDup_cons. split; [|by apply IH].
      intros (y & Hy & [_ Hin]%list_elem_of_filter)%list_elem_of_fmap.
      apply Hnotin. apply list_elem_of_fmap. by exists y.
    + rewrite filter_cons_False by done. by apply IH.
Qed.

Lemma filter_ext_in {A} (P Q : A -> Prop) `{forall x, Decision (P x)}
    `{forall x, Decision (Q x)} (l : list A) :
  (forall x, x ∈ l -> P x <-> Q x) -> filter P l = filter Q l.
Proof.
  induction l as [|a l IH]; intros Hpq; [done|].
  assert (Hl : forall x, x ∈ l -> P x <-> Q x).
  { intros x Hx. apply Hpq. by right. }
  destruct (decide (P a)) as [Ha|Ha].
  - rewrite !filter_cons_True; [by rewrite IH|by apply Hpq; [left|]|done].
  - rewrite !filter_cons_False; [by rewrite IH| |done].
    intros Hq. apply Ha. apply Hpq; [by left|done].
Qed.

Lemma filter_all {A} (P : A -> Prop) `{forall x, Decision (P x)} (l : list A) :
  (forall x, x ∈ l -> P x) -> filter P l = l.
Proof.
  induction l as [|a l IH]; intros Hp; [done|].
  rewrite filter_cons_True by (apply Hp; left).
  f_equal. apply IH. intros x Hx. apply Hp. by right.
Qed.

Lemma delete_filter {A B} `{EqDecision B} (f : A -> B) (l : list A) (i : nat)
    (x : A) :
  NoDup (f <$> l) -> l !! i = Some x ->
  delete i l = filter (fun y => f y <> f x) l.
Proof.
  revert i. induction l as [|a l IH]; intros [|i] Hnd Hi;
    try (rewrite fmap_cons in Hnd; apply NoDup_cons in Hnd as [Hnotin Hnd]);
    simpl in Hi; simplify_eq; simpl.
  - rewrite filter_cons_False by (intros Hn; by apply Hn).
    symmetry. apply filter_all. intros y Hy Heq. apply Hnotin.
    rewrite <- Heq. by apply list_elem_of_fmap_2.
  - rewrite filter_cons_True.
    + f_equal. by apply IH.
    + intros Heq. apply Hnotin. rewrite Heq.
      apply list_elem_of_fmap_2. by eapply list_elem_of_lookup_2.
Qed.

Lemma has_id_row_id (t : list Row) (e : Row) (id : Z) :
  ids_ok t -> e ∈ t -> has_id id e <-> row_id e = id.
Proof.
  intros [Hint _] He. destruct (Hint e He) as [i Hi].
  unfold has_id, row_id. rewrite Hi. split; congruence.
Qed.

(** Under the primary key, deleting the row found for an id is removing
    every row of that id. *)
Lemma remove_experiment_rows (db : Db) (id : Z) :
  ids_ok (experiments db) ->
  experiments (remove_experiment db id).2
  = filter (fun e => ~ has_id id e) (experiments db).
Proof.
  intros Hok. unfold remove_experiment.
  destruct (query_get (experiments db) id) as [[i db_exp]|] eqn:Hget; simpl.
  - apply list_find_Some in Hget as (Hi & Hid & _).
    rewrite (delete_filter row_id _ _ db_exp) by (done || apply Hok).
    apply filter_ext_in. intros x Hx.
    rewrite (has_id_row_id _ x id Hok Hx).
    apply (has_id_row_id _ db_exp id Hok) in Hid;
      [|by eapply list_elem_of_lookup_2].
    by rewrite Hid.
  - symmetry. apply filter_all. intros x Hx.
    apply list_find_None in Hget.
    by apply (proj1 (Forall_forall _ _) Hget).
Qed.

Lemma remove_experiment_found (db : Db) (id : Z) (m : Row) :
  m ∈ experiments db -> has_id id m ->
  let db' := (remove_experiment db id).2 in
  (forall r, r ∈ results db' <-> r ∈ results db /\ ~ belongs_to m r) /\
  (forall a, a ∈ answers db' <-> a ∈ answers db /\ ~ belongs_to m a) /\
  datasets db' = datasets db /\ models db' = models db /\
  experimentsets db' = experimentsets db /\
  observations db' = observations db.
Proof.
  intros Hin Hid.
  destruct (list_find_elem_of (has_id id) (experiments db) m Hin Hid)
    as [[i db_exp] Hget].
  destruct (proj2 (remove_experiment_cascade_spec db id) i db_exp Hget)
    as (db' & Hrun & _ & Hres & Hans & Hrest).
  rewrite Hrun. simpl. split; [|split; [|done]].
  - intros r. by rewrite Hres, (belongs_to_id m r id Hid).
  - intros a. by rewrite Hans, (belongs_to_id m a id Hid).
Qed.

Lemma remove_members (ms : list Row) (d : Db) :
  ids_ok (experiments d) -> (forall m, m ∈ ms -> m ∈ experiments d) ->
  NoDup ms ->
  let d' := foldl (fun d experiment =>
                     match getattr experiment "id" with
                     | PInt id => (remove_experiment d id).2
                     | _ => d
                     end) d ms in
  experiments d' = filter (fun e => e ∉ ms) (experiments d) /\
  (forall r, r ∈ results d' <->
     r ∈ results d /\ forall m, m ∈ ms -> ~ belongs_to m r) /\
  (forall a, a ∈ answers d' <->
     a ∈ answers d /\ forall m, m ∈ ms -> ~ belongs_to m a) /\
  datasets d' = datasets d /\ models d' = models d /\
  experimentsets d' = experimentsets d /\ observations d' = observations d.
Proof.
  revert d. induction ms as [|m ms IH]; intros d Hok Hin Hnd; cbn [foldl].
  - split; [|split; [|split]]; [|intros x; set_solver..|done].
    symmetry. apply filter_all. intros x _. set_solver.
  - apply NoDup_cons in Hnd as [Hm Hnd].
    assert (Hmd : m ∈ experiments d) by (apply Hin; left).
    destruct (proj1 Hok m Hmd) as [z Hz].
    assert (Hgz : getattr m "id" = PInt z) by (unfold getattr; by rewrite Hz).
    rewrite Hgz.
    pose proof (remove_experiment_rows d z Hok) as Hrows.
    destruct (remove_experiment_found d z m Hmd Hz)
      as (Hres & Hans & Hds & Hmo & Hsets & Hobs).
    set (d1 := (remove_experiment d z).2) in *.
    assert (Hsame : forall e, e ∈ experiments d -> has_id z e <-> e = m).
    { intros e He. split; [|by intros ->].
      intros Hide. by eapply (ids_ok_same_id (experiments d)). }
    destruct (IH d1) as (Hexps1 & Hres1 & Hans1 & Hds1 & Hmo1 & Hsets1 & Hobs1).
    + rewrite Hrows. by apply ids_ok_filter.
    + intros m' Hm'. rewrite Hrows. apply list_elem_of_filter.
      split; [|apply Hin; by right].
      intros Hid'. apply Hsame in Hid'; [|apply Hin; by right].
      by subst.
    + done.
    + split; [|split; [|split]].
      * rewrite Hexps1, Hrows, list_filter_filter.
        apply filter_ext_in. intros e He. rewrite (Hsame e He).
        rewrite not_elem_of_cons. tauto.
      * intros r. rewrite Hres1, Hres. split.
        -- intros [[? ?] Hall]. split; [done|].
           intros m' [->|?]%elem_of_cons; auto.
        -- intros [? Hall]. split; [split; [done|]|].
           ++ apply Hall. by left.
           ++ intros m' ?. apply Hall. by right.
      * intros a. rewrite Hans1, Hans. split.
        -- intros [[? ?] Hall]. split; [done|].
           intros m' [->|?]%elem_of_cons; auto.
        -- intros [? Hall]. split; [split; [done|]|].
           ++ apply Hall. by left.
           ++ intros m' ?. apply Hall. by right.
      * by rewrite Hds1, Hmo1, Hsets1, Hobs1.
Qed.

(** X2: removing a set that is not there changes nothing.  On a table of
    experiments that has its primary key, removing a set takes away the row
    of the set, the experiments of the set and every Result and Answer of
    one of them; the other experiments, Results and Answers stay. *)
Theorem remove_experimentset_cascade (db : Db) (id : Z) :
  (query_get (experimentsets db) id = None ->
     remove_experimentset db id = (false, db)) /\
  (forall i db_expset,
     ids_ok (experiments db) ->
     query_get (experimentsets db) id = Some (i, db_expset) ->
     exists db',
       remove_experimentset db id = (true, db') /\
       experimentsets db' = delete i (experimentsets db) /\
       experiments db'
         = filter (fun e => ~ member_of db_expset e) (experiments db) /\
       (forall r, r ∈ results db' <->
          r ∈ results db /\
          forall m, m ∈ experiments db -> member_of db_expset m ->
                    ~ belongs_to m r) /\
       (forall a, a ∈ answers db' <->
          a ∈ answers db /\
          forall m, m ∈ experiments db -> member_of db_expset m ->
                    ~ belongs_to m a) /\
       datasets db' = datasets db).
Proof.
  unfold remove_experimentset. split; [by intros ->|].
  intros i db_expset Hok Hget. rewrite Hget.
  destruct (remove_members (set_experiments db db_expset) db Hok)
    as (Hexps & Hres & Hans & Hds & _ & Hsets & _).
  { by intros m [_ ?]%list_elem_of_filter. }
  { apply NoDup_filter. eapply NoDup_fmap_1. apply Hok. }
  eexists. split; [done|]. simpl.
  assert (Hmem : forall m, m ∈ set_experiments db db_expset <->
                           m ∈ experiments db /\ member_of db_expset m).
  { intros m. unfold set_experiments, member_of.
    rewrite list_elem_of_filter. tauto. }
  split; [by rewrite Hsets|]. split; [|split; [|split; [|done]]].
  - rewrite Hexps. apply filter_ext_in. intros e He. rewrite Hmem. tauto.
  - intros r. rewrite Hres. setoid_rewrite Hmem. naive_solver.
  - intros a. rewrite Hans. setoid_rewrite Hmem. naive_solver.
Qed.

End RemoveFacts.

(** ** Reading back what was written *)

Module ReadFacts.
Import Crud Schemas Create Endpoints CrudRest SpecRest Spec.

Lemma list_find_insert_other {A} (P : A -> Prop) `{forall x, Decision (P x)}
    (l : list A) (i : nat) (x y : A) :
  l !! i = Some x -> ~ P x -> ~ P y -> list_find P (<[i:=y]> l) = list_find P l.
Proof.
  revert i. induction l as [|a l IH]; intros [|i] Hi Hx Hy; simpl in *;
    simplify_eq.
  - destruct (decide (P y)); [done|]. by destruct (decide (P x)).
  - destruct (decide (P a)); [done|]. by rewrite (IH i).
Qed.

Lemma list_find_snoc_other {A} (P : A -> Prop) `{forall x, Decision (P x)}
    (l : list A) (y : A) :
  ~ P y -> list_find P (l ++ [y]) = list_find P l.
Proof.
  intros Hy. induction l as [|a l IH]; simpl.
  - by destruct (decide (P y)).
  - destruct (decide (P a)); [done|]. by rewrite IH.
Qed.

Lemma keyed_other (owner : string) (o n o' n' : Z) (r : Row) :
  (o', n') <> (o, n) -> keyed owner o n r -> ~ keyed owner o' n' r.
Proof. unfold keyed. intros Hne [H1 H2] [H3 H4]. congruence. Qed.

(** What [upsert_rows] leaves in the table, for a mapping that does not
    name the key: the row under the key is the one returned, and the search
    for any other key gives what it gave before. *)
Lemma upsert_rows_read (owner : string) (t : list Row) (o n : Z)
    (fields : Row) :
  owner <> "id" -> owner <> "num_line" ->
  unique_keys owner t -> ~ names_key owner fields ->
  exists row t',
    upsert_rows owner t o n fields = Ok (row, t') /\
    (exists i, list_find (keyed owner o n) t' = Some (i, row)) /\
    (forall k v, fields !! k = Some v -> row !! k = Some v) /\
    (forall o' n', (o', n') <> (o, n) ->
       list_find (keyed owner o' n') t' = list_find (keyed owner o' n') t).
Proof.
  intros H1 H2 Hu Hno.
  destruct (list_find (keyed owner o n) t) as [[i old]|] eqn:Hfind.
  - destruct (CrudFacts.upsert_rows_update owner t o n fields i old Hu Hfind Hno)
      as [Hrun _].
    pose proof Hfind as (Hi & Hkeyed & Hfirst)%list_find_Some.
    assert (Hnew : keyed owner o n (setattrs old fields)).
    { apply CrudFacts.keyed_key_of.
      rewrite CrudFacts.key_of_setattrs by done.
      by apply CrudFacts.keyed_key_of. }
    eexists _, _. split; [done|]. split; [|split].
    + exists i. apply list_find_Some. split; [|split; [done|]].
      * apply list_lookup_insert_eq. by eapply lookup_lt_Some.
      * intros j y Hj Hlt. rewrite list_lookup_insert_ne in Hj by lia. eauto.
    + intros k v Hk. by rewrite CrudFacts.setattrs_lookup, Hk.
    + intros o' n' Hne. apply (list_find_insert_other _ _ _ old); [done|..];
        by apply (keyed_other owner o n).
  - destruct (CrudFacts.upsert_rows_insert owner H1 H2 t o n fields Hu Hfind Hno)
      as (row & Hrun & Hk & Hf & _ & _).
    exists row, (t ++ [row]). split; [done|]. split; [|split; [done|]].
    + exists (length t). apply list_find_app_Some. right.
      split; [lia|]. split; [done|]. rewrite Nat.sub_diag. simpl.
      by destruct (decide (keyed owner o n row)).
    + intros o' n' Hne. apply list_find_snoc_other.
      by apply (keyed_other owner o n).
Qed.

(** X3: an answer written by upsert_answer is the one get_answer returns for
    its experiment and line, with the fields given; the answers of the
    other lines and experiments are returned as before the call.  (An
    experiment id of 0 counts as not given: get_answer raises.) *)
Theorem get_answer_after_upsert (db : Db) (experiment_id num_line : Z)
    (answer : Row) :
  unique_keys "experiment_id" (answers db) ->
  ~ names_key "experiment_id" answer ->
  experiment_id <> 0%Z ->
  exists db_answer db',
    upsert_answer db experiment_id num_line answer = Ok (db_answer, db') /\
    get_answer db' None (Some experiment_id) (Some num_line)
      = Ok (Some db_answer) /\
    (forall k v, answer !! k = Some v -> db_answer !! k = Some v) /\
    (forall e n, (e, n) <> (experiment_id, num_line) ->
       get_answer db' None (Some e) (Some n)
       = get_answer db None (Some e) (Some n)) /\
    (forall n, get_answer db' None (Some 0%Z) (Some n) = Raise ValueError).
Proof.
  intros Hu Hno Hne.
  destruct (upsert_rows_read "experiment_id" (answers db) experiment_id
              num_line answer) as (row & t' & Hrun & [i Hfind] & Hf & Hother);
    [done..|].
  unfold upsert_answer. rewrite Hrun. simpl.
  eexists _, _. split; [done|]. unfold get_answer. simpl.
  assert (Hnz : (experiment_id =? 0)%Z = false) by by apply Z.eqb_neq.
  rewrite Hnz. simpl. rewrite Hfind. split; [done|]. split; [done|].
  split; [|done].
  intros e n Hen. destruct (e =? 0)%Z; simpl; [done|]. by rewrite Hother.
Qed.

Lemma update_fields_twice (obj upd : Row) :
  update_fields (update_fields obj upd) upd = update_fields obj upd.
Proof.
  apply map_eq. intros k. rewrite !CrudFacts.update_fields_lookup.
  destruct (upd !! k) as [v|]; [|done]. by destruct (decide (v = PNone)).
Qed.

Lemma update_fields_keeps_id (obj upd : Row) (id : Z) :
  upd !! "id" = None \/ upd !! "id" = Some PNone ->
  has_id id (update_fields obj upd) <-> has_id id obj.
Proof.
  unfold has_id. rewrite CrudFacts.update_fields_lookup.
  by intros [->| ->].
Qed.

Lemma query_get_updated (t : list Row) (id : Z) (i : nat) (old new : Row) :
  query_get t id = Some (i, old) -> has_id id new ->
  query_get (<[i:=new]> t) id = Some (i, new).
Proof.
  unfold query_get. intros (Hi & _ & Hfirst)%list_find_Some Hnew.
  apply list_find_Some. split; [|split; [done|]].
  - apply list_lookup_insert_eq. by eapply lookup_lt_Some.
  - intros j y Hj Hlt. rewrite list_lookup_insert_ne in Hj by lia. eauto.
Qed.

Lemma finish_results_twice (id : Z) (rs : list Row) :
  finish_results id (finish_results id rs) = finish_results id rs.
Proof.
  unfold finish_results. rewrite <- list_fmap_compose.
  apply list_fmap_ext. intros _ r _. simpl.
  destruct (decide (owned_by id r)) as [Ho|Ho].
  - assert (Ho' : owned_by id (setattr r "metric_status" (PStr "finished"))).
    { unfold owned_by, setattr in *. by rewrite lookup_insert_ne. }
    destruct (decide _); [|done].
    unfold setattr. by rewrite insert_insert_eq.
  - by destruct (decide (owned_by id r)).
Qed.

(** X4: a PATCH repeated is a PATCH: for a patch that leaves the id alone,
    update_dataset and update_experiment called a second time with the same
    arguments return the same object and leave the database as the first
    call left it. *)
Theorem update_twice (db : Db) (id : Z) (upd : Row) :
  upd !! "id" = None \/ upd !! "id" = Some PNone ->
  update_dataset (update_dataset db id upd).2 id upd = update_dataset db id upd /\
  update_experiment (update_experiment db id upd).2 id upd
    = update_experiment db id upd.
Proof.
  intros Hid. split.
  - unfold update_dataset.
    destruct (query_get (datasets db) id) as [[i old]|] eqn:Hget; simpl.
    + pose proof Hget as (_ & Hold & _)%list_find_Some.
      rewrite (query_get_updated _ _ _ _ (update_fields old upd) Hget)
        by by apply update_fields_keeps_id.
      by rewrite update_fields_twice, list_insert_insert_eq.
    + by rewrite Hget.
  - unfold update_experiment.
    destruct (query_get (experiments db) id) as [[i old]|] eqn:Hget; simpl.
    + pose proof Hget as (_ & Hold & _)%list_find_Some.
      rewrite !CrudFacts.update_experiment_fold_obj,
        !CrudFacts.update_experiment_fold_results.
      rewrite (query_get_updated _ _ _ _ (update_fields old upd) Hget)
        by by apply update_fields_keeps_id.
      simpl.
      rewrite !CrudFacts.update_experiment_fold_obj,
        !CrudFacts.update_experiment_fold_results.
      rewrite update_fields_twice, list_insert_insert_eq.
      destruct (decide (upd !! "experiment_status" = _)); [|done].
      by rewrite finish_results_twice.
    + by rewrite Hget.
Qed.

End ReadFacts.


(** ** What the schemas accept *)

Module SchemaFacts.
Import Crud Schemas Create Endpoints CrudRest EndpointsRest SpecRest Spec.

Section facts.
Variable require : string -> list string.
Variable read_json : string -> option DataFrame.

(** What [DatasetCreate.to_table_init] accepts and returns. *)
Lemma dataset_accepted_spec (d : DatasetCreate) :
  (forall row, dataset_to_table_init read_json d = Ok row ->
     exists df, read_json (dc_df d) = Some df /\
       ("query" ∈ columns df \/ "output" ∈ columns df) /\
       getattr row "has_query" = PBool (bool_decide ("query" ∈ columns df)) /\
       getattr row "has_output" = PBool (bool_decide ("output" ∈ columns df)) /\
       getattr row "has_output_true"
         = PBool (bool_decide ("output_true" ∈ columns df)) /\
       getattr row "size" = PInt (Z.of_nat (nrows df)) /\
       getattr row "name" = PStr (dc_name d) /\
       getattr row "df" = PStr (dc_df d) /\
       row !! "id" = None) /\
  (forall df, read_json (dc_df d) = Some df ->
     "query" ∈ columns df \/ "output" ∈ columns df ->
     exists row, dataset_to_table_init read_json d = Ok row) /\
  (read_json (dc_df d) = None \/
   (exists df, read_json (dc_df d) = Some df /\
      ("query" ∉ columns df) /\ ("output" ∉ columns df)) ->
   exists msg, dataset_to_table_init read_json d = Raise (SchemaError msg)).
Proof.
  unfold dataset_to_table_init, has_column. split; [|split].
  - intros row. destruct (read_json (dc_df d)) as [df|]; [|done].
    destruct (negb _) eqn:Hcols; [done|]. intros [= <-].
    exists df. split; [done|]. split.
    + apply negb_false_iff, orb_true_iff in Hcols as [H|H];
        apply bool_decide_eq_true in H; auto.
    + unfold getattr. by simplify_map_eq.
  - intros df -> Hcols.
    destruct (negb _) eqn:Hneg; [|by eexists].
    apply negb_true_iff, orb_false_iff in Hneg as [H1 H2].
    apply bool_decide_eq_false in H1, H2. tauto.
  - intros [->|(df & -> & H1 & H2)]; [by eexists|].
    rewrite (bool_decide_eq_false_2 _ H1), (bool_decide_eq_false_2 _ H2).
    simpl. by eexists.
Qed.

(** X5: a dataset payload is accepted exactly when it reads as a frame that has
    a query or an output column; the row then records which of the three
    columns the frame has, its number of rows, and the name and payload as
    given.  Anything else is a schema error. *)
Theorem dataset_accepted (d : DatasetCreate) :
  (forall row, dataset_to_table_init read_json d = Ok row ->
     exists df, read_json (dc_df d) = Some df /\
       ("query" ∈ columns df \/ "output" ∈ columns df) /\
       getattr row "has_query" = PBool (bool_decide ("query" ∈ columns df)) /\
       getattr row "has_output" = PBool (bool_decide ("output" ∈ columns df)) /\
       getattr row "has_output_true"
         = PBool (bool_decide ("output_true" ∈ columns df)) /\
       getattr row "size" = PInt (Z.of_nat (nrows df)) /\
       getattr row "name" = PStr (dc_name d) /\
       getattr row "df" = PStr (dc_df d) /\
       row !! "id" = None) /\
  (forall df, read_json (dc_df d) = Some df ->
     "query" ∈ columns df \/ "output" ∈ columns df ->
     exists row, dataset_to_table_init read_json d = Ok row) /\
  (read_json (dc_df d) = None \/
   (exists df, read_json (dc_df d) = Some df /\
      ("query" ∉ columns df) /\ ("output" ∉ columns df)) ->
   exists msg, dataset_to_table_init read_json d = Raise (SchemaError msg)).
Proof. exact (dataset_accepted_spec d). Qed.

Lemma from_orm_lookup (fields : list string) (obj : Row) (k : string) :
  from_orm fields obj !! k
  = if decide (k ∈ fields) then Some (getattr obj k) else None.
Proof.
  unfold from_orm. induction fields as [|f fields IH];
    [|rewrite fmap_cons, list_to_map_cons].
  - rewrite fmap_nil, list_to_map_nil, lookup_empty.
    destruct (decide (k ∈ [])) as [Hin|]; [by apply elem_of_nil in Hin|done].
  - destruct (decide (f = k)) as [->|Hne].
    + rewrite lookup_insert_eq.
      destruct (decide (k ∈ k :: fields)) as [|Hn]; [done|].
      exfalso. apply Hn. by left.
    + rewrite lookup_insert_ne by done. rewrite IH.
      destruct (decide (k ∈ fields)), (decide (k ∈ f :: fields)) as [Hin|Hn];
        try done.
      * exfalso. apply Hn. by right.
      * by apply elem_of_cons in Hin as [->|?].
Qed.

(** X6: the round trip of a dataset: what POST /dataset answers carries an id;
    GET /dataset/{id} with with_df gives back, under that id, the name and
    the payload exactly as posted, and without with_df the answer of the
    POST, which has no payload. *)
Theorem dataset_round_trip (w w' : World) (d : DatasetCreate) (body : Row) :
  EndpointsRest.create_dataset read_json w d = (w', Json body) ->
  exists id full,
    body !! "id" = Some (PInt id) /\ body !! "df" = None /\
    read_dataset w' id false = Json body /\
    read_dataset w' id true = Json full /\
    full !! "df" = Some (PStr (dc_df d)) /\
    full !! "name" = Some (PStr (dc_name d)) /\
    full !! "id" = Some (PInt id).
Proof.
  unfold EndpointsRest.create_dataset, CrudRest.create_dataset.
  destruct (dataset_to_table_init read_json d) as [row|x] eqn:Hinit; simpl;
    [|by destruct x].
  destruct (proj1 (dataset_accepted_spec d) row Hinit)
    as (df & _ & _ & _ & _ & _ & _ & Hname & Hdf & Hnoid).
  unfold add_row. destruct (decide (is_Some (row !! "id"))) as [[? E]|_];
    [congruence|]. simpl.
  unfold commit. destruct (decide _); simpl; [|done].
  intros [= <- <-]. simpl.
  set (new := <["id" := PInt (fresh_id (datasets (world_db w)))]> row).
  assert (Hget : get_dataset
            (mkDb (datasets (world_db w) ++ [new]) (models (world_db w))
               (experimentsets (world_db w)) (experiments (world_db w))
               (results (world_db w)) (answers (world_db w))
               (observations (world_db w)))
            (fresh_id (datasets (world_db w))) = Some new).
  { unfold get_dataset, query_get. simpl.
    assert (list_find (has_id (fresh_id (datasets (world_db w))))
              (datasets (world_db w) ++ [new])
            = Some (length (datasets (world_db w)), new)) as ->; [|done].
    apply list_find_app_Some. right. split; [lia|]. split.
    - apply list_find_None, Forall_forall. intros x Hx Hid.
      by eapply CreateFacts.fresh_id_not_stored.
    - rewrite Nat.sub_diag. simpl.
      destruct (decide (has_id _ new)) as [|Hn]; [done|].
      exfalso. apply Hn. unfold has_id, new. by rewrite lookup_insert_eq. }
  exists (fresh_id (datasets (world_db w))), (from_orm DatasetFull_fields new).
  unfold read_dataset. simpl. rewrite Hget.
  rewrite !from_orm_lookup. unfold getattr, new.
  rewrite lookup_insert_eq, !lookup_insert_ne by done.
  unfold getattr in Hname, Hdf.
  destruct (row !! "name") as [vn|]; simpl in Hname; [|done].
  destruct (row !! "df") as [vd|]; simpl in Hdf; [|done].
  subst. by repeat split.
Qed.

Local Abbreviation request_dataset := (Spec.request_dataset read_json).

(** X7: a request for an experiment is accepted exactly when its dataset can be
    had and passes the checks; what is then to be created is the experiment
    in status pending on that dataset, under the name given, with one
    pending Result for each requested metric, in the order requested. *)
Theorem experiment_accepted (db : Db) (e : ExperimentCreate) :
  (forall init, experiment_to_table_init require read_json db e = Ok init ->
     exists d, request_dataset db e = Ok d /\ accepted require e d /\
       ei_dataset init = DatasetObj d /\
       ei_results init = result_to_table_init <$> ec_metrics e /\
       ei_model init = model_to_table_init <$> ec_model e /\
       getattr (ei_fields init) "experiment_status" = PStr "pending" /\
       getattr (ei_fields init) "name" = PStr (ec_name e)) /\
  (forall d, request_dataset db e = Ok d -> accepted require e d ->
     exists init, experiment_to_table_init require read_json db e = Ok init).
Proof.
  rewrite CreateFacts.to_table_init_unfold. unfold accepted, incompatible.
  split.
  - intros init. destruct (request_dataset db e) as [d|]; [|done]. simpl.
    repeat match goal with
           | |- (if ?b then Raise _ else _) = _ -> _ =>
               destruct b eqn:?; [discriminate|]
           end.
    intros [= <-]. exists d. split; [done|]. simpl.
    split; [|by rewrite ?lookup_insert_eq].
    repeat match goal with
           | H : _ && _ = false |- _ => apply andb_false_iff in H
           | H : negb _ = false |- _ => apply negb_false_iff in H
           end.
    split.
    + intros [[? ?]|[(? & ? & ?)|[[? ?]|[? ?]]]];
        repeat match goal with
               | H : _ \/ _ |- _ => destruct H
               | H : _ && _ = false |- _ => apply andb_false_iff in H
               | H : bool_decide _ = false |- _ =>
                   apply bool_decide_eq_false in H
               | H : bool_decide _ = true |- _ =>
                   apply bool_decide_eq_true in H
               | H : negb _ = false |- _ => apply negb_false_iff in H
               end; congruence.
    + intros (? & ? & ?);
        repeat match goal with
               | H : _ \/ _ |- _ => destruct H
               | H : _ && _ = false |- _ => apply andb_false_iff in H
               | H : negb _ = false |- _ => apply negb_false_iff in H
               end; congruence.
  - intros d -> [Hcompat Hextra]. simpl.
    repeat match goal with
           | |- exists _, (if ?b then Raise _ else _) = _ =>
               destruct b eqn:?
           end; try (by eexists); exfalso;
      repeat match goal with
             | H : _ && _ = true |- _ => apply andb_true_iff in H as [? ?]
             | H : negb _ = true |- _ => apply negb_true_iff in H
             | H : bool_decide _ = true |- _ => apply bool_decide_eq_true in H
             end.
    + apply Hcompat. by left.
    + apply Hcompat. right. by left.
    + by apply Hextra.
    + apply Hcompat. right. right. by left.
    + apply Hcompat. right. right. right. split; [|done].
      match goal with
      | H : bool_decide _ = false |- _ => by apply bool_decide_eq_false in H
      end.
Qed.

End facts.

End SchemaFacts.

(** ** Sets: what to_table_init refuses and what it lets through *)

Module SetFacts.
Import Crud Schemas Create Endpoints SpecRest Spec.

Section facts.
Variable require : string -> list string.
Variable read_json : string -> option DataFrame.
Variable Any : Type.
Variable str_obj : string -> Any.
Variable validate_experiment : gmap string Any -> res ExperimentCreate.

Local Abbreviation to_table_init :=
  (experimentset_to_table_init require read_json Any str_obj
     validate_experiment).

Lemma dataset_raises (d : DatasetCreate) (x : exn) :
  dataset_to_table_init read_json d = Raise x -> exists msg, x = SchemaError msg.
Proof.
  unfold dataset_to_table_init. destruct (read_json _).
  - destruct (negb _); [|done]. intros [= <-]. by eexists.
  - intros [= <-]. by eexists.
Qed.

Lemma recurse_list_raises (es : list ExperimentCreate) (x : exn) :
  recurse_list read_json es = Raise x -> exists msg, x = SchemaError msg.
Proof.
  induction es as [|e es IH]; simpl; [done|].
  unfold experiment_recurse_table_init.
  destruct (ec_dataset e) as [name|d]; simpl.
  - destruct (recurse_list read_json es); simpl; [done|].
    intros [= <-]. by apply IH.
  - destruct (dataset_to_table_init read_json d) eqn:Hd; simpl.
    + destruct (recurse_list read_json es); simpl; [done|].
      intros [= <-]. by apply IH.
    + intros [= <-]. by eapply dataset_raises.
Qed.

(** X8: a set given both a list of experiments and a grid is refused with a
    schema error, whatever they hold. *)
Theorem experimentset_both_rejected (db : Db) (s : ExperimentSetCreate Any)
    (es : list ExperimentCreate) (cv : GridCV Any) :
  sc_experiments Any s = Some es -> sc_cv Any s = Some cv ->
  exists msg, to_table_init db s = Raise (SchemaError msg).
Proof.
  intros Hes Hcv. unfold experimentset_to_table_init. rewrite Hes, Hcv.
  destruct (recurse_list read_json es) as [os|x] eqn:Hrec; simpl.
  - by eexists.
  - destruct (recurse_list_raises es x Hrec) as [msg ->]. by eexists.
Qed.

Lemma grid_loop_no_repeat (db : Db) (set_name : string) (rep : Z)
    (points : list (gmap string Any)) (i : nat) (acc : list ExperimentInit) :
  (rep <= 0)%Z ->
  grid_loop require read_json Any str_obj validate_experiment db set_name rep
            points i acc = Ok (i, acc).
Proof.
  intros Hrep. assert (Z.to_nat rep = 0) as Hz by lia.
  induction points as [|p points IH]; simpl; [done|].
  rewrite Hz. simpl. apply IH.
Qed.

(** X9: a grid with a repeat of 0 or less makes a set without experiments: the
    points of the grid are neither validated nor named. *)
Theorem experimentset_no_repeat (db : Db) (s : ExperimentSetCreate Any)
    (cv : GridCV Any) :
  sc_experiments Any s = None -> sc_cv Any s = Some cv ->
  (repeat Any cv <= 0)%Z ->
  exists init,
    to_table_init db s = Ok init /\ si_experiments init = Some [] /\
    getattr (si_fields init) "name" = PStr (sc_name Any s).
Proof.
  intros Hes Hcv Hrep. unfold experimentset_to_table_init.
  rewrite Hes, Hcv. simpl. rewrite grid_loop_no_repeat by done. simpl.
  eexists. split; [done|]. split; [done|].
  unfold getattr. by simplify_map_eq.
Qed.

Local Abbreviation dumped := (SpecRest.dumped read_json).
Local Abbreviation payload_ok := (SpecRest.payload_ok read_json).

Lemma recurse_list_dumps (es : list ExperimentCreate) :
  Forall payload_ok es ->
  exists os, recurse_list read_json es = Ok os /\ Forall2 dumped es os.
Proof.
  induction 1 as [|e es He _ IH]; simpl; [by eexists|].
  destruct IH as (os & -> & Hall).
  unfold experiment_recurse_table_init, SpecRest.payload_ok,
    SpecRest.dumped in *.
  destruct (ec_dataset e) as [name|d] eqn:Hds; simpl.
  - eexists. split; [done|]. constructor; [|done]. simpl.
    rewrite Hds. unfold getattr. by simplify_map_eq.
  - destruct He as [row Hrow]. rewrite Hrow. simpl.
    eexists. split; [done|]. constructor; [|done]. simpl.
    rewrite Hds. unfold getattr. simplify_map_eq. repeat split; eauto.
Qed.

(** X10: the members of a set given as a list go through as they are: their
    payloads are read, but metrics and dataset are not checked against each
    other, no status is set and no Result is prepared, also for a member
    that POST /experiment refuses. *)
Theorem experimentset_members_dumped (db : Db) (s : ExperimentSetCreate Any)
    (es : list ExperimentCreate) :
  sc_experiments Any s = Some es -> sc_cv Any s = None ->
  Forall payload_ok es ->
  exists init os,
    to_table_init db s = Ok init /\ si_experiments init = Some os /\
    Forall2 dumped es os.
Proof.
  intros Hes Hcv Hok. unfold experimentset_to_table_init. rewrite Hes, Hcv.
  destruct (recurse_list_dumps es Hok) as (os & -> & Hall). simpl.
  by eexists _, os.
Qed.

End facts.

End SetFacts.


(** ** Pages of experiments and the ranking *)

Module ListFacts.
Import Crud Schemas Create Endpoints CrudRest EndpointsRest Leaderboard
  SpecRest Spec.

#[local] Instance id_le_trans : Transitive id_le.
Proof. unfold id_le. intros a b c. lia. Qed.

#[local] Instance id_le_total : Total id_le.
Proof. unfold id_le. intros a b. lia. Qed.

#[local] Instance flip_id_le_trans : Transitive (flip id_le).
Proof. unfold flip, id_le. intros a b c. lia. Qed.

Lemma StronglySorted_take_drop {A} (R : relation A) (l : list A) (n m : nat) :
  StronglySorted R l -> StronglySorted R (take n (drop m l)).
Proof.
  intros Hl.
  assert (Hd : StronglySorted R (drop m l)).
  { rewrite <- (take_drop m l) in Hl. by apply StronglySorted_app_1_r in Hl. }
  rewrite <- (take_drop n (drop m l)) in Hd.
  by apply StronglySorted_app_1_l in Hd.
Qed.

Lemma elem_of_take_drop {A} (l : list A) (n m : nat) (x : A) :
  x ∈ take n (drop m l) -> x ∈ l.
Proof.
  intros Hx. apply subseteq_take in Hx. by apply subseteq_drop in Hx.
Qed.

(** The rows of a page of [get_experiments]. *)
Lemma get_experiments_page_spec (db : Db) (skip limit : Z) (backward : bool)
    (set_id : option Z) (orphan : bool) :
  (forall page,
     get_experiments db skip limit backward set_id orphan = Ok page ->
     length page <= 100 /\ (Z.of_nat (length page) <= limit)%Z /\
     (forall e, e ∈ page ->
        e ∈ experiments db /\ not_archived e /\
        (forall s, set_id = Some s -> s <> 0%Z -> in_set s e) /\
        (orphan = true -> is_orphan e)) /\
     StronglySorted (if backward then flip id_le else id_le) page) /\
  ((skip < 0 \/ limit < 0)%Z ->
     get_experiments db skip limit backward set_id orphan
     = Raise DatabaseError) /\
  get_experiments db skip limit backward (Some 0%Z) orphan
  = get_experiments db skip limit backward None orphan.
Proof.
  unfold get_experiments. split; [|split; [|done]].
  - intros page.
    destruct (decide (skip < 0 \/ Z.min limit 100 < 0)%Z) as [|Hok]; [done|].
    intros [= <-].
    set (q1 := filter not_archived (experiments db)).
    set (q2 := if given_id set_id
               then filter (in_set (default 0%Z set_id)) q1 else q1).
    set (q3 := if orphan then filter is_orphan q2 else q2).
    set (q4 := if backward then reverse (merge_sort id_le q3)
               else merge_sort id_le q3).
    assert (Hlen : length (take (Z.to_nat (Z.min limit 100))
                              (drop (Z.to_nat skip) q4))
                   <= Z.to_nat (Z.min limit 100)).
    { rewrite length_take. lia. }
    split; [lia|]. split; [lia|]. split.
    + intros e He%elem_of_take_drop.
      assert (He3 : e ∈ q3).
      { unfold q4 in He. destruct backward.
        - rewrite elem_of_reverse in He. by rewrite merge_sort_Permutation in He.
        - by rewrite merge_sort_Permutation in He. }
      assert (He2 : e ∈ q2 /\ (orphan = true -> is_orphan e)).
      { unfold q3 in He3. destruct orphan.
        - apply list_elem_of_filter in He3 as [? ?]. done.
        - done. }
      destruct He2 as [He2 Horph].
      assert (He1 : e ∈ q1 /\
                forall s, set_id = Some s -> s <> 0%Z -> in_set s e).
      { unfold q2 in He2. destruct set_id as [s|]; simpl in *; [|done].
        destruct (Z.eqb_spec s 0); simpl in *.
        - split; [done|]. intros s' [= <-]. done.
        - apply list_elem_of_filter in He2 as [? ?].
          split; [done|]. by intros s' [= <-]. }
      destruct He1 as [He1 Hset].
      apply list_elem_of_filter in He1 as [? ?]. done.
    + apply StronglySorted_take_drop. unfold q4. destruct backward.
      * apply Sorted_StronglySorted; [apply _|].
        apply Sorted_reverse, Sorted_merge_sort. apply _.
      * apply StronglySorted_merge_sort; apply _.
  - intros Hneg.
    destruct (decide (skip < 0 \/ Z.min limit 100 < 0)%Z) as [|Hok]; [done|].
    lia.
Qed.

(** X11: for an offset and a limit that are not negative, get_experiments
    returns a page that never has more than 100 rows, nor more than the
    limit; its rows are stored experiments that are not archived, of the
    set asked for when a set is, orphans when orphans are asked for, in the
    order of their ids, rising or falling.  A set id of 0 asks for no
    set. *)
Theorem get_experiments_page (db : Db) (skip limit : Z) (backward : bool)
    (set_id : option Z) (orphan : bool) :
  (0 <= skip)%Z -> (0 <= limit)%Z ->
  exists page,
    get_experiments db skip limit backward set_id orphan = Ok page /\
    length page <= 100 /\ (Z.of_nat (length page) <= limit)%Z /\
    (forall e, e ∈ page ->
       e ∈ experiments db /\ not_archived e /\
       (forall s, set_id = Some s -> s <> 0%Z -> in_set s e) /\
       (orphan = true -> is_orphan e)) /\
    StronglySorted (if backward then flip id_le else id_le) page /\
    get_experiments db skip limit backward (Some 0%Z) orphan
    = get_experiments db skip limit backward None orphan.
Proof.
  intros Hskip Hlimit.
  destruct (get_experiments_page_spec db skip limit backward set_id orphan)
    as (Hpage & _ & Hzero).
  destruct (get_experiments db skip limit backward set_id orphan)
    as [page|x] eqn:Hrun.
  - exists page. destruct (Hpage page eq_refl) as (H1 & H2 & H3 & H4).
    by repeat (split; [done|]).
  - exfalso. unfold get_experiments in Hrun.
    destruct (decide (skip < 0 \/ Z.min limit 100 < 0)%Z) as [[?|?]|];
      [lia|lia|done].
Qed.

(** X12: GET /experiments answers 404 when there is nothing to list, never
    an empty list; what it lists are at most 100 stored experiments that
    are not archived. *)
Theorem read_experiments_not_empty (w : World) (set_id : option Z)
    (limit : Z) :
  (get_experiments (world_db w) 0 limit false set_id false = Ok [] ->
   read_experiments w set_id limit = HttpError 404 "No experiments found") /\
  (forall body, read_experiments w set_id limit = Json body ->
     body <> [] /\ length body <= 100 /\
     forall e, e ∈ body -> e ∈ experiments (world_db w) /\ not_archived e).
Proof.
  unfold read_experiments. split; [by intros ->|]. intros body.
  destruct (get_experiments (world_db w) 0 limit false set_id false)
    as [page|] eqn:Hpage; [|done].
  destruct (proj1 (get_experiments_page_spec _ _ _ _ _ _) page Hpage)
    as (Hlen & _ & Hin & _).
  destruct page as [|e page]; [done|]. intros [= <-].
  split; [done|]. split; [done|]. intros x Hx. by apply Hin in Hx as (? & ? & _).
Qed.

#[local] Instance score_ge_total : Total score_ge.
Proof.
  unfold score_ge. intros a b.
  destruct (score_of (rk_main_metric_score a)) as [x|],
    (score_of (rk_main_metric_score b)) as [y|]; auto.
  rewrite !Qle_bool_iff. destruct (Qlt_le_dec x y) as [?%Qlt_le_weak|?]; auto.
Qed.

#[local] Instance score_ge_trans : Transitive score_ge.
Proof.
  unfold score_ge. intros a b c.
  destruct (score_of (rk_main_metric_score a)) as [x|],
    (score_of (rk_main_metric_score b)) as [y|],
    (score_of (rk_main_metric_score c)) as [z|]; try done.
  rewrite !Qle_bool_iff. intros ? ?. by apply Qle_trans with y.
Qed.

(** The rows of the leaderboard. *)
Lemma leaderboard_ranked_spec (db : Db) (metric_name : string)
    (dataset_name : option string) (limit : Z) :
  (forall entries,
     get_leaderboard db metric_name dataset_name limit = Ok entries ->
     (0 <= limit)%Z /\ (Z.of_nat (length entries) <= limit)%Z /\
     StronglySorted ranks_before entries /\
     (forall entry, entry ∈ entries ->
        exists e m d,
          e ∈ experiments db /\ m ∈ models db /\ d ∈ datasets db /\
          sql_eq (getattr e "model_id") (getattr m "id") /\
          sql_eq (getattr e "dataset_id") (getattr d "id") /\
          le_experiment_id entry = getattr e "id" /\
          le_model_name entry = getattr m "name" /\
          le_dataset_name entry = getattr d "name")) /\
  ((limit < 0)%Z ->
     get_leaderboard db metric_name dataset_name limit = Raise DatabaseError).
Proof.
  unfold get_leaderboard. split.
  - intros entries. destruct (decide (limit < 0)%Z); [done|].
    intros [= <-]. split; [lia|]. split.
    { rewrite length_fmap, length_take. lia. }
    match goal with
    | |- context [take _ (merge_sort score_ge ?q)] => set (query := q)
    end.
    split.
    + eapply StronglySorted_fmap;
        [|apply (StronglySorted_take_drop _ _ _ 0),
            StronglySorted_merge_sort; apply _].
      intros x y. unfold score_ge, ranks_before. simpl.
      destruct (score_of (rk_main_metric_score x)),
        (score_of (rk_main_metric_score y)); try done.
      by rewrite Qle_bool_iff.
    + intros entry (row & -> & Hrow)%list_elem_of_fmap. simpl.
      apply subseteq_take in Hrow. rewrite merge_sort_Permutation in Hrow.
      assert (Hq : row ∈
        (e ← experiments db;
         m ← models db;
         if decide (sql_eq (getattr e "model_id") (getattr m "id")) then
           d ← datasets db;
           if decide (sql_eq (getattr e "dataset_id") (getattr d "id")) then
             s ← main_metric_subquery db metric_name;
             if decide (sql_eq (getattr e "id") s.1) then
               [mkRanked (getattr e "id") (getattr m "name") (getattr d "name")
                         s.2 (getattr m "sampling_params")
                         (getattr m "extra_params")]
             else []
           else []
         else [])).
      { unfold query in Hrow. destruct dataset_name as [name|]; [|done].
        destruct (decide (name = EmptyString)); [done|].
        by apply list_elem_of_filter in Hrow as [_ ?]. }
      clear Hrow.
      apply list_elem_of_bind in Hq as (e & Hq & He).
      apply list_elem_of_bind in Hq as (m & Hq & Hm).
      destruct (decide (sql_eq (getattr e "model_id") (getattr m "id")));
        [|by apply elem_of_nil in Hq].
      apply list_elem_of_bind in Hq as (d & Hq & Hd).
      destruct (decide (sql_eq (getattr e "dataset_id") (getattr d "id")));
        [|by apply elem_of_nil in Hq].
      apply list_elem_of_bind in Hq as (sc & Hq & Hsc).
      destruct (decide (sql_eq (getattr e "id") sc.1));
        [|by apply elem_of_nil in Hq].
      apply list_elem_of_singleton in Hq as ->. simpl.
      by exists e, m, d.
  - intros Hneg. by destruct (decide (limit < 0)%Z).
Qed.

(** X13: for a limit that is not negative, the leaderboard has at most
    [limit] entries; of two entries that have a score, the one with the
    greater score of the main metric comes first; each entry is an
    experiment that has a model and a dataset, with their names. *)
Theorem leaderboard_ranked (db : Db) (metric_name : string)
    (dataset_name : option string) (limit : Z) :
  (0 <= limit)%Z ->
  exists entries,
    get_leaderboard db metric_name dataset_name limit = Ok entries /\
    (Z.of_nat (length entries) <= limit)%Z /\
    StronglySorted ranks_before entries /\
    (forall entry, entry ∈ entries ->
       exists e m d,
         e ∈ experiments db /\ m ∈ models db /\ d ∈ datasets db /\
         sql_eq (getattr e "model_id") (getattr m "id") /\
         sql_eq (getattr e "dataset_id") (getattr d "id") /\
         le_experiment_id entry = getattr e "id" /\
         le_model_name entry = getattr m "name" /\
         le_dataset_name entry = getattr d "name").
Proof.
  intros Hlimit.
  destruct (leaderboard_ranked_spec db metric_name dataset_name limit)
    as [Hrows _].
  destruct (get_leaderboard db metric_name dataset_name limit)
    as [entries|x] eqn:Hrun.
  - exists entries. destruct (Hrows entries eq_refl) as (_ & H1 & H2 & H3).
    by repeat (split; [done|]).
  - exfalso. unfold get_leaderboard in Hrun.
    destruct (decide (limit < 0)%Z); [lia|done].
Qed.

End ListFacts.


(** ** Names with a numeric suffix *)

Module NameFacts.
Import Schemas Names Ui SpecRest.

Local Abbreviation chars := String.list_ascii_of_string.
Local Abbreviation digit := (fun a : Ascii.ascii => is_digit a = true).
Local Abbreviation digit_step :=
  (fun (n : nat) (a : Ascii.ascii) => 10 * n + (Ascii.nat_of_ascii a - 48)).

Lemma chars_app (s t : string) : chars (s +:+ t) = chars s ++ chars t.
Proof. induction s as [|a s IH]; simpl; [done|]. by rewrite IH. Qed.

Lemma append_cons (a : Ascii.ascii) (s t : string) :
  String a s +:+ t = String a (s +:+ t).
Proof. done. Qed.

Lemma append_nil_r (s : string) : s +:+ EmptyString = s.
Proof. induction s as [|a s IH]; [done|]. by rewrite append_cons, IH. Qed.

Lemma append_snoc (cur : string) (a : Ascii.ascii) (s : string) :
  (cur +:+ String a EmptyString) +:+ s = cur +:+ String a s.
Proof.
  induction cur as [|c cur IH]; [done|]. by rewrite !append_cons, IH.
Qed.

Lemma pretty_N_char_digit (x : N) : is_digit (pretty_N_char x) = true.
Proof. unfold pretty_N_char. by repeat case_match. Qed.

Lemma pretty_N_char_value (x : N) :
  (x < 10)%N -> Ascii.nat_of_ascii (pretty_N_char x) - 48 = N.to_nat x.
Proof.
  intros Hx.
  assert (x = 0 \/ x = 1 \/ x = 2 \/ x = 3 \/ x = 4 \/ x = 5 \/ x = 6 \/
          x = 7 \/ x = 8 \/ x = 9)%N as H by lia.
  by repeat destruct H as [->|H]; [..|subst x].
Qed.

Lemma digit_not_space (a : Ascii.ascii) : is_digit a = true -> is_space a = false.
Proof.
  unfold is_digit, is_space. intros [H1 H2]%andb_true_iff.
  apply Nat.leb_le in H1, H2.
  apply orb_false_iff. split.
  - apply Nat.eqb_neq. lia.
  - apply andb_false_iff. right. apply Nat.leb_gt. lia.
Qed.

Lemma digit_not_underscore (a : Ascii.ascii) :
  is_digit a = true -> Ascii.eqb a underscore = false.
Proof.
  intros H. apply Ascii.eqb_neq. intros ->. by vm_compute in H.
Qed.

Lemma digit_not_newline (a : Ascii.ascii) :
  is_digit a = true -> Ascii.eqb a newline_char = false.
Proof.
  intros H. apply Ascii.eqb_neq. intros ->. by vm_compute in H.
Qed.

(** The digits that [pretty] puts before [s]: they are digits, and read in
    base 10 they give the number back. *)
Lemma pretty_N_go_digits (x : N) (s : string) :
  exists d, chars (pretty_N_go x s) = d ++ chars s /\
            Forall digit d /\
            foldl digit_step 0 d = N.to_nat x /\
            ((0 < x)%N -> d <> []).
Proof.
  revert s. induction (N.lt_wf_0 x) as [x _ IH]. intros s.
  destruct (decide (x = 0)%N) as [->|Hx].
  - exists []. rewrite pretty_N_go_0. repeat split; [constructor|lia].
  - rewrite pretty_N_go_step by lia.
    destruct (IH (x `div` 10)%N) with
      (s := String (pretty_N_char (x `mod` 10)) s)
      as (d & Hd & Hdig & Hval & _).
    { apply N.div_lt; lia. }
    exists (d ++ [pretty_N_char (x `mod` 10)%N]). split; [|split; [|split]].
    + rewrite Hd. simpl. by rewrite <- app_assoc.
    + apply Forall_app. split; [done|].
      constructor; [apply pretty_N_char_digit|constructor].
    + rewrite foldl_app. cbn [foldl]. rewrite Hval, pretty_N_char_value.
      * pose proof (N.div_mod x 10). lia.
      * apply N.mod_lt. lia.
    + intros _. by destruct d.
Qed.

Lemma pretty_digits (n : nat) :
  Forall digit (chars (pretty n)) /\ chars (pretty n) <> [] /\
  foldl digit_step 0 (chars (pretty n)) = n.
Proof.
  unfold pretty, pretty_nat, pretty, pretty_N.
  destruct (decide (N.of_nat n = 0)%N) as [H0|Hpos].
  - assert (n = 0) as -> by lia. simpl. repeat split; [|done].
    by repeat constructor.
  - destruct (pretty_N_go_digits (N.of_nat n) EmptyString)
      as (d & Hd & Hdig & Hval & Hne).
    simpl in Hd. rewrite app_nil_r in Hd. rewrite Hd.
    repeat split; [done|apply Hne; lia|lia].
Qed.

Lemma Forall_rev {A} (P : A -> Prop) (l : list A) :
  Forall P l -> Forall P (rev l).
Proof.
  intros H. rewrite rev_alt. change (Forall P (reverse l)).
  by apply Forall_reverse.
Qed.

Lemma drop_while_head {A} (p : A -> bool) (l : list A) :
  (forall a, head l = Some a -> p a = false) -> drop_while p l = l.
Proof. destruct l as [|a l]; simpl; [done|]. intros H. by rewrite H. Qed.

Lemma take_drop_while_digits (d rest : list Ascii.ascii) :
  Forall digit d ->
  (forall a, head rest = Some a -> is_digit a = false) ->
  take_while is_digit (d ++ rest) = d /\
  drop_while is_digit (d ++ rest) = rest.
Proof.
  intros Hd Hrest. induction Hd as [|a d Ha Hd IH]; simpl.
  - destruct rest as [|b rest]; simpl; [done|]. by rewrite Hrest.
  - rewrite Ha. destruct IH as [-> ->]. done.
Qed.

(** [int(str(n))] is [n]. *)
Lemma py_int_pretty (n : nat) : py_int (pretty n) = Some n.
Proof.
  destruct (pretty_digits n) as (Hdig & Hne & Hval).
  unfold py_int.
  assert (Hspace : forall l, Forall digit l ->
            drop_while is_space l = l).
  { intros l Hl. apply drop_while_head. intros a Ha.
    destruct l as [|b l]; [done|]. simpl in Ha. simplify_eq.
    apply digit_not_space. by apply Forall_cons in Hl as [? _]. }
  rewrite (Hspace _ Hdig).
  rewrite (Hspace (rev _)) by by apply Forall_rev.
  rewrite rev_involutive.
  destruct (chars (pretty n)) as [|a l] eqn:Hl; [done|].
  rewrite <- Hl in *.
  assert (forallb is_digit (chars (pretty n)) = true) as ->.
  { apply forallb_forall. intros x Hx%list_elem_of_In.
    by eapply (proj1 (Forall_forall _ _)) in Hdig. }
  by rewrite Hval.
Qed.

(** The names that a grid gives to its experiments have a numeric
    suffix. *)
Lemma numeric_suffix_auto_name (s : string) (i : nat) :
  numeric_suffix (auto_name s i) = true.
Proof.
  destruct (pretty_digits i) as (Hdig & Hne & _).
  unfold numeric_suffix, auto_name. rewrite !chars_app, !rev_app_distr.
  change (rev (chars "__")) with [underscore; underscore].
  set (d := rev (chars (pretty i))).
  assert (Hd : Forall digit d).
  { by apply Forall_rev. }
  assert (Hdne : d <> []).
  { unfold d. intros H. apply Hne. by rewrite <- (rev_involutive (chars _)), H. }
  destruct (take_drop_while_digits d ([underscore; underscore] ++ rev (chars s)) Hd)
    as [Htake Hdrop].
  { by intros a [= <-]. }
  rewrite <- app_assoc.
  destruct d as [|a d'] eqn:Heq; [done|]. rewrite <- Heq in *.
  assert (Ha : is_digit a = true).
  { rewrite Heq in Hd. by apply Forall_cons in Hd as [? _]. }
  replace (match d ++ [underscore; underscore] ++ rev (chars s) with
           | [] => d ++ [underscore; underscore] ++ rev (chars s)
           | a0 :: r' =>
               if Ascii.eqb a0 newline_char then r'
               else d ++ [underscore; underscore] ++ rev (chars s)
           end)
    with (d ++ [underscore; underscore] ++ rev (chars s)).
  2:{ rewrite Heq at 2. simpl. by rewrite (digit_not_newline a Ha). }
  rewrite Htake, Hdrop. rewrite Heq. done.
Qed.

Lemma split_go_digits (d cur : string) :
  Forall (fun a => Ascii.eqb a underscore = false) (chars d) ->
  split_go d cur = [cur +:+ d].
Proof.
  revert cur. induction d as [|a d IH]; intros cur Hd.
  - simpl. by rewrite append_nil_r.
  - simpl in Hd. apply Forall_cons in Hd as [Ha Hd].
    destruct d as [|b d'].
    + done.
    + change (split_go (String a (String b d')) cur)
        with (if Ascii.eqb a underscore && Ascii.eqb b underscore
              then cur :: split_go d' EmptyString
              else split_go (String b d') (cur +:+ String a EmptyString)).
      rewrite Ha. simpl andb. cbv iota.
      rewrite IH by done. by rewrite append_snoc.
Qed.

Lemma split_go_prefix (s d cur : string) :
  plain_name s = true ->
  split_go (s +:+ "__" +:+ d) cur = (cur +:+ s) :: split_go d EmptyString.
Proof.
  revert cur. induction s as [|a s IH]; intros cur Hs.
  - by rewrite append_nil_r.
  - destruct s as [|b s'].
    + simpl in Hs. apply negb_true_iff in Hs.
      change (split_go (String a EmptyString +:+ "__" +:+ d) cur)
        with (if Ascii.eqb a underscore && Ascii.eqb underscore underscore
              then cur :: split_go (String underscore d) EmptyString
              else split_go ("__" +:+ d) (cur +:+ String a EmptyString)).
      rewrite Hs. simpl andb. cbv iota. done.
    + change (plain_name (String a (String b s')))
        with (negb (Ascii.eqb a underscore && Ascii.eqb b underscore)
              && plain_name (String b s')) in Hs.
      apply andb_true_iff in Hs as [Hab%negb_true_iff Hs].
      change (split_go (String a (String b s') +:+ "__" +:+ d) cur)
        with (if Ascii.eqb a underscore && Ascii.eqb b underscore
              then cur :: split_go (s' +:+ "__" +:+ d) EmptyString
              else split_go (String b s' +:+ "__" +:+ d)
                            (cur +:+ String a EmptyString)).
      rewrite Hab. rewrite IH by done. by rewrite append_snoc.
Qed.

Lemma split_auto_name (s : string) (i : nat) :
  plain_name s = true -> split (auto_name s i) = [s; pretty i].
Proof.
  intros Hs. unfold split, auto_name. rewrite split_go_prefix by done.
  rewrite split_go_digits; [done|].
  destruct (pretty_digits i) as (Hdig & _ & _).
  eapply Forall_impl; [exact Hdig|]. intros a. apply digit_not_underscore.
Qed.

(** X14: the new name of an appended experiment that carries the name a grid
    gave it: the number is raised by the number of experiments of the set,
    and the part before it is kept, unless it reads None: then the name of
    the set takes its place. *)
Theorem bump_auto_name (s : string) (i count : nat) (set_name : value) :
  plain_name s = true ->
  bump (auto_name s i) count set_name =
  if decide (s = "None")
  then match set_name with
       | PStr t => Ok (auto_name t (i + count))
       | _ => Raise TypeError
       end
  else Ok (auto_name s (i + count)).
Proof.
  intros Hs. unfold bump.
  rewrite numeric_suffix_auto_name, split_auto_name by done.
  change (default EmptyString (last [s; pretty i])) with (pretty i).
  rewrite py_int_pretty.
  change (length [s; pretty i] - 1) with 1. simpl.
  destruct (decide (Some s = Some "None")) as [[= ->]|Hne].
  - rewrite decide_True by done. by destruct set_name.
  - by rewrite decide_False by congruence.
Qed.

Lemma split_go_nonempty (s cur : string) : split_go s cur <> [].
Proof.
  revert cur. induction s as [|a s IH]; intros cur; [done|].
  destruct s as [|b s']; [done|].
  change (split_go (String a (String b s')) cur)
    with (if Ascii.eqb a underscore && Ascii.eqb b underscore
          then cur :: split_go s' EmptyString
          else split_go (String b s') (cur +:+ String a EmptyString)).
  destruct (_ && _); [done|apply IH].
Qed.

Lemma join_cons (p : string) (ps : list string) :
  ps <> [] -> join (p :: ps) = p +:+ "__" +:+ join ps.
Proof. by destruct ps. Qed.

Lemma join_split_go (n : nat) (s cur : string) :
  String.length s <= n -> join (split_go s cur) = cur +:+ s.
Proof.
  revert s cur. induction n as [|n IH]; intros s cur Hlen.
  - destruct s; simpl in *; [|lia]. by rewrite append_nil_r.
  - destruct s as [|a [|b s']].
    + simpl. by rewrite append_nil_r.
    + done.
    + change (split_go (String a (String b s')) cur)
        with (if Ascii.eqb a underscore && Ascii.eqb b underscore
              then cur :: split_go s' EmptyString
              else split_go (String b s') (cur +:+ String a EmptyString)).
      destruct (Ascii.eqb a underscore && Ascii.eqb b underscore) eqn:Hab.
      * apply andb_true_iff in Hab as [->%Ascii.eqb_eq ->%Ascii.eqb_eq].
        rewrite join_cons by apply split_go_nonempty.
        rewrite IH by (simpl in Hlen; lia). done.
      * rewrite IH by (simpl in *; lia). by rewrite append_snoc.
Qed.

(** X15: splitting a name at the double underscores and joining the parts with
    double underscores gives the name back. *)
Theorem join_split (name : string) : join (split name) = name.
Proof. unfold split. by rewrite (join_split_go (String.length name)). Qed.

(** X16: the dashboard takes a set for a repetition as soon as one of its
    experiments carries a name that a grid gave; it does not when no name
    has a numeric suffix. *)
Theorem repeat_mode_of_grid (experiments : list ExperimentJson) :
  ((exists e s i, e ∈ experiments /\ ui_name e = auto_name s i) ->
   _check_repeat_mode experiments = true) /\
  (_check_repeat_mode experiments = true <->
   exists e, e ∈ experiments /\ numeric_suffix (ui_name e) = true).
Proof.
  assert (Hiff : _check_repeat_mode experiments = true <->
                 exists e, e ∈ experiments /\ numeric_suffix (ui_name e) = true).
  { unfold _check_repeat_mode. rewrite existsb_exists.
    split; intros (e & He & Hs); exists e; by apply list_elem_of_In in He. }
  split; [|done]. intros (e & s & i & He & Hname).
  apply Hiff. exists e. split; [done|].
  rewrite Hname. apply numeric_suffix_auto_name.
Qed.

(** X17: a set is shown as finished when it has experiments and all of them are
    finished; a set without experiments is shown as not started, as is one
    whose experiments are all pending; the totals are the sums over the
    experiments. *)
Theorem expset_status_shown (experiments : list ExperimentJson) :
  ((_get_expset_status experiments).1 = ui_finished <->
   experiments <> [] /\
   Forall (fun e => experiment_status e = "finished") experiments) /\
  ((_get_expset_status experiments).1 = ui_pending <->
   Forall (fun e => experiment_status e = "pending") experiments).
Proof.
  assert (Hall : forall t,
            forallb (fun e => String.eqb (experiment_status e) t) experiments
            = true <-> Forall (fun e => experiment_status e = t) experiments).
  { intros t. rewrite forallb_forall, Forall_forall. split; intros H e He.
    - apply String.eqb_eq, H. by apply list_elem_of_In.
    - apply String.eqb_eq, H. by apply list_elem_of_In. }
  unfold _get_expset_status. cbn [fst].
  destruct (forallb (fun e => String.eqb (experiment_status e) "pending")
                    experiments) eqn:Hp.
  - apply Hall in Hp. split; [|done]. split; [done|]. intros [Hne Hf].
    destruct experiments as [|e es]; [done|].
    apply Forall_cons in Hp as [Hp _]. apply Forall_cons in Hf as [Hf _].
    congruence.
  - assert (Hnp : ~ Forall (fun e => experiment_status e = "pending")
                           experiments).
    { intros H%Hall. congruence. }
    destruct (forallb (fun e => String.eqb (experiment_status e) "finished")
                      experiments) eqn:Hf.
    + apply Hall in Hf. split; [|done]. split; [|done]. intros _.
      split; [|done]. intros ->. apply Hnp. constructor.
    + split; [|done]. split; [done|]. intros [_ H%Hall]. congruence.
Qed.

Lemma first_preferred_spec (preferred columns : list string) :
  match first_preferred preferred columns with
  | Some m =>
      exists i, preferred !! i = Some m /\ m ∈ columns /\
                forall j p, j < i -> preferred !! j = Some p -> p ∉ columns
  | None => forall p, p ∈ preferred -> p ∉ columns
  end.
Proof.
  induction preferred as [|q preferred IH]; simpl.
  - by intros p ?%elem_of_nil.
  - destruct (bool_decide (q ∈ columns)) eqn:Hq.
    + apply bool_decide_eq_true in Hq. exists 0. split; [done|].
      split; [done|]. intros j p Hj. lia.
    + apply bool_decide_eq_false in Hq.
      destruct (first_preferred preferred columns) as [m|].
      * destruct IH as (i & Hi & Hm & Hfirst). exists (S i).
        split; [done|]. split; [done|]. intros [|j] p Hj Hp.
        -- simpl in Hp. by simplify_eq.
        -- apply (Hfirst j); [lia|done].
      * intros p [->|Hp]%elem_of_cons; [done|by apply IH].
Qed.

(** X18: the default metric to sort by is a column of the table; there is none
    exactly when the table has no column; when a preferred metric is a
    column, the default is the first preferred metric that is. *)
Theorem default_sort_metric (preferred columns : list string) :
  (_find_default_sort_metric preferred columns = None <-> columns = []) /\
  (forall m, _find_default_sort_metric preferred columns = Some m ->
     m ∈ columns /\
     ((exists p, p ∈ preferred /\ p ∈ columns) ->
      exists i, preferred !! i = Some m /\
                forall j p, j < i -> preferred !! j = Some p -> p ∉ columns)).
Proof.
  unfold _find_default_sort_metric.
  pose proof (first_preferred_spec preferred columns) as H.
  destruct (first_preferred preferred columns) as [m|].
  - destruct H as (i & Hi & Hm & Hfirst). split.
    + split; [done|]. intros ->. by apply elem_of_nil in Hm.
    + intros ? [= <-]. split; [done|]. intros _. by exists i.
  - split.
    + by destruct columns.
    + intros m Hm. split.
      * destruct columns; simpl in Hm; simplify_eq. left.
      * intros (p & Hp & Hc). by apply H in Hp.
Qed.

End NameFacts.


(** ** PATCH /experiment/{id} *)

Module PatchExperimentFacts.
Import Crud Schemas Create Endpoints CrudRest EndpointsRest SpecRest.

Local Abbreviation pending := ({[ "metric_status" := PStr "pending" ]} : Row).

Lemma row_id_update_fields (obj upd : Row) :
  upd !! "id" = None -> row_id (update_fields obj upd) = row_id obj.
Proof.
  intros H. unfold row_id. by rewrite CrudFacts.update_fields_lookup, H.
Qed.

Lemma ids_ok_insert (t : list Row) (i : nat) (old new : Row) :
  t !! i = Some old -> new !! "id" = old !! "id" ->
  ids_ok t -> ids_ok (<[i:=new]> t).
Proof.
  intros Hi Hid [Hint Hnd]. split.
  - intros r (j & Hj)%list_elem_of_lookup_1.
    destruct (decide (j = i)) as [->|Hne].
    + rewrite list_lookup_insert_eq in Hj by by eapply lookup_lt_Some.
      simplify_eq. rewrite Hid. apply Hint. by eapply list_elem_of_lookup_2.
    + rewrite list_lookup_insert_ne in Hj by done.
      apply Hint. by eapply list_elem_of_lookup_2.
  - rewrite list_fmap_insert.
    replace (row_id new) with (row_id old) by (unfold row_id; by rewrite Hid).
    rewrite list_insert_id; [done|]. by rewrite list_lookup_fmap, Hi.
Qed.

Lemma ids_ok_finish_results (id : Z) (rs : list Row) :
  ids_ok rs -> ids_ok (finish_results id rs).
Proof.
  intros [Hint Hnd]. unfold finish_results. split.
  - intros r (r0 & -> & Hr0)%list_elem_of_fmap.
    destruct (Hint r0 Hr0) as [i Hi]. exists i.
    destruct (decide (owned_by id r0)); [|done].
    unfold setattr. by rewrite lookup_insert_ne.
  - rewrite <- list_fmap_compose.
    erewrite list_fmap_ext; [exact Hnd|].
    intros j r _. simpl. destruct (decide (owned_by id r)); [|done].
    unfold row_id, setattr. by rewrite lookup_insert_ne.
Qed.

Lemma ids_ok_add_row (t : list Row) (r : Row) :
  r !! "id" = None -> ids_ok t -> ids_ok (add_row t r).2.
Proof.
  intros Hr [Hint Hnd]. unfold add_row.
  rewrite decide_False by (rewrite Hr; by intros [? ?]). simpl. split.
  - intros x [Hx| ->%list_elem_of_singleton]%elem_of_app; [by apply Hint|].
    exists (fresh_id t). by rewrite lookup_insert_eq.
  - rewrite fmap_app. apply NoDup_app. split; [done|]. split.
    + intros z (x & -> & Hx)%list_elem_of_fmap. simpl.
      intros Hz%list_elem_of_singleton.
      pose proof (CreateFacts.fresh_id_gt t x Hx) as Hlt.
      unfold row_id at 2 in Hz. rewrite lookup_insert_eq in Hz. lia.
    + simpl. apply NoDup_singleton.
Qed.

(** Setting a Result to pending keeps the pending Results pending. *)
Lemma pending_update (db : Db) (rid : Z) (experiment : value) (m : string) :
  pending_result db experiment m ->
  pending_result (update_result db rid pending).2 experiment m.
Proof.
  intros (r & Hr & He & Hm & Hs). unfold update_result.
  destruct (query_get (results db) rid) as [[i r0]|] eqn:Hget;
    [|by exists r].
  simpl. apply list_elem_of_lookup_1 in Hr as [j Hj].
  destruct (decide (j = i)) as [->|Hne].
  - apply list_find_Some in Hget as (Hi & _ & _). simplify_eq.
    exists (update_fields r pending). split; [|split; [|split]].
    + eapply list_elem_of_lookup_2. apply list_lookup_insert_eq.
      by eapply lookup_lt_Some.
    + by rewrite CrudFacts.update_fields_lookup.
    + by rewrite CrudFacts.update_fields_lookup.
    + by rewrite CrudFacts.update_fields_lookup.
  - exists r. split; [|done]. cbn [results].
    apply (list_elem_of_lookup_2 _ j). by rewrite list_lookup_insert_ne.
Qed.

Lemma pending_create (db : Db) (eid : option Z) (metric : string)
    (experiment : value) (m : string) :
  pending_result db experiment m ->
  pending_result (create_result db eid metric).2 experiment m.
Proof.
  intros (r & Hr & H). exists r. split; [|done].
  unfold create_result, add_row. simpl. apply elem_of_app. by left.
Qed.

Lemma given_as_id (v : value) :
  given_id (as_id v) = true -> exists i, v = PInt i /\ i <> 0%Z.
Proof.
  destruct v as [| | | | |]; simpl; try done.
  all: try (intros H%negb_true_iff%Z.eqb_neq; by eauto).
Qed.

(** The loop over the metrics of the patch: when it ends without an
    exception, each metric has a pending Result. *)
Lemma init_results_spec (metrics : list string) (db db2 : Db) (db_exp : Row) :
  ids_ok (results db) ->
  init_results db db_exp metrics = (db2, None) ->
  ids_ok (results db2) /\
  (forall m, pending_result db (getattr db_exp "id") m ->
             pending_result db2 (getattr db_exp "id") m) /\
  (forall m, m ∈ metrics -> pending_result db2 (getattr db_exp "id") m) /\
  experiments db2 = experiments db.
Proof.
  revert db. induction metrics as [|metric metrics IH]; intros db Hok Hinit.
  - simpl in Hinit. simplify_eq. repeat split; [apply Hok..|done|].
    by intros m ?%elem_of_nil.
  - cbn [init_results] in Hinit.
    destruct (get_result db None (as_id (getattr db_exp "id")) (Some metric))
      as [[result|]|x] eqn:Hget; [| |done].
    + unfold get_result in Hget. cbn [given_id] in Hget.
      destruct (given_id (as_id (getattr db_exp "id"))) eqn:Hgiven; [|done].
      destruct (given_name (Some metric)); [|done].
      cbn [andb default] in Hget.
      destruct (given_as_id _ Hgiven) as (eid & Heid & _).
      rewrite Heid in Hget. cbn [as_id default] in Hget.
      simplify_eq. apply fmap_Some in Hget as ([j r] & Hfind & ->).
      cbn [snd] in *. set (result := r) in *.
      apply list_find_Some in Hfind as (Hj & [Hre Hrm] & _).
      assert (Hin : result ∈ results db) by by eapply list_elem_of_lookup_2.
      destruct (proj1 Hok result Hin) as [k Hk].
      assert (Hrow : row_id result = k) by (unfold row_id; by rewrite Hk).
      destruct (query_get (results db) k) as [[j' r']|] eqn:Hq.
      2:{ exfalso. unfold query_get in Hq.
          eapply list_find_None in Hq.
          eapply (proj1 (Forall_forall _ _)) in Hq; [|exact Hin]. done. }
      pose proof Hq as Hq'. apply list_find_Some in Hq' as (Hj' & Hid' & _).
      assert (r' = result) as ->.
      { eapply RemoveFacts.ids_ok_same_id; [exact Hok| |done|done|done].
        by eapply list_elem_of_lookup_2. }
      set (db1 := (update_result db (row_id result) pending).2) in *.
      assert (Hres1 : results db1
                      = <[j':=update_fields result pending]> (results db)).
      { unfold db1, update_result. by rewrite Hrow, Hq. }
      assert (Hexp1 : experiments db1 = experiments db).
      { unfold db1, update_result. by rewrite Hrow, Hq. }
      assert (Hok1 : ids_ok (results db1)).
      { rewrite Hres1. eapply ids_ok_insert; [done| |done].
        by rewrite CrudFacts.update_fields_lookup. }
      destruct (IH db1 Hok1 Hinit) as (Hok2 & Hkeep & Hall & Hexp).
      split; [done|]. split; [|split].
      * intros m Hm. apply Hkeep. by apply pending_update.
      * intros m [->|Hm]%elem_of_cons; [|by apply Hall].
        apply Hkeep. exists (update_fields result pending).
        rewrite Hres1, Heid. split; [|split; [|split]].
        -- eapply list_elem_of_lookup_2. apply list_lookup_insert_eq.
           by eapply lookup_lt_Some.
        -- by rewrite CrudFacts.update_fields_lookup.
        -- by rewrite CrudFacts.update_fields_lookup.
        -- by rewrite CrudFacts.update_fields_lookup.
      * by rewrite Hexp.
    + unfold get_result in Hget. cbn [given_id] in Hget.
      destruct (given_id (as_id (getattr db_exp "id"))) eqn:Hgiven; [|done].
      destruct (given_as_id _ Hgiven) as (eid & Heid & _).
      set (db1 := (create_result db (as_id (getattr db_exp "id")) metric).2)
        in *.
      assert (Hok1 : ids_ok (results db1)).
      { unfold db1, create_result. cbn [snd results].
        apply ids_ok_add_row; [|done].
        unfold result_to_table_init. by simplify_map_eq. }
      destruct (IH db1 Hok1 Hinit) as (Hok2 & Hkeep & Hall & Hexp).
      split; [done|]. split; [|split].
      * intros m Hm. apply Hkeep. by apply pending_create.
      * intros m [->|Hm]%elem_of_cons; [|by apply Hall].
        apply Hkeep. unfold db1, create_result, add_row, pending_result.
        cbn [snd fst results]. rewrite Heid. cbn [as_id opt_int].
        eexists. split; [apply elem_of_app; right; by apply list_elem_of_singleton|].
        unfold result_to_table_init.
        rewrite decide_False by (simplify_map_eq; by intros [? ?]).
        by simplify_map_eq.
      * by rewrite Hexp.
Qed.

Section facts.
Variable require : string -> list string.

Local Abbreviation patch_experiment := (EndpointsRest.patch_experiment require).


(** X20: a patch on an experiment that is running is answered 400 and no task is
    dispatched, but the fields of the patch are stored all the same. *)
Theorem patch_experiment_running (w : World) (id : Z) (p : ExperimentPatch)
    (e : Row) :
  get_experiment (world_db w) id = Some e ->
  getattr e "experiment_status" = PStr "running_answers" \/
  getattr e "experiment_status" = PStr "running_metrics" ->
  ep_fields p !! "experiment_status" = None ->
  ep_fields p !! "id" = None ->
  exists w' detail,
    patch_experiment w id p = (w', HttpError 400 detail) /\
    world_calls w' = world_calls w /\
    results (world_db w') = results (world_db w) /\
    get_experiment (world_db w') id = Some (update_fields e (ep_fields p)).
Proof.
  intros Hget Hrun Hstatus Hid.
  unfold EndpointsRest.patch_experiment, update_experiment.
  unfold get_experiment in Hget.
  destruct (query_get (experiments (world_db w)) id) as [[i e0]|] eqn:Hq;
    simplify_eq/=.
  rewrite CrudFacts.update_experiment_fold_obj,
    CrudFacts.update_experiment_fold_results.
  assert (Hst : getattr (update_fields e (ep_fields p)) "experiment_status"
                = getattr e "experiment_status").
  { unfold getattr. by rewrite CrudFacts.update_fields_lookup, Hstatus. }
  destruct (decide (getattr (update_fields e (ep_fields p))
                            "experiment_status" <> PStr "pending" /\
                    getattr (update_fields e (ep_fields p))
                            "experiment_status" <> PStr "finished"))
    as [_|Hno].
  2:{ exfalso. apply Hno. rewrite Hst. by destruct Hrun as [-> | ->]. }
  eexists _, _. split; [done|]. cbn [world_calls world_db results experiments].
  split; [done|]. split.
  - rewrite decide_False; [done|]. by rewrite Hstatus.
  - unfold get_experiment. cbn [experiments].
    erewrite ReadFacts.query_get_updated; [done|exact Hq|].
    apply ReadFacts.update_fields_keeps_id; [by left|].
    by apply list_find_Some in Hq as (_ & ? & _).
Qed.

End facts.

End PatchExperimentFacts.



(** ** DELETE /experiment/{id} and PATCH /dataset/{id} *)

Module HandlerFacts.
Import Crud Schemas Create Endpoints CrudRest EndpointsRest SpecRest.

Lemma list_find_filter_snd {A} (P Q : A -> Prop) `{forall x, Decision (P x)}
    `{forall x, Decision (Q x)} (l : list A) :
  (forall x, P x -> Q x) ->
  snd <$> list_find P (filter Q l) = snd <$> list_find P l.
Proof.
  intros HPQ. induction l as [|a l IH]; [done|].
  destruct (decide (Q a)) as [Hq|Hq].
  - rewrite filter_cons_True by done. cbn [list_find].
    destruct (decide (P a)); [done|].
    destruct (list_find P (filter Q l)) as [[? ?]|],
      (list_find P l) as [[? ?]|]; by simplify_eq/=.
  - rewrite filter_cons_False by done. cbn [list_find].
    destruct (decide (P a)) as [Hp|_]; [by apply HPQ in Hp|].
    rewrite IH. by destruct (list_find P l) as [[? ?]|].
Qed.

Lemma has_id_other (id j : Z) (r : Row) : j <> id -> has_id j r -> ~ has_id id r.
Proof. unfold has_id. intros Hne Hj Hid. rewrite Hj in Hid. congruence. Qed.

(** X21: DELETE /experiment/{id} answers 404 and changes nothing for an id
    that is not stored.  For a stored id, ids being unique, it answers ok
    and dispatches nothing; afterwards the experiment cannot be read, a
    second DELETE answers 404, and every other experiment reads as
    before. *)
Theorem delete_experiment_gone (w : World) (id : Z) :
  ids_ok (experiments (world_db w)) ->
  (get_experiment (world_db w) id = None ->
     delete_experiment w id = (w, HttpError 404 "Experiment not found")) /\
  (forall e, get_experiment (world_db w) id = Some e ->
     exists w',
       delete_experiment w id = (w', Json "ok") /\
       world_calls w' = world_calls w /\
       get_experiment (world_db w') id = None /\
       delete_experiment w' id = (w', HttpError 404 "Experiment not found") /\
       forall j, j <> id ->
         get_experiment (world_db w') j = get_experiment (world_db w) j).
Proof.
  intros Hok. unfold delete_experiment, get_experiment. split.
  - intros Hnone. unfold remove_experiment.
    by destruct (query_get (experiments (world_db w)) id).
  - intros e Hsome.
    pose proof (RemoveFacts.remove_experiment_rows (world_db w) id Hok) as Hrows.
    unfold remove_experiment in *.
    destruct (query_get (experiments (world_db w)) id) as [[i e0]|] eqn:Hq;
      [|done].
    cbn [snd experiments] in Hrows. eexists. split; [done|].
    cbn [world_calls world_db experiments]. split; [done|].
    assert (Hgone : query_get (delete i (experiments (world_db w))) id = None).
    { rewrite Hrows. apply list_find_None, Forall_forall.
      by intros x [? _]%list_elem_of_filter. }
    rewrite Hgone. split; [done|]. split; [done|].
    intros j Hne. rewrite Hrows. unfold query_get.
    apply list_find_filter_snd. intros x. by apply has_id_other.
Qed.

(** X22: PATCH /dataset/{id} answers 404 and changes nothing for an id that
    is not stored.  For a stored id and a patch that leaves the id alone,
    it answers the dataset with the fields of the patch that are not None
    overwritten; GET /dataset/{id} then gives the same answer, and every
    other dataset reads as before. *)
Theorem patch_dataset_read_back (w : World) (id : Z) (dataset_patch : Row) :
  dataset_patch !! "id" = None \/ dataset_patch !! "id" = Some PNone ->
  (get_dataset (world_db w) id = None ->
     patch_dataset w id dataset_patch
     = (w, HttpError 404 "Dataset not found")) /\
  (forall d, get_dataset (world_db w) id = Some d ->
     exists w',
       patch_dataset w id dataset_patch
       = (w', Json (from_orm Dataset_fields (update_fields d dataset_patch))) /\
       read_dataset w' id false
       = Json (from_orm Dataset_fields (update_fields d dataset_patch)) /\
       forall j, j <> id ->
         get_dataset (world_db w') j = get_dataset (world_db w) j).
Proof.
  intros Hid. unfold patch_dataset, read_dataset, get_dataset, update_dataset.
  split.
  - intros Hnone. by destruct (query_get (datasets (world_db w)) id).
  - intros d Hsome.
    destruct (query_get (datasets (world_db w)) id) as [[i d0]|] eqn:Hq;
      simplify_eq/=.
    pose proof Hq as (Hi & Hd & _)%list_find_Some.
    eexists. split; [done|]. cbn [world_db datasets]. split.
    + erewrite ReadFacts.query_get_updated; [done|exact Hq|].
      by apply ReadFacts.update_fields_keeps_id.
    + intros j Hne. unfold query_get.
      rewrite (ReadFacts.list_find_insert_other _ _ _ d); [done|done|..].
      * intros Hj. by apply (has_id_other id j d).
      * intros Hj. apply (has_id_other id j _ Hne Hj).
        by apply ReadFacts.update_fields_keeps_id.
Qed.

End HandlerFacts.

(** ** The statements of the last sections, on the worked inputs *)

Module MoreWitnesses.
Import Crud Schemas Create Endpoints CrudRest EndpointsRest Leaderboard Names
  Ui Spec SpecRest Samples.

(** An equation between closed terms, settled by evaluation. *)
Local Ltac run :=
  lazymatch goal with
  | |- @eq ?T ?a ?b =>
      tryif has_evar b then (vm_compute; reflexivity)
      else exact (@eq_refl T b <: a = b)
  end.

Lemma ids_okb_ok (t : list Row) : ids_okb t = true -> ids_ok t.
Proof.
  unfold ids_okb, ids_ok.
  intros [Hall Hnd%bool_decide_eq_true]%andb_true_iff. split; [|exact Hnd].
  intros r Hr%list_elem_of_In.
  rewrite forallb_forall in Hall. specialize (Hall r Hr).
  destruct (r !! "id") as [[| | | | |]|]; try discriminate Hall.
  all: eexists; reflexivity.
Qed.

Lemma sample_results_ids_ok : ids_ok (results retry_db).
Proof. apply ids_okb_ok. run. Qed.

Lemma sample_experiments_ids_ok : ids_ok (experiments retry_db).
Proof. apply ids_okb_ok. run. Qed.

Lemma remove_experiment_cascade_witness :
  remove_experiment sample_db 7 = (false, sample_db) /\
  exists db',
    remove_experiment sample_db 1 = (true, db') /\
    experiments db' = delete 0 (experiments sample_db) /\
    datasets db' = datasets sample_db.
Proof.
  destruct (RemoveFacts.remove_experiment_cascade sample_db 7) as [Hnone _].
  destruct (RemoveFacts.remove_experiment_cascade sample_db 1) as [_ Hsome].
  split.
  - apply Hnone. run.
  - destruct (Hsome 0 (default ∅ (experiments sample_db !! 0)))
      as (db' & Hrun & Hexps & _ & _ & Hds & _).
    + run.
    + exists db'. split; [exact Hrun|]. split; [exact Hexps|exact Hds].
Defined.

Lemma remove_experimentset_cascade_witness :
  exists db',
    remove_experimentset retry_db 1 = (true, db') /\
    experimentsets db' = [] /\ experiments db' = [].
Proof.
  destruct (RemoveFacts.remove_experimentset_cascade retry_db 1) as [_ Hsome].
  destruct (Hsome 0 (default ∅ (experimentsets retry_db !! 0)))
    as (db' & Hrun & Hsets & Hexps & _).
  - exact sample_experiments_ids_ok.
  - run.
  - exists db'. split; [exact Hrun|]. split.
    + rewrite Hsets. run.
    + rewrite Hexps. run.
Defined.

Lemma get_answer_after_upsert_witness :
  exists db_answer db',
    upsert_answer sample_db 1 0 sample_fields = Ok (db_answer, db') /\
    get_answer db' None (Some 1%Z) (Some 0%Z) = Ok (Some db_answer) /\
    db_answer !! "answer" = Some (PStr "no").
Proof.
  destruct (ReadFacts.get_answer_after_upsert sample_db 1 0 sample_fields)
    as (db_answer & db' & Hrun & Hget & Hfields & _).
  - vm_compute. repeat constructor. set_solver.
  - unfold names_key. intros [[? H]|[? H]]; vm_compute in H; discriminate H.
  - lia.
  - exists db_answer, db'. split; [exact Hrun|]. split; [exact Hget|].
    apply Hfields. run.
Defined.

Lemma update_twice_witness :
  update_dataset (update_dataset sample_db 1 sample_patch).2 1 sample_patch
  = update_dataset sample_db 1 sample_patch /\
  update_experiment (update_experiment sample_db 1 sample_patch).2 1
                    sample_patch
  = update_experiment sample_db 1 sample_patch.
Proof.
  apply (ReadFacts.update_twice sample_db 1 sample_patch).
  left. run.
Defined.

Lemma dataset_accepted_witness :
  (exists row, dataset_to_table_init sample_read_json
                 (mkDatasetCreate "onlyq" "query-only") = Ok row) /\
  (exists msg, dataset_to_table_init sample_read_json
                 (mkDatasetCreate "bad" "unreadable")
               = Raise (SchemaError msg)).
Proof.
  split.
  - apply (proj1 (proj2 (SchemaFacts.dataset_accepted sample_read_json
                           (mkDatasetCreate "onlyq" "query-only")))
             (mkDataFrame ["query"] 3)).
    + run.
    + left. set_solver.
  - apply (proj2 (proj2 (SchemaFacts.dataset_accepted sample_read_json
                           (mkDatasetCreate "bad" "unreadable")))).
    left. run.
Defined.

Lemma dataset_round_trip_witness :
  exists id full,
    read_dataset
      (EndpointsRest.create_dataset sample_read_json empty_world
         (mkDatasetCreate "truth" "query-truth")).1 id true
    = Json full /\
    full !! "df" = Some (PStr "query-truth") /\
    full !! "name" = Some (PStr "truth").
Proof.
  destruct (SchemaFacts.dataset_round_trip sample_read_json empty_world
              (EndpointsRest.create_dataset sample_read_json empty_world
                 (mkDatasetCreate "truth" "query-truth")).1
              (mkDatasetCreate "truth" "query-truth")
              (created (EndpointsRest.create_dataset sample_read_json
                          empty_world (mkDatasetCreate "truth" "query-truth"))))
    as (id & full & _ & _ & _ & Hread & Hdf & Hname & _).
  - run.
  - exists id, full. split; [exact Hread|]. split; [exact Hdf|exact Hname].
Defined.

Lemma experiment_accepted_witness :
  exists init,
    experiment_to_table_init ops_require sample_read_json empty_db
                             model_request = Ok init.
Proof.
  apply (proj2 (SchemaFacts.experiment_accepted ops_require sample_read_json
                  empty_db model_request)
           (returned (request_dataset sample_read_json empty_db
                                      model_request))).
  - run.
  - split.
    + intros [[H _]|[[_ [_ H]]|[[_ H]|[_ H]]]]; vm_compute in H;
        discriminate H.
    + intros [_ [_ H]]. vm_compute in H. discriminate H.
Defined.

Lemma experimentset_both_rejected_witness :
  exists msg,
    experimentset_to_table_init ops_require sample_read_json string id
      sample_validate given_db both_set = Raise (SchemaError msg).
Proof.
  apply (SetFacts.experimentset_both_rejected ops_require sample_read_json
           string id sample_validate given_db both_set
           [output_request] sample_grid); reflexivity.
Defined.

Lemma experimentset_no_repeat_witness :
  exists init,
    experimentset_to_table_init ops_require sample_read_json string id
      sample_validate given_db idle_set = Ok init /\
    si_experiments init = Some [] /\
    getattr (si_fields init) "name" = PStr "set".
Proof.
  apply (SetFacts.experimentset_no_repeat ops_require sample_read_json
           string id sample_validate given_db idle_set idle_grid);
    [reflexivity|reflexivity|vm_compute; discriminate].
Defined.

Lemma experimentset_members_dumped_witness :
  exists init os,
    experimentset_to_table_init ops_require sample_read_json string id
      sample_validate given_db listed_set = Ok init /\
    si_experiments init = Some os /\
    Forall2 (dumped sample_read_json) [rejected_request] os.
Proof.
  apply (SetFacts.experimentset_members_dumped ops_require sample_read_json
           string id sample_validate given_db listed_set [rejected_request]);
    [reflexivity|reflexivity|].
  constructor; [|constructor].
  exists (returned (dataset_to_table_init sample_read_json
                      (mkDatasetCreate "onlyq" "query-only"))).
  run.
Defined.

Lemma get_experiments_page_witness :
  exists page,
    get_experiments page_db 0 10 true None false = Ok page /\
    length page <= 100 /\ StronglySorted (flip id_le) page.
Proof.
  destruct (ListFacts.get_experiments_page page_db 0 10 true None false)
    as (page & Hrun & Hlen & _ & _ & Hsorted & _); [lia|lia|].
  exists page. split; [exact Hrun|]. split; [exact Hlen|exact Hsorted].
Defined.

Lemma read_experiments_not_empty_witness :
  exists body,
    read_experiments (mkWorld page_db []) None 100 = Json body /\
    body <> [] /\ length body <= 100.
Proof.
  destruct (proj2 (ListFacts.read_experiments_not_empty
                     (mkWorld page_db []) None 100)
              (listed (read_experiments (mkWorld page_db []) None 100)))
    as (Hne & Hlen & _).
  - run.
  - exists (listed (read_experiments (mkWorld page_db []) None 100)).
    split; [run|]. split; [exact Hne|exact Hlen].
Defined.

Lemma leaderboard_ranked_witness :
  exists entries,
    get_leaderboard board_db "judge_notator" None 10 = Ok entries /\
    StronglySorted ranks_before entries.
Proof.
  destruct (ListFacts.leaderboard_ranked board_db "judge_notator" None 10)
    as (entries & Hrun & _ & Hsorted & _); [lia|].
  exists entries. split; [exact Hrun|exact Hsorted].
Defined.

Lemma bump_auto_name_witness :
  bump (auto_name "grid" 2) 2 (PStr "grid") = Ok (auto_name "grid" 4) /\
  bump (auto_name "None" 0) 2 (PStr "grid") = Ok (auto_name "grid" 2).
Proof.
  split.
  - apply (NameFacts.bump_auto_name "grid" 2 2 (PStr "grid")). reflexivity.
  - apply (NameFacts.bump_auto_name "None" 0 2 (PStr "grid")). reflexivity.
Defined.

Lemma repeat_mode_of_grid_witness : _check_repeat_mode shown = true.
Proof.
  apply (proj1 (NameFacts.repeat_mode_of_grid shown)).
  exists (Ui.mkExperimentJson (auto_name "grid" 0) "finished" 3 3 3 2 1 3),
    "grid", 0.
  split; [left|reflexivity].
Defined.

Lemma expset_status_shown_witness :
  (_get_expset_status []).1 = ui_pending /\
  (_get_expset_status shown).1 <> ui_finished.
Proof.
  split.
  - apply (proj2 (NameFacts.expset_status_shown [])). constructor.
  - intros H.
    apply (proj1 (NameFacts.expset_status_shown shown)) in H as [_ H].
    apply Forall_cons in H as [_ H]. apply Forall_cons in H as [H _].
    discriminate H.
Defined.

Lemma default_sort_metric_witness :
  _find_default_sort_metric ["judge_exactness"; "contextual_relevancy"] []
  = None /\
  exists m,
    _find_default_sort_metric ["judge_exactness"; "contextual_relevancy"]
      ["bleu"; "contextual_relevancy"] = Some m /\
    m ∈ ["bleu"; "contextual_relevancy"].
Proof.
  split.
  - apply (proj1 (NameFacts.default_sort_metric
                    ["judge_exactness"; "contextual_relevancy"] [])).
    reflexivity.
  - exists "contextual_relevancy". split; [reflexivity|].
    apply (proj2 (NameFacts.default_sort_metric
                    ["judge_exactness"; "contextual_relevancy"]
                    ["bleu"; "contextual_relevancy"])
             "contextual_relevancy"). reflexivity.
Defined.


Lemma patch_experiment_running_witness :
  exists w' detail,
    patch_experiment ops_require (mkWorld sample_db []) 1 note_patch
    = (w', HttpError 400 detail) /\
    world_calls w' = [] /\
    get_experiment (world_db w') 1
    = Some (update_fields (default ∅ (experiments sample_db !! 0))
                          (ep_fields note_patch)).
Proof.
  destruct (PatchExperimentFacts.patch_experiment_running ops_require
              (mkWorld sample_db []) 1 note_patch
              (default ∅ (experiments sample_db !! 0)))
    as (w' & detail & Hrun & Hcalls & _ & Hget).
  - run.
  - right. run.
  - run.
  - run.
  - exists w', detail. split; [exact Hrun|]. split; [exact Hcalls|exact Hget].
Defined.

Lemma delete_experiment_gone_witness :
  exists w',
    delete_experiment (mkWorld retry_db []) 2 = (w', Json "ok") /\
    get_experiment (world_db w') 2 = None /\
    delete_experiment w' 2 = (w', HttpError 404 "Experiment not found").
Proof.
  destruct (HandlerFacts.delete_experiment_gone (mkWorld retry_db []) 2
              sample_experiments_ids_ok) as [_ Hsome].
  destruct (Hsome (default ∅ (experiments retry_db !! 1)))
    as (w' & Hrun & _ & Hgone & Hagain & _).
  - run.
  - exists w'. split; [exact Hrun|]. split; [exact Hgone|exact Hagain].
Defined.

Lemma patch_dataset_read_back_witness :
  exists w',
    patch_dataset (mkWorld sample_db []) 1 name_patch
    = (w', Json (from_orm Dataset_fields
                   (update_fields (default ∅ (datasets sample_db !! 0))
                                  name_patch))) /\
    read_dataset w' 1 false
    = Json (from_orm Dataset_fields
              (update_fields (default ∅ (datasets sample_db !! 0))
                             name_patch)).
Proof.
  destruct (HandlerFacts.patch_dataset_read_back (mkWorld sample_db []) 1
              name_patch) as [_ Hsome].
  - left. run.
  - destruct (Hsome (default ∅ (datasets sample_db !! 0)))
      as (w' & Hrun & Hread & _).
    + run.
    + exists w'. split; [exact Hrun|exact Hread].
Defined.

End MoreWitnesses.
